(** * LMS backend: a shallow embedding of the request handlers

    The service is an Express application over a document database.  Each
    controller is a function from the request (and the ambient clock and
    identifier supply) to a computation over the collections, ending in a
    reply.  External collaborators (payment SDKs, bcrypt, HMAC, JWT, the media
    store) are packaged in the record [Externals] and stay abstract. *)

From Stdlib Require Import ZArith.
From stdpp Require Import base tactics option strings list sorting.

Set Default Proof Using "Type".
Set Warnings "-register-all".

(** ** JavaScript values *)

(** Values handed to [res.json]: an object is an association list of own
    properties in insertion order. *)
Inductive jsval : Type :=
| JUndefined
| JNull
| JBool (b : bool)
| JNum (n : Z)
| JStr (s : string)
| JArr (xs : list jsval)
| JObj (fields : list (string * jsval)).

(** [k in o], for own properties. *)
Fixpoint fields_has (k : string) (fs : list (string * jsval)) : bool :=
  match fs with
  | [] => false
  | (k', _) :: fs' => if String.eqb k k' then true else fields_has k fs'
  end.

Definition js_has (k : string) (v : jsval) : bool :=
  match v with
  | JObj fs => fields_has k fs
  | _ => false
  end.

Fixpoint fields_get (k : string) (fs : list (string * jsval)) : jsval :=
  match fs with
  | [] => JUndefined
  | (k', v) :: fs' => if String.eqb k k' then v else fields_get k fs'
  end.

(** [o.k]: reading a property that is not there yields [undefined]. *)
Definition js_get (k : string) (v : jsval) : jsval :=
  match v with
  | JObj fs => fields_get k fs
  | _ => JUndefined
  end.

(** Writing a property in an object literal: a later [k: v] overrides an
    earlier one in place, a new key is appended. *)
Fixpoint obj_set (k : string) (v : jsval) (fs : list (string * jsval))
  : list (string * jsval) :=
  match fs with
  | [] => [(k, v)]
  | (k', v') :: fs' =>
      if String.eqb k k' then (k', v) :: fs' else (k', v') :: obj_set k v fs'
  end.

(** [{...base, k1: v1, ..., kn: vn}] *)
Definition obj_spread (base extra : list (string * jsval))
  : list (string * jsval) :=
  fold_left (fun acc kv => obj_set (fst kv) (snd kv) acc) extra base.

Definition truthy (v : jsval) : bool :=
  match v with
  | JUndefined | JNull => false
  | JBool b => b
  | JNum n => negb (n =? 0)%Z
  | JStr s => negb (String.eqb s "")
  | JArr _ | JObj _ => true
  end.

(** An optional value written in an object literal: the key is there and
    holds [undefined] when the value is absent. *)
Definition opt_js {A} (f : A -> jsval) (o : option A) : jsval :=
  match o with
  | Some a => f a
  | None => JUndefined
  end.

(** An optional path of a document: [toObject] leaves out a path that is not
    set. *)
Definition opt_field {A} (k : string) (f : A -> jsval) (o : option A)
  : list (string * jsval) :=
  match o with
  | Some a => [(k, f a)]
  | None => []
  end.

(** Falsy strings and numbers of a request body: absent or empty, absent or
    zero. *)
Definition truthy_str (o : option string) : bool :=
  match o with
  | Some s => negb (String.eqb s "")
  | None => false
  end.

Definition truthy_num (o : option Z) : bool :=
  match o with
  | Some n => negb (n =? 0)%Z
  | None => false
  end.

(** [a || b] on an optional string against a stored string. *)
Definition or_str (a : option string) (b : string) : string :=
  match a with
  | Some s => if String.eqb s "" then b else s
  | None => b
  end.

Definition or_num (a : option Z) (b : Z) : Z :=
  match a with
  | Some n => if (n =? 0)%Z then b else n
  | None => b
  end.

(** ** Documents

    The schema files are not among the sources; the fields are the ones the
    controllers read and write. *)

Definition ObjectId := string.

Module User.
Record t := mk {
  _id : ObjectId;
  name : string;
  email : string;
  password : option string;
  photoUrl : option string;
  enrolledCourses : list ObjectId;
  passwordResetToken : option string;
  passwordResetExpires : option Z
}.

Definition with_password (pw : option string) (u : t) : t :=
  mk (_id u) (name u) (email u) pw (photoUrl u) (enrolledCourses u)
     (passwordResetToken u) (passwordResetExpires u).

Definition with_enrolledCourses (cs : list ObjectId) (u : t) : t :=
  mk (_id u) (name u) (email u) (password u) (photoUrl u) cs
     (passwordResetToken u) (passwordResetExpires u).

Definition with_reset (tok : option string) (exp : option Z) (u : t) : t :=
  mk (_id u) (name u) (email u) (password u) (photoUrl u)
     (enrolledCourses u) tok exp.

Definition with_profile (n e : string) (p : option string) (u : t) : t :=
  mk (_id u) n e (password u) p (enrolledCourses u)
     (passwordResetToken u) (passwordResetExpires u).

(** The plain object of a document; an [undefined] path is not an own
    property of it. *)
Definition fields (u : t) : list (string * jsval) :=
  [("_id", JStr (_id u)); ("name", JStr (name u)); ("email", JStr (email u))]
  ++ opt_field "password" JStr (password u)
  ++ opt_field "photoUrl" JStr (photoUrl u)
  ++ [("enrolledCourses", JArr (map JStr (enrolledCourses u)))].

Definition toObject (u : t) : jsval := JObj (fields u).

(** What a query yields of a user when it does not ask for the password
    path (the controllers that need it write [select("+password")]). *)
Definition unselected (u : t) : t := with_password None u.
End User.

Module Lecture.
Record t := mk {
  _id : ObjectId;
  title : string;
  description : string;
  videoUrl : option string;
  duration : option Z;
  isPreview : option bool;
  course : ObjectId
}.

Definition toObject (l : t) : jsval :=
  JObj ([("_id", JStr (_id l)); ("title", JStr (title l));
         ("description", JStr (description l))]
        ++ opt_field "videoUrl" JStr (videoUrl l)
        ++ opt_field "duration" JNum (duration l)
        ++ opt_field "isPreview" JBool (isPreview l)
        ++ [("course", JStr (course l))]).
End Lecture.

Module Course.
Record t := mk {
  _id : ObjectId;
  title : string;
  description : string;
  price : Z;
  thumbnail : option string;
  instructor : ObjectId;
  lectures : list ObjectId;
  isPublished : bool;
  category : option string;
  level : option string
}.

Definition with_thumbnail (th : option string) (c : t) : t :=
  mk (_id c) (title c) (description c) (price c) th (instructor c)
     (lectures c) (isPublished c) (category c) (level c).

Definition with_title (s : string) (c : t) : t :=
  mk (_id c) s (description c) (price c) (thumbnail c) (instructor c)
     (lectures c) (isPublished c) (category c) (level c).

Definition with_description (s : string) (c : t) : t :=
  mk (_id c) (title c) s (price c) (thumbnail c) (instructor c)
     (lectures c) (isPublished c) (category c) (level c).

Definition with_price (p : Z) (c : t) : t :=
  mk (_id c) (title c) (description c) p (thumbnail c) (instructor c)
     (lectures c) (isPublished c) (category c) (level c).

Definition with_lectures (ls : list ObjectId) (c : t) : t :=
  mk (_id c) (title c) (description c) (price c) (thumbnail c)
     (instructor c) ls (isPublished c) (category c) (level c).

(** The object of a course whose [instructor] and [lectures] paths hold
    the given values (references, or what [populate] put there). *)
Definition toObjectWith (instr lects : jsval) (c : t) : list (string * jsval) :=
  [("_id", JStr (_id c)); ("title", JStr (title c));
   ("description", JStr (description c)); ("price", JNum (price c))]
  ++ opt_field "thumbnail" JStr (thumbnail c)
  ++ [("instructor", instr); ("lectures", lects);
      ("isPublished", JBool (isPublished c))]
  ++ opt_field "category" JStr (category c)
  ++ opt_field "level" JStr (level c).

Definition toObject (c : t) : jsval :=
  JObj (toObjectWith (JStr (instructor c)) (JArr (map JStr (lectures c))) c).
End Course.

Inductive PurchaseStatus := pending | completed | failed.

Definition status_eqb (a b : PurchaseStatus) : bool :=
  match a, b with
  | pending, pending | completed, completed | failed, failed => true
  | _, _ => false
  end.

Definition status_str (s : PurchaseStatus) : string :=
  match s with
  | pending => "pending"
  | completed => "completed"
  | failed => "failed"
  end.

Module CoursePurchase.
Record t := mk {
  _id : ObjectId;
  userId : ObjectId;
  courseId : ObjectId;
  amount : Z;
  status : PurchaseStatus;
  paymentId : string;
  purchaseDate : option Z;
  razorpayPaymentId : option string;
  razorpaySignature : option string;
  failureReason : option string
}.

Definition with_status (s : PurchaseStatus) (p : t) : t :=
  mk (_id p) (userId p) (courseId p) (amount p) s (paymentId p)
     (purchaseDate p) (razorpayPaymentId p) (razorpaySignature p)
     (failureReason p).

Definition with_purchaseDate (d : Z) (p : t) : t :=
  mk (_id p) (userId p) (courseId p) (amount p) (status p) (paymentId p)
     (Some d) (razorpayPaymentId p) (razorpaySignature p) (failureReason p).

Definition with_razorpay (pay sig : string) (p : t) : t :=
  mk (_id p) (userId p) (courseId p) (amount p) (status p) (paymentId p)
     (purchaseDate p) (Some pay) (Some sig) (failureReason p).

Definition with_failureReason (r : string) (p : t) : t :=
  mk (_id p) (userId p) (courseId p) (amount p) (status p) (paymentId p)
     (purchaseDate p) (razorpayPaymentId p) (razorpaySignature p) (Some r).

Definition toObject (p : t) : jsval :=
  JObj ([("_id", JStr (_id p)); ("userId", JStr (userId p));
         ("courseId", JStr (courseId p)); ("amount", JNum (amount p));
         ("status", JStr (status_str (status p)));
         ("paymentId", JStr (paymentId p))]
        ++ opt_field "purchaseDate" JNum (purchaseDate p)
        ++ opt_field "razorpayPaymentId" JStr (razorpayPaymentId p)
        ++ opt_field "razorpaySignature" JStr (razorpaySignature p)
        ++ opt_field "failureReason" JStr (failureReason p)).
End CoursePurchase.

Module CourseProgress.
Record t := mk {
  _id : ObjectId;
  course : ObjectId;
  user : ObjectId;
  completed : bool;
  lectures : list (ObjectId * bool)
}.

Definition with_completed (b : bool) (p : t) : t :=
  mk (_id p) (course p) (user p) b (lectures p).

Definition with_lectures (ls : list (ObjectId * bool)) (p : t) : t :=
  mk (_id p) (course p) (user p) (completed p) ls.

Definition toObject (p : t) : jsval :=
  JObj [("_id", JStr (_id p)); ("course", JStr (course p));
        ("user", JStr (user p)); ("completed", JBool (completed p));
        ("lectures",
          JArr (map (fun lc => JObj [("lecture", JStr (fst lc));
                                     ("completed", JBool (snd lc))])
                    (lectures p)))].
End CourseProgress.

(** ** The database and the handler monad *)

Inductive ModelName := MUser | MCourse | MLecture | MCoursePurchase | MCourseProgress.

Inductive DbMethod :=
| findOne_ | findById_ | find_ | populate_ | save_ | create_
| findOneAndUpdate_ | findByIdAndUpdate_ | findByIdAndDelete_.

(** One entry per call that reaches the database driver. *)
Definition DbCall : Type := ModelName * DbMethod.

Record World := mkWorld {
  users : list User.t;
  courses : list Course.t;
  lectures : list Lecture.t;
  purchases : list CoursePurchase.t;
  progresses : list CourseProgress.t;
  trace : list DbCall
}.

Inductive JsError :=
| TypeError (msg : string)
| ReferenceError (msg : string)
| ExternalError (msg : string).

Definition err_message (e : JsError) : string :=
  match e with
  | TypeError m | ReferenceError m | ExternalError m => m
  end.

Inductive Result (A : Type) :=
| Ok (a : A)
| Threw (e : JsError).
Arguments Ok {A} a.
Arguments Threw {A} e.

(** An [async] function body: it reads and writes the collections and
    either returns or throws; writes made before a throw stay. *)
Definition M (A : Type) : Type := World -> Result A * World.

Definition ret {A} (a : A) : M A := fun w => (Ok a, w).

Definition throw {A} (e : JsError) : M A := fun w => (Threw e, w).

Definition bind {A B} (m : M A) (k : A -> M B) : M B :=
  fun w =>
    match m w with
    | (Ok a, w') => k a w'
    | (Threw e, w') => (Threw e, w')
    end.

Definition lift {A} (r : Result A) : M A := fun w => (r, w).

Notation "'let*' x ':=' m 'in' k" := (bind m (fun x => k))
  (at level 10, x name, m at level 100, k at level 200).

Definition log (c : DbCall) : M unit :=
  fun w => (Ok tt, mkWorld (users w) (courses w) (lectures w) (purchases w)
                           (progresses w) (trace w ++ [c])).

(** A model: its collection inside the world. *)
Record Model (A : Type) := mkModel {
  model_name : ModelName;
  coll : World -> list A;
  set_coll : list A -> World -> World
}.
Arguments model_name {A} _.
Arguments coll {A} _ _.
Arguments set_coll {A} _ _ _.

Definition Users : Model User.t :=
  mkModel _ MUser users
    (fun l w => mkWorld l (courses w) (lectures w) (purchases w) (progresses w) (trace w)).
Definition Courses : Model Course.t :=
  mkModel _ MCourse courses
    (fun l w => mkWorld (users w) l (lectures w) (purchases w) (progresses w) (trace w)).
Definition Lectures : Model Lecture.t :=
  mkModel _ MLecture lectures
    (fun l w => mkWorld (users w) (courses w) l (purchases w) (progresses w) (trace w)).
Definition CoursePurchases : Model CoursePurchase.t :=
  mkModel _ MCoursePurchase purchases
    (fun l w => mkWorld (users w) (courses w) (lectures w) l (progresses w) (trace w)).
Definition CourseProgresses : Model CourseProgress.t :=
  mkModel _ MCourseProgress progresses
    (fun l w => mkWorld (users w) (courses w) (lectures w) (purchases w) l (trace w)).

(** The first document, in collection order, that satisfies the query,
    with the slot it sits in. *)
Definition first_match {A} (q : A -> bool) (l : list A) : option (nat * A) :=
  list_find (fun x => q x = true) l.

(** A loaded document remembers the slot it was read from.  The database
    keeps [_id] unique within a collection, so writing back by [_id] and
    writing back the slot are the same update. *)
Definition Loaded (A : Type) : Type := nat * A.

Section ModelOps.
Context {A : Type} (m : Model A).

Definition findOne (q : A -> bool) : M (option (Loaded A)) :=
  let* _ := log (model_name m, findOne_) in
  fun w => (Ok (first_match q (coll m w)), w).

Definition findById (idof : A -> ObjectId) (id : ObjectId) : M (option (Loaded A)) :=
  let* _ := log (model_name m, findById_) in
  fun w => (Ok (first_match (fun d => String.eqb (idof d) id) (coll m w)), w).

Definition find (q : A -> bool) : M (list A) :=
  let* _ := log (model_name m, find_) in
  fun w => (Ok (filter (fun x => q x = true) (coll m w)), w).

(** [doc.save()] *)
Definition save (slot : nat) (d : A) : M unit :=
  let* _ := log (model_name m, save_) in
  fun w => (Ok tt, set_coll m (<[slot := d]> (coll m w)) w).

Definition create (d : A) : M A :=
  let* _ := log (model_name m, create_) in
  fun w => (Ok d, set_coll m (coll m w ++ [d]) w).

(** [findOneAndUpdate(q, upd)]: one atomic call; the first match, if any,
    is rewritten.  The result is the document before the update, or
    after it under [{new: true}]. *)
Definition findOneAndUpdate (q : A -> bool) (upd : A -> A) (new : bool)
  : M (option A) :=
  let* _ := log (model_name m, findOneAndUpdate_) in
  fun w =>
    match first_match q (coll m w) with
    | Some (i, d) =>
        (Ok (Some (if new then upd d else d)),
         set_coll m (<[i := upd d]> (coll m w)) w)
    | None => (Ok None, w)
    end.

(** [findOneAndUpdate(q, upd, {new: true, upsert: true})]: one call; when
    nothing matches, the database inserts [ins] and returns it, or
    refuses the update. *)
Definition findOneAndUpsert (q : A -> bool) (upd : A -> A) (ins : Result A)
  : M (option A) :=
  let* _ := log (model_name m, findOneAndUpdate_) in
  fun w =>
    match first_match q (coll m w) with
    | Some (i, d) =>
        (Ok (Some (upd d)), set_coll m (<[i := upd d]> (coll m w)) w)
    | None =>
        match ins with
        | Ok d => (Ok (Some d), set_coll m (coll m w ++ [d]) w)
        | Threw e => (Threw e, w)
        end
    end.

Definition findByIdAndUpdate (idof : A -> ObjectId) (id : ObjectId)
    (upd : A -> A) : M (option A) :=
  let* _ := log (model_name m, findByIdAndUpdate_) in
  fun w =>
    match first_match (fun d => String.eqb (idof d) id) (coll m w) with
    | Some (i, d) =>
        (Ok (Some (upd d)), set_coll m (<[i := upd d]> (coll m w)) w)
    | None => (Ok None, w)
    end.

Definition findByIdAndDelete (idof : A -> ObjectId) (id : ObjectId) : M unit :=
  let* _ := log (model_name m, findByIdAndDelete_) in
  fun w =>
    match first_match (fun d => String.eqb (idof d) id) (coll m w) with
    | Some (i, _) => (Ok tt, set_coll m (delete i (coll m w)) w)
    | None => (Ok tt, w)
    end.

(** [.populate(path)] of one reference: the referenced document, or
    [null]. *)
Definition populateOne (idof : A -> ObjectId) (id : ObjectId) : M (option A) :=
  let* _ := log (model_name m, populate_) in
  fun w => (Ok (snd <$> first_match (fun d => String.eqb (idof d) id) (coll m w)), w).

(** [.populate(path)] of an array of references: the documents found, in
    the order of the references. *)
Definition populateMany (idof : A -> ObjectId) (ids : list ObjectId) : M (list A) :=
  let* _ := log (model_name m, populate_) in
  fun w =>
    (Ok (omap (fun id => snd <$> first_match (fun d => String.eqb (idof d) id) (coll m w)) ids), w).
End ModelOps.

(** [arr.includes(x)] on an array of identifiers. *)
Definition includes (ids : list ObjectId) (x : ObjectId) : bool :=
  existsb (String.eqb x) ids.

(** ** External collaborators and replies *)

(** [stripe.checkout.sessions.create]: the fields of the session the
    controller reads. *)
Record Session := mkSession { session_id : string; session_url : string }.

(** A Stripe event: [event.type] and [event.data.object.id]. *)
Record StripeEvent := mkEvent { event_type : string; event_object_id : string }.

(** [razorpay.orders.create] *)
Record Order := mkOrder { order_id : string; order_amount : Z; order_currency : string }.

(** The upload response of the media store. *)
Record UploadResponse := mkUpload { secure_url : string }.

Record Externals := mkExternals {
  (** [crypto.createHmac("sha256", key).update(msg).digest("hex")] *)
  hmac_sha256_hex : string -> string -> string;
  (** [crypto.createHash("sha256").update(msg).digest("hex")] *)
  sha256_hex : string -> string;
  bcrypt_hash : string -> string -> string;
  bcrypt_compare : string -> string -> bool;
  (** the token generator as the user controller calls it: with the user
      identifier alone, its result being the token *)
  generateToken : ObjectId -> Result string;
  (** [jwt.sign({userId}, secret, {expiresIn: "1d"})] *)
  jwt_sign : ObjectId -> string;
  (** [stripe.webhooks.constructEvent(body, sig, secret)] *)
  constructEvent : string -> option string -> string -> Result StripeEvent;
  (** the session Stripe opens for a course, a course identifier and a user
      identifier *)
  stripe_sessions_create : Course.t -> ObjectId -> ObjectId -> Result Session;
  (** the order Razorpay opens; the last argument is [Date.now()] of the
      receipt *)
  razorpay_orders_create : Course.t -> ObjectId -> ObjectId -> Z -> Result Order;
  (** [cloudinary.uploader.upload(file, ...)] *)
  cloudinary_upload : option string -> Result UploadResponse;
  cloudinary_destroy : string -> Result unit;
  (** [getDBStatus().readyState] *)
  getDBStatus : Z;
  (** the database's reading of [{$regex: pattern, $options: "i"}] *)
  regex_i : string -> string -> bool;
  (** the database's reading of [{$gte: min, $lte: max}] on the two pieces
      of [priceRange.split("-")] *)
  price_between : string -> Result (Z -> bool);
  (** what the database answers to a positional [$set] under
      [{upsert: true}] when no document matches: the inserted document, or
      an error *)
  positional_upsert : ObjectId -> ObjectId -> ObjectId -> bool -> Result CourseProgress.t;
  RAZORPAY_KEY_ID : string;
  RAZORPAY_KEY_SECRET : string;
  STRIPE_WEBHOOK_SECRET : string;
  FRONTEND_URL : string
}.

Inductive Body :=
| BJson (v : jsval)
| BText (s : string).

(** What a handler sent: [res.status(code)], the cookies set ([Some]) or
    cleared ([None]), and the body. *)
Record Response := mkResponse {
  code : nat;
  cookies : list (string * option string);
  body : Body
}.

(** Modelled from the spec: the class [AppError] of
    middleware/error.middleware.js, which is not among the sources.  A
    typed application error carrying a message and an HTTP status;
    the controllers build it as [new AppError(message, status)]. *)
Record AppError := mkAppError { message : string; statusCode : nat }.

(** A handler ends by sending a response or by handing an error to
    [next]. *)
Inductive Reply :=
| Respond (r : Response)
| Next (e : AppError).

Definition json (c : nat) (v : jsval) : Reply := Respond (mkResponse c [] (BJson v)).

Definition success (fields : list (string * jsval)) : jsval :=
  JObj (("status", JStr "success") :: fields).

(** What reaches the client. *)
Inductive Served :=
| Sent (r : Response)
| Uncaught (e : JsError).

(** Modelled from the spec: the shared wrapper [catchAsync] of
    middleware/error.middleware.js, which is not among the sources.  A
    typed application error is serialized as [{status: "error", message}]
    under the HTTP status it carries.  The spec does not say how an
    exception that is not an application error is answered. *)
Definition catchAsync (h : M Reply) : World -> Served * World :=
  fun w =>
    match h w with
    | (Ok (Respond r), w') => (Sent r, w')
    | (Ok (Next e), w') =>
        (Sent (mkResponse (statusCode e) []
                 (BJson (JObj [("status", JStr "error");
                               ("message", JStr (message e))]))), w')
    | (Threw e, w') => (Uncaught e, w')
    end.

(** ** Controllers *)

Section Controllers.
Context (E : Externals).

Definition notFound (msg : string) : M Reply := ret (Next (mkAppError msg 404)).

(** *** Stripe checkout (src/unnamed/part_000) *)

Definition completedPurchaseOf (userId courseId : ObjectId) (p : CoursePurchase.t) : bool :=
  String.eqb (CoursePurchase.userId p) userId
  && String.eqb (CoursePurchase.courseId p) courseId
  && status_eqb (CoursePurchase.status p) completed.

(** [POST /api/v1/payments/create-checkout-session]; [fresh] is the
    identifier the database gives the new purchase. *)
Definition initiateStripeCheckout (userId courseId fresh : ObjectId) : M Reply :=
  let* course := findById Courses Course._id courseId in
  match course with
  | None => notFound "Course not found"
  | Some (_, course) =>
      let* existingPurchase :=
        findOne CoursePurchases (completedPurchaseOf userId courseId) in
      match existingPurchase with
      | Some _ => ret (Next (mkAppError "Course already purchased" 400))
      | None =>
          let* session := lift (stripe_sessions_create E course courseId userId) in
          let* _ :=
            create CoursePurchases
              (CoursePurchase.mk fresh userId courseId (Course.price course)
                 pending (session_id session) None None None None) in
          ret (json 200
                 (success
                    [("data", JObj [("sessionId", JStr (session_id session));
                                    ("sessionUrl", JStr (session_url session))])]))
      end
  end.

(** The query [{paymentId: id, status: "pending"}]. *)
Definition pendingPayment (id : string) (p : CoursePurchase.t) : bool :=
  String.eqb (CoursePurchase.paymentId p) id
  && status_eqb (CoursePurchase.status p) pending.

(** The [switch (event.type)] of the webhook; [now] is [new Date()]. *)
Definition dispatchStripeEvent (event : StripeEvent) (now : Z) : M unit :=
  if String.eqb (event_type event) "checkout.session.completed" then
    let* purchase := findOne CoursePurchases (pendingPayment (event_object_id event)) in
    match purchase with
    | Some (slot, purchase) =>
        let purchase := CoursePurchase.with_status completed purchase in
        let purchase := CoursePurchase.with_purchaseDate now purchase in
        let* _ := save CoursePurchases slot purchase in
        let* user := findById Users User._id (CoursePurchase.userId purchase) in
        match user with
        | Some (uslot, user) =>
            if negb (includes (User.enrolledCourses user) (CoursePurchase.courseId purchase))
            then
              save Users uslot
                (User.with_enrolledCourses
                   (User.enrolledCourses user ++ [CoursePurchase.courseId purchase]) user)
            else ret tt
        | None => ret tt
        end
    | None => ret tt
    end
  else if String.eqb (event_type event) "checkout.session.expired" then
    let* _ :=
      findOneAndUpdate CoursePurchases (pendingPayment (event_object_id event))
        (CoursePurchase.with_status failed) false in
    ret tt
  else ret tt.

(** [POST /api/v1/payments/webhook]: the raw body and the
    [stripe-signature] header. *)
Definition handleStripeWebhook (rawBody : string) (sig : option string) (now : Z)
  : M Reply :=
  match constructEvent E rawBody sig (STRIPE_WEBHOOK_SECRET E) with
  | Threw err =>
      ret (Respond (mkResponse 400 []
                      (BText ("Webhook Error: " ++ err_message err))))
  | Ok event =>
      let* _ := dispatchStripeEvent event now in
      ret (json 200 (JObj [("received", JBool true)]))
  end.

(** [populate("instructor", "name email")] *)
Definition instructorObject (u : option User.t) : jsval :=
  match u with
  | Some u => JObj [("_id", JStr (User._id u)); ("name", JStr (User.name u));
                    ("email", JStr (User.email u))]
  | None => JNull
  end.

(** What a visitor who has not bought the course gets of a lecture. *)
Definition lecturePreview (lecture : Lecture.t) : jsval :=
  JObj (obj_spread
          [("_id", JStr (Lecture._id lecture));
           ("title", JStr (Lecture.title lecture));
           ("description", JStr (Lecture.description lecture));
           ("duration", opt_js JNum (Lecture.duration lecture));
           ("isPreview", JBool (default false (Lecture.isPreview lecture)))]
          (if default false (Lecture.isPreview lecture)
           then [("videoUrl", opt_js JStr (Lecture.videoUrl lecture))]
           else [])).

(** [course.toObject()] after [populate("instructor", "name email")] and
    [populate("lectures")]. *)
Definition populatedCourse (course : Course.t) (instr : option User.t)
    (lects : list Lecture.t) : list (string * jsval) :=
  Course.toObjectWith (instructorObject instr)
    (JArr (map Lecture.toObject lects)) course.

(** [GET /api/v1/payments/courses/:courseId/purchase-status] *)
Definition getCoursePurchaseStatus (userId courseId : ObjectId) : M Reply :=
  let* course := findById Courses Course._id courseId in
  match course with
  | None => notFound "Course not found"
  | Some (_, course) =>
      let* instr := populateOne Users User._id (Course.instructor course) in
      let* lects := populateMany Lectures Lecture._id (Course.lectures course) in
      let* purchase :=
        findOne CoursePurchases (completedPurchaseOf userId courseId) in
      let isPurchased := bool_decide (is_Some purchase) in
      let courseData :=
        JObj (obj_spread (populatedCourse course instr lects)
                [("isPurchased", JBool isPurchased);
                 ("lectures",
                   if isPurchased
                   then JArr (map Lecture.toObject lects)
                   else JArr (map lecturePreview lects))]) in
      ret (json 200
             (success
                [("data",
                   JObj [("course", courseData);
                         ("purchaseInfo",
                           match purchase with
                           | Some (_, p) => CoursePurchase.toObject p
                           | None => JNull
                           end)])]))
  end.

Definition date_ge (a b : option Z) : bool :=
  match a, b with
  | _, None => true
  | None, Some _ => false
  | Some x, Some y => (y <=? x)%Z
  end.

Definition newerFirst (a b : CoursePurchase.t * option jsval) : Prop :=
  date_ge (CoursePurchase.purchaseDate (fst a))
          (CoursePurchase.purchaseDate (fst b)) = true.

#[local] Instance newerFirst_dec : RelDecision newerFirst :=
  fun a b => bool_eq_dec _ true.

(** [.sort({purchaseDate: -1})] *)
Definition sortByPurchaseDateDesc (l : list (CoursePurchase.t * option jsval))
  : list (CoursePurchase.t * option jsval) :=
  merge_sort newerFirst l.

(** The course a purchase refers to, with instructor and lectures
    populated, or [null]. *)
Definition populatePurchaseCourse (p : CoursePurchase.t)
  : M (CoursePurchase.t * option jsval) :=
  let* course := populateOne Courses Course._id (CoursePurchase.courseId p) in
  match course with
  | None => ret (p, None)
  | Some course =>
      let* instr := populateOne Users User._id (Course.instructor course) in
      let* lects := populateMany Lectures Lecture._id (Course.lectures course) in
      ret (p, Some (JObj (Course.toObjectWith (instructorObject instr)
                            (JArr (map (fun l =>
                               JObj ([("_id", JStr (Lecture._id l));
                                      ("title", JStr (Lecture.title l));
                                      ("description", JStr (Lecture.description l))]
                                     ++ opt_field "duration" JNum (Lecture.duration l)))
                               lects)) course)))
  end.

Fixpoint mapM {A B} (f : A -> M B) (l : list A) : M (list B) :=
  match l with
  | [] => ret []
  | a :: l' =>
      let* b := f a in
      let* bs := mapM f l' in
      ret (b :: bs)
  end.

(** [{...purchase.courseId.toObject(), purchaseInfo}] *)
Definition purchasedCourse (pc : CoursePurchase.t * option jsval) : M jsval :=
  match snd pc with
  | Some (JObj fs) =>
      ret (JObj (obj_spread fs
             [("purchaseInfo",
                JObj [("purchaseDate", opt_js JNum (CoursePurchase.purchaseDate (fst pc)));
                      ("amount", JNum (CoursePurchase.amount (fst pc)));
                      ("paymentId", JStr (CoursePurchase.paymentId (fst pc)))])]))
  | _ => throw (TypeError "Cannot read properties of null (reading 'toObject')")
  end.

Definition completedBy (userId : ObjectId) (p : CoursePurchase.t) : bool :=
  String.eqb (CoursePurchase.userId p) userId
  && status_eqb (CoursePurchase.status p) completed.

(** [GET /api/v1/payments/purchased-courses] *)
Definition getPurchasedCourses (userId : ObjectId) : M Reply :=
  let* found := find CoursePurchases (completedBy userId) in
  let* populated := mapM populatePurchaseCourse found in
  let purchases := sortByPurchaseDateDesc populated in
  let* purchasedCourses := mapM purchasedCourse purchases in
  ret (json 200
         (success
            [("results", JNum (Z.of_nat (length purchasedCourses)));
             ("data", JObj [("courses", JArr purchasedCourses)])])).

(** *** Razorpay (src/controllers/user.controller.js, second half) *)

(** [POST /api/v1/razorpay/create-order] *)
Definition createRazorpayOrder (userId courseId fresh : ObjectId) (now : Z) : M Reply :=
  let* course := findById Courses Course._id courseId in
  match course with
  | None => notFound "Course not found"
  | Some (_, course) =>
      let* existingPurchase :=
        findOne CoursePurchases (completedPurchaseOf userId courseId) in
      match existingPurchase with
      | Some _ => ret (Next (mkAppError "Course already purchased" 400))
      | None =>
          match razorpay_orders_create E course courseId userId now with
          | Threw _ => ret (Next (mkAppError "Failed to create Razorpay order" 500))
          | Ok order =>
              let* _ :=
                create CoursePurchases
                  (CoursePurchase.mk fresh userId courseId (Course.price course)
                     pending (order_id order) None None None None) in
              ret (json 200
                     (success
                        [("data",
                           JObj [("orderId", JStr (order_id order));
                                 ("amount", JNum (order_amount order));
                                 ("currency", JStr (order_currency order));
                                 ("courseTitle", JStr (Course.title course));
                                 ("key", JStr (RAZORPAY_KEY_ID E))])]))
          end
      end
  end.

(** The query [{paymentId: orderId, userId, status: "pending"}]. *)
Definition pendingOrder (orderId : string) (userId : ObjectId) (p : CoursePurchase.t) : bool :=
  String.eqb (CoursePurchase.paymentId p) orderId
  && String.eqb (CoursePurchase.userId p) userId
  && status_eqb (CoursePurchase.status p) pending.

Definition expectedSignature (razorpay_order_id razorpay_payment_id : string) : string :=
  hmac_sha256_hex E (RAZORPAY_KEY_SECRET E)
    (razorpay_order_id ++ "|" ++ razorpay_payment_id).

(** The update of a verified payment. *)
Definition markCompleted (now : Z) (pay sig : string) (p : CoursePurchase.t) : CoursePurchase.t :=
  CoursePurchase.with_razorpay pay sig
    (CoursePurchase.with_purchaseDate now
       (CoursePurchase.with_status completed p)).

(** [purchase.courseId._id] on a populated path. *)
Definition populatedId (course : option Course.t) : M ObjectId :=
  match course with
  | Some c => ret (Course._id c)
  | None => throw (TypeError "Cannot read properties of null (reading '_id')")
  end.

(** [POST /api/v1/razorpay/verify-payment]; the three body fields are the
    strings the Razorpay checkout posts back. *)
Definition verifyPayment (userId : ObjectId)
    (razorpay_order_id razorpay_payment_id razorpay_signature : string)
    (now : Z) : M Reply :=
  let isAuthentic :=
    String.eqb (expectedSignature razorpay_order_id razorpay_payment_id)
      razorpay_signature in
  if negb isAuthentic then
    let* _ :=
      findOneAndUpdate CoursePurchases (pendingOrder razorpay_order_id userId)
        (CoursePurchase.with_status failed) false in
    ret (Next (mkAppError "Payment verification failed" 400))
  else
    let* purchase :=
      findOneAndUpdate CoursePurchases (pendingOrder razorpay_order_id userId)
        (markCompleted now razorpay_payment_id razorpay_signature) true in
    match purchase with
    | None => notFound "Purchase record not found"
    | Some purchase =>
        let* course := populateOne Courses Course._id (CoursePurchase.courseId purchase) in
        let* user := findById Users User._id userId in
        let* _ :=
          match user with
          | Some (uslot, user) =>
              let* cid := populatedId course in
              if negb (includes (User.enrolledCourses user) cid)
              then
                save Users uslot
                  (User.with_enrolledCourses (User.enrolledCourses user ++ [cid]) user)
              else ret tt
          | None => ret tt
          end in
        let* cid := populatedId course in
        ret (Respond (mkResponse 200 []
               (BJson
                  (JObj [("status", JStr "success");
                         ("message", JStr "Payment verified successfully");
                         ("data",
                           JObj [("purchase",
                             JObj [("courseId", JStr cid);
                                   ("courseName", opt_js (fun c => JStr (Course.title c)) course);
                                   ("purchaseDate", opt_js JNum (CoursePurchase.purchaseDate purchase));
                                   ("amount", JNum (CoursePurchase.amount purchase));
                                   ("paymentId", JStr razorpay_payment_id)])])]))))
    end.

(** [POST /api/v1/razorpay/payment-failed]; [description] is
    [error?.description]. *)
Definition handlePaymentFailure (userId : ObjectId) (razorpay_order_id : string)
    (description : option string) : M Reply :=
  let* purchase :=
    findOneAndUpdate CoursePurchases (pendingOrder razorpay_order_id userId)
      (fun p => CoursePurchase.with_failureReason (or_str description "Payment failed")
                  (CoursePurchase.with_status failed p)) true in
  match purchase with
  | None => notFound "Purchase record not found"
  | Some purchase =>
      ret (Respond (mkResponse 200 []
             (BJson
                (JObj [("status", JStr "success");
                       ("message", JStr "Payment failure recorded");
                       ("data",
                         JObj [("orderId", JStr razorpay_order_id);
                               ("failureReason",
                                 opt_js JStr (CoursePurchase.failureReason purchase))])]))))
  end.

(** [GET /api/v1/razorpay/payment-status/:orderId] *)
Definition getPaymentStatus (userId : ObjectId) (orderId : string) : M Reply :=
  let* purchase :=
    findOne CoursePurchases
      (fun p => String.eqb (CoursePurchase.paymentId p) orderId
                && String.eqb (CoursePurchase.userId p) userId) in
  match purchase with
  | None => notFound "Payment record not found"
  | Some (_, purchase) =>
      let* course := populateOne Courses Course._id (CoursePurchase.courseId purchase) in
      ret (json 200
             (success
                [("data",
                   JObj [("purchase",
                     JObj [("orderId", JStr (CoursePurchase.paymentId purchase));
                           ("status", JStr (status_str (CoursePurchase.status purchase)));
                           ("amount", JNum (CoursePurchase.amount purchase));
                           ("course",
                             match course with
                             | Some c =>
                                 JObj ([("_id", JStr (Course._id c));
                                        ("title", JStr (Course.title c))]
                                       ++ opt_field "thumbnail" JStr (Course.thumbnail c))
                             | None => JNull
                             end);
                           ("purchaseDate", opt_js JNum (CoursePurchase.purchaseDate purchase));
                           ("failureReason", opt_js JStr (CoursePurchase.failureReason purchase))])])]))
  end.

(** *** Media store (src/utils/cloudinary.js) *)

(** The upload response, or [undefined] when the upload throws. *)
Definition uploadMedia (file : option string) : M (option UploadResponse) :=
  match cloudinary_upload E file with
  | Ok uploadResponse => ret (Some uploadResponse)
  | Threw _ => ret None
  end.

Definition deleteMediaFromCloudinary (publicId : string) : M unit :=
  match cloudinary_destroy E publicId with
  | Ok _ => ret tt
  | Threw _ => ret tt
  end.

(** [result.secure_url] *)
Definition secureUrl (r : option UploadResponse) : M string :=
  match r with
  | Some r => ret (secure_url r)
  | None => throw (TypeError "Cannot read properties of undefined (reading 'secure_url')")
  end.

(** *** Courses (src/controllers/course.controller.js) *)

(** [POST /api/v1/courses]; a new course has no lectures and is not
    published. *)
Definition createNewCourse (instructorId : ObjectId) (title description : string)
    (price : Z) (thumbnail : option string) (fresh : ObjectId) : M Reply :=
  let* thumbnailResult := uploadMedia thumbnail in
  let* url := secureUrl thumbnailResult in
  let* newCourse :=
    create Courses
      (Course.mk fresh title description price (Some url) instructorId [] false
         None None) in
  ret (json 201 (success [("data", JObj [("course", Course.toObject newCourse)])])).

Definition withInstructor (course : Course.t) : M jsval :=
  let* instr := populateOne Users User._id (Course.instructor course) in
  ret (JObj (Course.toObjectWith (instructorObject instr)
               (JArr (map JStr (Course.lectures course))) course)).

Definition withInstructorAndLectures (course : Course.t) : M jsval :=
  let* instr := populateOne Users User._id (Course.instructor course) in
  let* lects := populateMany Lectures Lecture._id (Course.lectures course) in
  ret (JObj (populatedCourse course instr lects)).

Definition eq_opt (o : option string) (s : string) : bool :=
  match o with
  | Some x => String.eqb x s
  | None => false
  end.

(** The filters of a search: a condition is added for each query
    parameter that is truthy. *)
Definition searchFilter (title category level : option string)
    (inRange : Z -> bool) (c : Course.t) : bool :=
  (if truthy_str title then regex_i E (default "" title) (Course.title c) else true)
  && (if truthy_str category then eq_opt (Course.category c) (default "" category) else true)
  && (if truthy_str level then eq_opt (Course.level c) (default "" level) else true)
  && inRange (Course.price c).

(** [GET /api/v1/courses/search] *)
Definition searchCourses (title category level priceRange : option string) : M Reply :=
  let* inRange :=
    if truthy_str priceRange
    then lift (price_between E (default "" priceRange))
    else ret (fun _ => true) in
  let* found := find Courses (searchFilter title category level inRange) in
  let* courses := mapM withInstructor found in
  ret (json 200
         (success [("results", JNum (Z.of_nat (length courses)));
                   ("data", JObj [("courses", JArr courses)])])).

(** [GET /api/v1/courses/published] *)
Definition getPublishedCourses : M Reply :=
  let* found := find Courses Course.isPublished in
  let* courses := mapM withInstructorAndLectures found in
  ret (json 200
         (success [("results", JNum (Z.of_nat (length courses)));
                   ("data", JObj [("courses", JArr courses)])])).

(** [GET /api/v1/courses/my-courses] *)
Definition getMyCreatedCourses (instructorId : ObjectId) : M Reply :=
  let* found := find Courses (fun c => String.eqb (Course.instructor c) instructorId) in
  let* courses := mapM withInstructorAndLectures found in
  ret (json 200
         (success [("results", JNum (Z.of_nat (length courses)));
                   ("data", JObj [("courses", JArr courses)])])).

(** [PATCH /api/v1/courses/:courseId] *)
Definition updateCourseDetails (courseId : ObjectId) (title description : option string)
    (price : option Z) (thumbnail : option string) : M Reply :=
  let* course := findById Courses Course._id courseId in
  match course with
  | None => notFound "Course not found"
  | Some (slot, course) =>
      let* course :=
        if truthy_str thumbnail then
          let* thumbnailResult := uploadMedia thumbnail in
          let* url := secureUrl thumbnailResult in
          ret (Course.with_thumbnail (Some url) course)
        else ret course in
      let course := Course.with_title (or_str title (Course.title course)) course in
      let course :=
        Course.with_description (or_str description (Course.description course)) course in
      let course := Course.with_price (or_num price (Course.price course)) course in
      let* _ := save Courses slot course in
      ret (json 200 (success [("data", JObj [("course", Course.toObject course)])]))
  end.

(** [GET /api/v1/courses/:courseId] *)
Definition getCourseDetails (courseId : ObjectId) : M Reply :=
  let* course := findById Courses Course._id courseId in
  match course with
  | None => notFound "Course not found"
  | Some (_, course) =>
      let* course := withInstructorAndLectures course in
      ret (json 200 (success [("data", JObj [("course", course)])]))
  end.

(** [POST /api/v1/courses/:courseId/lectures] *)
Definition addLectureToCourse (courseId : ObjectId) (title description : string)
    (videoUrl : option string) (fresh : ObjectId) : M Reply :=
  let* course := findById Courses Course._id courseId in
  match course with
  | None => notFound "Course not found"
  | Some (slot, course) =>
      let* newLecture :=
        create Lectures (Lecture.mk fresh title description videoUrl None None courseId) in
      let* _ :=
        save Courses slot
          (Course.with_lectures (Course.lectures course ++ [Lecture._id newLecture]) course) in
      ret (json 201 (success [("data", JObj [("lecture", Lecture.toObject newLecture)])]))
  end.

(** [GET /api/v1/courses/:courseId/lectures] *)
Definition getCourseLectures (courseId : ObjectId) : M Reply :=
  let* course := findById Courses Course._id courseId in
  match course with
  | None => notFound "Course not found"
  | Some (_, course) =>
      let* lects := populateMany Lectures Lecture._id (Course.lectures course) in
      ret (json 200
             (success [("results", JNum (Z.of_nat (length lects)));
                       ("data", JObj [("lectures", JArr (map Lecture.toObject lects))])]))
  end.

(** *** Users (src/controllers/user.controller.js, first half) *)

(** [POST /api/v1/users/signup]; [salt] is [bcrypt.genSalt(10)]. *)
Definition createUserAccount (name email password salt : string) (fresh : ObjectId)
  : M Reply :=
  let* existingUser := findOne Users (fun u => String.eqb (User.email u) email) in
  match existingUser with
  | Some _ => ret (Next (mkAppError "User already exists with this email" 400))
  | None =>
      let hashedPassword := bcrypt_hash E password salt in
      let* newUser :=
        create Users (User.mk fresh name email (Some hashedPassword) None [] None None) in
      let* token := lift (generateToken E (User._id newUser)) in
      let newUser := User.with_password None newUser in
      ret (Respond (mkResponse 201 [("token", Some token)]
             (BJson
                (JObj [("status", JStr "success");
                       ("message", JStr "Account created successfully");
                       ("data", JObj [("user", User.toObject newUser);
                                      ("token", JStr token)])]))))
  end.

(** [bcrypt.compare(plain, hash)] *)
Definition compareWith (plain : string) (hash : option string) : M bool :=
  match hash with
  | Some h => ret (bcrypt_compare E plain h)
  | None => throw (ExternalError "Illegal arguments: string, undefined")
  end.

(** [POST /api/v1/users/signin] *)
Definition authenticateUser (email password : option string) : M Reply :=
  if negb (truthy_str email) || negb (truthy_str password) then
    ret (Next (mkAppError "Please provide email and password" 400))
  else
    let* user := findOne Users (fun u => String.eqb (User.email u) (default "" email)) in
    match user with
    | None => ret (Next (mkAppError "Invalid email or password" 401))
    | Some (_, user) =>
        let* isPasswordValid := compareWith (default "" password) (User.password user) in
        if negb isPasswordValid then
          ret (Next (mkAppError "Invalid email or password" 401))
        else
          let* token := lift (generateToken E (User._id user)) in
          let user := User.with_password None user in
          ret (Respond (mkResponse 200 [("token", Some token)]
                 (BJson
                    (JObj [("status", JStr "success");
                           ("message", JStr "Logged in successfully");
                           ("data", JObj [("user", User.toObject user);
                                          ("token", JStr token)])]))))
    end.

(** [POST /api/v1/users/signout] *)
Definition signOutUser : M Reply :=
  ret (Respond (mkResponse 200 [("token", None)]
         (BJson (JObj [("status", JStr "success");
                       ("message", JStr "Logged out successfully")])))).

(** An enrolled course under
    [select: "title description thumbnail price instructor"], its
    instructor populated. *)
Definition enrolledCourseObject (course : Course.t) : M jsval :=
  let* instr := populateOne Users User._id (Course.instructor course) in
  ret (JObj ([("_id", JStr (Course._id course)); ("title", JStr (Course.title course));
              ("description", JStr (Course.description course))]
             ++ opt_field "thumbnail" JStr (Course.thumbnail course)
             ++ [("price", JNum (Course.price course));
                 ("instructor", instructorObject instr)])).

(** [GET /api/v1/users/profile] *)
Definition getCurrentUserProfile (userId : ObjectId) : M Reply :=
  let* user := findById Users User._id userId in
  match user with
  | None => notFound "User not found"
  | Some (_, user) =>
      let* enrolled := populateMany Courses Course._id (User.enrolledCourses user) in
      let* enrolled := mapM enrolledCourseObject enrolled in
      ret (json 200
             (success
                [("data",
                   JObj [("user",
                     JObj (obj_spread (User.fields (User.unselected user))
                             [("enrolledCourses", JArr enrolled)]))])]))
  end.

(** [PATCH /api/v1/users/profile] *)
Definition updateUserProfile (userId : ObjectId) (name email photoUrl : option string)
  : M Reply :=
  let* existingUser :=
    if truthy_str email then
      findOne Users (fun u => String.eqb (User.email u) (default "" email)
                              && negb (String.eqb (User._id u) userId))
    else ret None in
  match existingUser with
  | Some _ => ret (Next (mkAppError "Email already exists" 400))
  | None =>
      let* newPhoto :=
        if truthy_str photoUrl then
          let* currentUser := findById Users User._id userId in
          match currentUser with
          | None =>
              throw (TypeError "Cannot read properties of null (reading 'photoUrl')")
          | Some (_, currentUser) =>
              let* _ :=
                if truthy_str (User.photoUrl currentUser)
                then deleteMediaFromCloudinary (default "" (User.photoUrl currentUser))
                else ret tt in
              let* uploadResult := uploadMedia photoUrl in
              let* url := secureUrl uploadResult in
              ret (Some url)
          end
        else ret None in
      let* updatedUser :=
        findByIdAndUpdate Users User._id userId
          (fun u => User.with_profile (or_str name (User.name u))
                      (or_str email (User.email u))
                      (match newPhoto with Some url => Some url | None => User.photoUrl u end)
                      u) in
      ret (Respond (mkResponse 200 []
             (BJson
                (JObj [("status", JStr "success");
                       ("message", JStr "Profile updated successfully");
                       ("data",
                         JObj [("user",
                           match updatedUser with
                           | Some u => User.toObject (User.unselected u)
                           | None => JNull
                           end)])]))))
  end.

(** [PATCH /api/v1/users/password] *)
Definition changeUserPassword (userId : ObjectId) (currentPassword newPassword : option string)
    (salt : string) : M Reply :=
  if negb (truthy_str currentPassword) || negb (truthy_str newPassword) then
    ret (Next (mkAppError "Please provide current password and new password" 400))
  else
    let* user := findById Users User._id userId in
    match user with
    | None => notFound "User not found"
    | Some (slot, user) =>
        let* isCurrentPasswordValid :=
          compareWith (default "" currentPassword) (User.password user) in
        if negb isCurrentPasswordValid then
          ret (Next (mkAppError "Current password is incorrect" 400))
        else
          let hashedNewPassword := bcrypt_hash E (default "" newPassword) salt in
          let* _ := save Users slot (User.with_password (Some hashedNewPassword) user) in
          ret (Respond (mkResponse 200 []
                 (BJson (JObj [("status", JStr "success");
                               ("message", JStr "Password changed successfully")]))))
    end.

(** [POST /api/v1/users/forgot-password]; [resetToken] is
    [crypto.randomBytes(32).toString("hex")], [now] is [Date.now()]. *)
Definition forgotPassword (email resetToken : string) (now : Z) : M Reply :=
  let* user := findOne Users (fun u => String.eqb (User.email u) email) in
  match user with
  | None => notFound "User not found with this email"
  | Some (slot, user) =>
      let hashedToken := sha256_hex E resetToken in
      let* _ :=
        save Users slot
          (User.with_reset (Some hashedToken) (Some (now + 10 * 60 * 1000)%Z) user) in
      let resetUrl := (FRONTEND_URL E ++ "/reset-password/" ++ resetToken)%string in
      ret (Respond (mkResponse 200 []
             (BJson
                (JObj [("status", JStr "success");
                       ("message", JStr "Password reset token sent to email");
                       ("resetUrl", JStr resetUrl);
                       ("data", JObj [("resetToken", JStr resetToken)])]))))
  end.

Definition validReset (hashedToken : string) (now : Z) (u : User.t) : bool :=
  eq_opt (User.passwordResetToken u) hashedToken
  && match User.passwordResetExpires u with
     | Some t => (now <? t)%Z
     | None => false
     end.

(** [POST /api/v1/users/reset-password/:token] *)
Definition resetPassword (token : string) (password : option string)
    (salt : string) (now : Z) : M Reply :=
  if negb (truthy_str password) then
    ret (Next (mkAppError "Please provide new password" 400))
  else
    let hashedToken := sha256_hex E token in
    let* user := findOne Users (validReset hashedToken now) in
    match user with
    | None => ret (Next (mkAppError "Token is invalid or has expired" 400))
    | Some (slot, user) =>
        let hashedPassword := bcrypt_hash E (default "" password) salt in
        let* _ :=
          save Users slot
            (User.with_reset None None (User.with_password (Some hashedPassword) user)) in
        let* jwtToken := lift (generateToken E (User._id user)) in
        ret (Respond (mkResponse 200 [("token", Some jwtToken)]
               (BJson
                  (JObj [("status", JStr "success");
                         ("message", JStr "Password reset successfully");
                         ("data", JObj [("token", JStr jwtToken)])]))))
    end.

(** [DELETE /api/v1/users/account] *)
Definition deleteUserAccount (userId : ObjectId) (password : option string) : M Reply :=
  if negb (truthy_str password) then
    ret (Next (mkAppError "Please provide your password to confirm account deletion" 400))
  else
    let* user := findById Users User._id userId in
    match user with
    | None => notFound "User not found"
    | Some (_, user) =>
        let* isPasswordValid := compareWith (default "" password) (User.password user) in
        if negb isPasswordValid then
          ret (Next (mkAppError "Incorrect password" 400))
        else
          let* _ :=
            if truthy_str (User.photoUrl user)
            then deleteMediaFromCloudinary (default "" (User.photoUrl user))
            else ret tt in
          let* _ := findByIdAndDelete Users User._id userId in
          ret (Respond (mkResponse 200 [("token", None)]
                 (BJson (JObj [("status", JStr "success");
                               ("message", JStr "Account deleted successfully")]))))
    end.

(** *** Course progress (src/unnamed/part_001) *)

Definition progressOf (courseId userId : ObjectId) (p : CourseProgress.t) : bool :=
  String.eqb (CourseProgress.course p) courseId
  && String.eqb (CourseProgress.user p) userId.

Definition progressReply (progress : CourseProgress.t) : Reply :=
  json 200 (success [("data", JObj [("progress", CourseProgress.toObject progress)])]).

(** These handlers are declared [async (req, res)]: the name [next] is not
    bound where they call it. *)
Definition nextIsNotDefined : M Reply :=
  throw (ReferenceError "next is not defined").

(** [GET /api/v1/progress/:courseId] *)
Definition getUserCourseProgress (userId courseId : ObjectId) : M Reply :=
  let* progress := findOne CourseProgresses (progressOf courseId userId) in
  match progress with
  | None => nextIsNotDefined
  | Some (_, progress) => ret (progressReply progress)
  end.

(** [$set: {"lectures.$.completed": completed}]: the first entry of the
    lecture. *)
Fixpoint setLectureCompleted (lectureId : ObjectId) (completed : bool)
    (ls : list (ObjectId * bool)) : list (ObjectId * bool) :=
  match ls with
  | [] => []
  | (l, c) :: ls' =>
      if String.eqb l lectureId then (l, completed) :: ls'
      else (l, c) :: setLectureCompleted lectureId completed ls'
  end.

(** [PATCH /api/v1/progress/:courseId/lectures/:lectureId] *)
Definition updateLectureProgress (userId courseId lectureId : ObjectId)
    (completed : bool) : M Reply :=
  let* progress :=
    findOneAndUpsert CourseProgresses
      (fun p => progressOf courseId userId p
                && existsb (fun lc => String.eqb (fst lc) lectureId)
                     (CourseProgress.lectures p))
      (fun p => CourseProgress.with_lectures
                  (setLectureCompleted lectureId completed (CourseProgress.lectures p)) p)
      (positional_upsert E courseId userId lectureId completed) in
  match progress with
  | None => nextIsNotDefined
  | Some progress => ret (progressReply progress)
  end.

(** [PATCH /api/v1/progress/:courseId/complete] *)
Definition markCourseAsCompleted (userId courseId fresh : ObjectId) : M Reply :=
  let* progress :=
    findOneAndUpsert CourseProgresses (progressOf courseId userId)
      (CourseProgress.with_completed true)
      (Ok (CourseProgress.mk fresh courseId userId true [])) in
  match progress with
  | None => nextIsNotDefined
  | Some progress => ret (progressReply progress)
  end.

(** [PATCH /api/v1/progress/:courseId/reset] *)
Definition resetCourseProgress (userId courseId fresh : ObjectId) : M Reply :=
  let* progress :=
    findOneAndUpsert CourseProgresses (progressOf courseId userId)
      (fun p => CourseProgress.with_lectures [] (CourseProgress.with_completed false p))
      (Ok (CourseProgress.mk fresh courseId userId false [])) in
  match progress with
  | None => nextIsNotDefined
  | Some progress => ret (progressReply progress)
  end.

(** *** Health (src/unnamed/part_002) *)

Definition getReadyStateText (state : Z) : string :=
  if (state =? 0)%Z then "Disconnected"
  else if (state =? 1)%Z then "Connected"
  else if (state =? 2)%Z then "Connecting"
  else if (state =? 3)%Z then "Disconnecting"
  else "Unknown".

Definition checkHealth : M Reply :=
  let readyState := getDBStatus E in
  let readyStateText := getReadyStateText readyState in
  ret (json 200
         (success
            [("data",
               JObj [("dbStatus",
                 JObj [("readyState", JNum readyState);
                       ("readyStateText", JStr readyStateText)])])])).

End Controllers.

(** *** Token helper (src/unnamed/part_002) *)

Module Utils.
(** [generateToken(res, user, message)]: signs a token for [user._id],
    sets it as the [token] cookie and answers 200 through [res]. *)
Definition generateToken (E : Externals) (user : User.t) (message : string) : Reply :=
  let token := jwt_sign E (User._id user) in
  Respond (mkResponse 200 [("token", Some token)]
             (BJson (JObj [("success", JBool true);
                           ("message", JStr message);
                           ("user", User.toObject user)]))).

(** The user controller calls the helper as [generateToken(id)]: [res] is
    the identifier, [user] and [message] are [undefined].  Building the
    payload [{userId: user._id}] throws before [jwt.sign] is reached:
    nothing is signed, no cookie is set and nothing is sent. *)
Definition generateTokenWithId (id : ObjectId) : Result string :=
  Threw (TypeError "Cannot read properties of undefined (reading '_id')").
End Utils.

(** ** The service *)

(** A request to one of the routes, with what the handler reads of it and
    of its surroundings (the authenticated user, the clock, the identifier
    the database will give a new document, random bytes). *)
Inductive Operation :=
| CreateNewCourse (instructorId : ObjectId) (title description : string) (price : Z)
    (thumbnail : option string) (fresh : ObjectId)
| SearchCourses (title category level priceRange : option string)
| GetPublishedCourses
| GetMyCreatedCourses (instructorId : ObjectId)
| UpdateCourseDetails (courseId : ObjectId) (title description : option string)
    (price : option Z) (thumbnail : option string)
| GetCourseDetails (courseId : ObjectId)
| AddLectureToCourse (courseId : ObjectId) (title description : string)
    (videoUrl : option string) (fresh : ObjectId)
| GetCourseLectures (courseId : ObjectId)
| CreateUserAccount (name email password salt : string) (fresh : ObjectId)
| AuthenticateUser (email password : option string)
| SignOutUser
| GetCurrentUserProfile (userId : ObjectId)
| UpdateUserProfile (userId : ObjectId) (name email photoUrl : option string)
| ChangeUserPassword (userId : ObjectId) (currentPassword newPassword : option string)
    (salt : string)
| ForgotPassword (email resetToken : string) (now : Z)
| ResetPassword (token : string) (password : option string) (salt : string) (now : Z)
| DeleteUserAccount (userId : ObjectId) (password : option string)
| CreateRazorpayOrder (userId courseId fresh : ObjectId) (now : Z)
| VerifyPayment (userId : ObjectId)
    (razorpay_order_id razorpay_payment_id razorpay_signature : string) (now : Z)
| HandlePaymentFailure (userId : ObjectId) (razorpay_order_id : string)
    (description : option string)
| GetPaymentStatus (userId : ObjectId) (orderId : string)
| InitiateStripeCheckout (userId courseId fresh : ObjectId)
| HandleStripeWebhook (rawBody : string) (sig : option string) (now : Z)
| GetCoursePurchaseStatus (userId courseId : ObjectId)
| GetPurchasedCourses (userId : ObjectId)
| GetUserCourseProgress (userId courseId : ObjectId)
| UpdateLectureProgress (userId courseId lectureId : ObjectId) (completed : bool)
| MarkCourseAsCompleted (userId courseId fresh : ObjectId)
| ResetCourseProgress (userId courseId fresh : ObjectId)
| CheckHealth.

Definition handler (E : Externals) (op : Operation) : M Reply :=
  match op with
  | CreateNewCourse i t d p th f => createNewCourse E i t d p th f
  | SearchCourses t c l r => searchCourses E t c l r
  | GetPublishedCourses => getPublishedCourses
  | GetMyCreatedCourses i => getMyCreatedCourses i
  | UpdateCourseDetails c t d p th => updateCourseDetails E c t d p th
  | GetCourseDetails c => getCourseDetails c
  | AddLectureToCourse c t d v f => addLectureToCourse c t d v f
  | GetCourseLectures c => getCourseLectures c
  | CreateUserAccount n e p s f => createUserAccount E n e p s f
  | AuthenticateUser e p => authenticateUser E e p
  | SignOutUser => signOutUser
  | GetCurrentUserProfile u => getCurrentUserProfile u
  | UpdateUserProfile u n e p => updateUserProfile E u n e p
  | ChangeUserPassword u c n s => changeUserPassword E u c n s
  | ForgotPassword e r n => forgotPassword E e r n
  | ResetPassword t p s n => resetPassword E t p s n
  | DeleteUserAccount u p => deleteUserAccount E u p
  | CreateRazorpayOrder u c f n => createRazorpayOrder E u c f n
  | VerifyPayment u o p s n => verifyPayment E u o p s n
  | HandlePaymentFailure u o d => handlePaymentFailure u o d
  | GetPaymentStatus u o => getPaymentStatus u o
  | InitiateStripeCheckout u c f => initiateStripeCheckout E u c f
  | HandleStripeWebhook b s n => handleStripeWebhook E b s n
  | GetCoursePurchaseStatus u c => getCoursePurchaseStatus u c
  | GetPurchasedCourses u => getPurchasedCourses u
  | GetUserCourseProgress u c => getUserCourseProgress u c
  | UpdateLectureProgress u c l b => updateLectureProgress E u c l b
  | MarkCourseAsCompleted u c f => markCourseAsCompleted u c f
  | ResetCourseProgress u c f => resetCourseProgress u c f
  | CheckHealth => checkHealth E
  end.

(** A route: its handler under the shared wrapper. *)
Definition serve (E : Externals) (op : Operation) : World -> Served * World :=
  catchAsync (handler E op).

Definition isStripeWebhook (op : Operation) : bool :=
  match op with
  | HandleStripeWebhook _ _ _ => true
  | _ => false
  end.

(** The envelope [{status, data|message}]. *)
Definition envelope (v : jsval) : bool :=
  js_has "status" v && (js_has "data" v || js_has "message" v).

(** ** Payment operations in sequence *)

Fixpoint runAll (E : Externals) (ops : list Operation) (w : World) : World :=
  match ops with
  | [] => w
  | op :: ops' => runAll E ops' (snd (serve E op w))
  end.

(** The operations that write the status of a purchase. *)
Definition writesStatus (op : Operation) : bool :=
  match op with
  | HandleStripeWebhook _ _ _ | VerifyPayment _ _ _ _ _ | HandlePaymentFailure _ _ _ => true
  | _ => false
  end.

(** One step in the life of a purchase record: nothing happens to it, or it
    leaves [pending] for [completed] or [failed], keeping who bought what,
    for how much, under which external payment identifier. *)
Definition lifecycle (p p' : CoursePurchase.t) : Prop :=
  p' = p
  \/ (CoursePurchase.status p = pending
      /\ (CoursePurchase.status p' = completed \/ CoursePurchase.status p' = failed)
      /\ CoursePurchase._id p' = CoursePurchase._id p
      /\ CoursePurchase.userId p' = CoursePurchase.userId p
      /\ CoursePurchase.courseId p' = CoursePurchase.courseId p
      /\ CoursePurchase.amount p' = CoursePurchase.amount p
      /\ CoursePurchase.paymentId p' = CoursePurchase.paymentId p).

(** ** Database calls *)

(** The calls a computation added to the trace. *)
Definition newCalls (w w' : World) : list DbCall :=
  drop (length (trace w)) (trace w').

Definition isLookup (c : DbCall) : bool :=
  match snd c with
  | findOne_ | findById_ | find_ | populate_
  | findOneAndUpdate_ | findByIdAndUpdate_ | findByIdAndDelete_ => true
  | save_ | create_ => false
  end.

Definition isWrite (c : DbCall) : bool :=
  match snd c with
  | save_ | create_ | findOneAndUpdate_ | findByIdAndUpdate_ | findByIdAndDelete_ => true
  | findOne_ | findById_ | find_ | populate_ => false
  end.

Definition lookups (cs : list DbCall) : nat := length (filter (fun c => isLookup c = true) cs).
Definition writes (cs : list DbCall) : nat := length (filter (fun c => isWrite c = true) cs).

(** ** A small instance

    Stand-ins for the collaborators and a handful of documents on which
    the handlers can be run. *)

Definition demoEvent (rawBody : string) : StripeEvent :=
  if String.eqb rawBody "completed:cs_1" then mkEvent "checkout.session.completed" "cs_1"
  else if String.eqb rawBody "expired:cs_1" then mkEvent "checkout.session.expired" "cs_1"
  else mkEvent rawBody "cs_0".

Definition demoExternals : Externals :=
  mkExternals
    (fun key msg => ("hmac(" ++ key ++ "," ++ msg ++ ")")%string)
    (fun msg => ("sha256(" ++ msg ++ ")")%string)
    (fun password salt => ("bcrypt(" ++ salt ++ "," ++ password ++ ")")%string)
    (fun plain hash => String.eqb hash ("bcrypt(salt," ++ plain ++ ")")%string)
    Utils.generateTokenWithId
    (fun id => ("jwt." ++ id)%string)
    (fun rawBody sig secret =>
       if eq_opt sig secret then Ok (demoEvent rawBody)
       else Threw (ExternalError "No signatures found matching the expected signature"))
    (fun course courseId userId => Ok (mkSession "cs_1" "https://checkout/cs_1"))
    (fun course courseId userId now =>
       Ok (mkOrder "order_1" (Course.price course * 100) "INR"))
    (fun file =>
       match file with
       | Some f => Ok (mkUpload ("https://media/" ++ f)%string)
       | None => Threw (ExternalError "Missing required parameter - file")
       end)
    (fun publicId => Ok tt)
    1%Z
    (fun pattern s => String.eqb pattern s)
    (fun range => Ok (fun _ => true))
    (fun courseId userId lectureId completed =>
       Threw (ExternalError "The positional operator did not find the match needed from the query"))
    "rzp_key" "rzp_secret" "whsec" "https://lms".

Definition ann : User.t :=
  User.mk "u1" "Ann" "ann@lms" (Some "bcrypt(salt,secret)") None [] None None.

Definition rocqCourse : Course.t :=
  Course.mk "c1" "Rocq" "Proofs" 10 None "u9" ["l1"; "l2"] true None None.

Definition introLecture : Lecture.t :=
  Lecture.mk "l1" "Intro" "Welcome" (Some "https://video/intro") None (Some true) "c1".

Definition paidLecture : Lecture.t :=
  Lecture.mk "l2" "Tactics" "Inside" (Some "https://video/paid") None None "c1".

Definition stripePending : CoursePurchase.t :=
  CoursePurchase.mk "p1" "u1" "c1" 10 pending "cs_1" None None None None.

Definition razorpayPending : CoursePurchase.t :=
  CoursePurchase.mk "p2" "u1" "c1" 10 pending "order_1" None None None None.

Definition demoWorld : World :=
  mkWorld [ann] [rocqCourse] [introLecture; paidLecture]
    [stripePending; razorpayPending] [] [].

(** The buyer deleted the account while the checkout was open. *)
Definition orphanWorld : World :=
  mkWorld [] [rocqCourse] [introLecture; paidLecture] [stripePending] [] [].

(** A catalogue with one user and one course, before any purchase. *)
Definition openingWorld : World :=
  mkWorld [ann] [rocqCourse] [introLecture; paidLecture] [] [] [].

(** ** Notions used in the statements *)

(** The collection after a step: the records that were there, each one
    lifecycle step further, followed by the records created since. *)
Definition grows (ps ps' : list CoursePurchase.t) : Prop :=
  exists old new, ps' = old ++ new /\ Forall2 lifecycle ps old.

(** A computation under which the purchases take lifecycle steps. *)
Definition steps {A} (m : M A) : Prop :=
  forall w, grows (purchases w) (purchases (snd (m w))).

(** A computation that leaves the purchases alone. *)
Definition keeps {A} (m : M A) : Prop :=
  forall w, purchases (snd (m w)) = purchases w.

(** The operation rewrote the record in slot [i], which was not
    [completed], into a [completed] one. *)
Definition markedCompleted (w w' : World) (i : nat) (p : CoursePurchase.t) : Prop :=
  purchases w !! i = Some p
  /\ CoursePurchase.status p <> completed
  /\ exists p', purchases w' !! i = Some p' /\ CoursePurchase.status p' = completed.

(** [User.findById(id)] on the collection of [w]. *)
Definition userById (id : ObjectId) (w : World) : option (Loaded User.t) :=
  first_match (fun d => String.eqb (User._id d) id) (users w).

(** [Course.findById(id)] on the collection of [w]. *)
Definition courseById (id : ObjectId) (w : World) : option (Loaded Course.t) :=
  first_match (fun d => String.eqb (Course._id d) id) (courses w).

(** The enrolled courses after a push that happens exactly when the course
    is not in the list yet. *)
Definition enrolledAfter (u : User.t) (courseId : ObjectId) : list ObjectId :=
  if includes (User.enrolledCourses u) courseId
  then User.enrolledCourses u
  else User.enrolledCourses u ++ [courseId].

(** At most one pending purchase carries the external identifier. *)
Definition atMostOnePending (id : string) (w : World) : Prop :=
  forall i j p q,
    purchases w !! i = Some p -> purchases w !! j = Some q ->
    pendingPayment id p = true -> pendingPayment id q = true -> i = j.

(** No pending purchase carries the external identifier. *)
Definition settled (id : string) (w : World) : Prop :=
  first_match (pendingPayment id) (purchases w) = None.

(** The external payment identifiers of the purchases, slot by slot. *)
Definition paymentIds (w : World) : list string :=
  map CoursePurchase.paymentId (purchases w).

(** The identifier under which a request that opens a checkout is about to
    record its purchase: the identifier of the session Stripe opens, or of
    the order Razorpay opens, for the course of the request. *)
Definition minted (E : Externals) (op : Operation) (w : World) : option string :=
  match op with
  | InitiateStripeCheckout userId courseId _ =>
      match courseById courseId w with
      | Some (_, course) =>
          match stripe_sessions_create E course courseId userId with
          | Ok session => Some (session_id session)
          | Threw _ => None
          end
      | None => None
      end
  | CreateRazorpayOrder userId courseId _ now =>
      match courseById courseId w with
      | Some (_, course) =>
          match razorpay_orders_create E course courseId userId now with
          | Ok order => Some (order_id order)
          | Threw _ => None
          end
      | None => None
      end
  | _ => None
  end.

(** Stripe and Razorpay mint a new identifier for every session and every
    order: the one they answer this request with is carried by no purchase
    yet. *)
Definition mintsFresh (E : Externals) (op : Operation) (w : World) : Prop :=
  forall id, minted E op w = Some id -> id ∉ paymentIds w.

(** The states of the service: a database without purchases, and what the
    routes make of it while the payment providers mint fresh identifiers.
    The collaborators may answer differently from one request to the
    next. *)
Inductive reachable : World -> Prop :=
| reachable_start w : purchases w = [] -> reachable w
| reachable_serve E op w :
    reachable w -> mintsFresh E op w -> reachable (snd (serve E op w)).

(** The operations that write a purchase. *)
Definition writesPurchases (op : Operation) : bool :=
  match op with
  | InitiateStripeCheckout _ _ _ | CreateRazorpayOrder _ _ _ _
  | HandleStripeWebhook _ _ _ | VerifyPayment _ _ _ _ _ | HandlePaymentFailure _ _ _ => true
  | _ => false
  end.

(** The calls of the [checkout.session.completed] case: the purchase
    lookup; when a pending purchase is found, its write, the lookup of the
    buyer and, when the buyer exists and is not enrolled yet, the write of
    the buyer. *)
Definition completedCalls (id : string) (w : World) : list DbCall :=
  (MCoursePurchase, findOne_) ::
  match first_match (pendingPayment id) (purchases w) with
  | None => []
  | Some (_, purchase) =>
      [(MCoursePurchase, save_); (MUser, findById_)]
      ++ match userById (CoursePurchase.userId purchase) w with
         | Some (_, user) =>
             if includes (User.enrolledCourses user) (CoursePurchase.courseId purchase)
             then []
             else [(MUser, save_)]
         | None => []
         end
  end.

(** [Lecture.findById(id)] on the collection of [w]. *)
Definition lectureById (w : World) (id : ObjectId) : option Lecture.t :=
  snd <$> first_match (fun d => String.eqb (Lecture._id d) id) (lectures w).

(** The lectures [populate("lectures")] puts on a course. *)
Definition populatedLectures (course : Course.t) (w : World) : list Lecture.t :=
  omap (lectureById w) (Course.lectures course).

(** [data.course.lectures] of a reply. *)
Definition responseLectures (r : Result Reply) : option (list jsval) :=
  match r with
  | Ok (Respond resp) =>
      match body resp with
      | BJson v =>
          match js_get "lectures" (js_get "course" (js_get "data" v)) with
          | JArr xs => Some xs
          | _ => None
          end
      | BText _ => None
      end
  | _ => None
  end.

(** A lecture without its video reference, unless it is a preview. *)
Definition hideVideo (l : Lecture.t) : Lecture.t :=
  if default false (Lecture.isPreview l) then l
  else Lecture.mk (Lecture._id l) (Lecture.title l) (Lecture.description l) None
         (Lecture.duration l) (Lecture.isPreview l) (Lecture.course l).

(** The database with the video references of all lectures that are not
    previews erased. *)
Definition hideVideos (w : World) : World :=
  mkWorld (users w) (courses w) (map hideVideo (lectures w)) (purchases w)
    (progresses w) (trace w).

(** [data.user] of a response. *)
Definition responseUser (r : Response) : jsval :=
  match body r with
  | BJson v => js_get "user" (js_get "data" v)
  | BText _ => JUndefined
  end.

(** The user object of a response is a user document whose password is
    [undefined]. *)
Definition userWithoutPassword (r : Response) : Prop :=
  exists user,
    responseUser r = User.toObject user
    /\ User.password user = None
    /\ js_has "password" (responseUser r) = false
    /\ js_get "password" (responseUser r) = JUndefined.

(** A supplied string that counts as not supplied: absent or empty. *)
Definition falsyStr (o : option string) : Prop := o = None \/ o = Some ""%string.

(** A supplied number that counts as not supplied: absent or zero. *)
Definition falsyNum (o : option Z) : Prop := o = None \/ o = Some 0%Z.

(** What an update with the given body may do to a course. *)
Definition updatedBy (title description : option string) (price : option Z)
    (c c' : Course.t) : Prop :=
  Course._id c' = Course._id c
  /\ Course.instructor c' = Course.instructor c
  /\ Course.lectures c' = Course.lectures c
  /\ Course.isPublished c' = Course.isPublished c
  /\ (falsyStr title -> Course.title c' = Course.title c)
  /\ (falsyStr description -> Course.description c' = Course.description c)
  /\ (falsyNum price -> Course.price c' = Course.price c).

(** A reply whose JSON body, once through the wrapper, is an envelope. *)
Definition enveloped (rep : Result Reply) : Prop :=
  match rep with
  | Ok (Respond r) => exists v, body r = BJson v /\ envelope v = true
  | Ok (Next _) => True
  | Threw _ => True
  end.

(** A handler all of whose replies are enveloped. *)
Definition alwaysEnveloped (m : M Reply) : Prop := forall w, enveloped (fst (m w)).

(** ** Notions used in the further properties *)

(** The collections of two worlds are the same (the trace aside). *)
Definition sameData (w w' : World) : Prop :=
  users w' = users w /\ courses w' = courses w /\ lectures w' = lectures w
  /\ purchases w' = purchases w /\ progresses w' = progresses w.

(** A computation that writes no collection. *)
Definition readOnly {A} (m : M A) : Prop := forall w, sameData w (snd (m w)).

(** The operations whose handlers only read: the [GET] routes, signin,
    signout and the health check. *)
Definition isQuery (op : Operation) : bool :=
  match op with
  | SearchCourses _ _ _ _ | GetPublishedCourses | GetMyCreatedCourses _
  | GetCourseDetails _ | GetCourseLectures _ | AuthenticateUser _ _ | SignOutUser
  | GetCurrentUserProfile _ | GetPaymentStatus _ _ | GetCoursePurchaseStatus _ _
  | GetPurchasedCourses _ | GetUserCourseProgress _ _ | CheckHealth => true
  | _ => false
  end.

(** The pending purchase a checkout opens. *)
Definition openedPurchase (fresh userId courseId : ObjectId) (course : Course.t)
    (paymentId : string) : CoursePurchase.t :=
  CoursePurchase.mk fresh userId courseId (Course.price course) pending paymentId
    None None None None.

(** At most one pending purchase of the user carries the order
    identifier. *)
Definition atMostOnePendingOrder (orderId : string) (userId : ObjectId) (w : World) : Prop :=
  forall i j p q,
    purchases w !! i = Some p -> purchases w !! j = Some q ->
    pendingOrder orderId userId p = true -> pendingOrder orderId userId q = true -> i = j.

(** What the Razorpay checkout posts back about an order: a payment to
    verify, or a failure. *)
Inductive RazorpayCallback :=
| PostVerify (razorpay_payment_id razorpay_signature : string) (now : Z)
| PostFailure (description : option string).

Definition callback (E : Externals) (userId : ObjectId) (orderId : string)
    (c : RazorpayCallback) : M Reply :=
  match c with
  | PostVerify pid sig now => verifyPayment E userId orderId pid sig now
  | PostFailure description => handlePaymentFailure userId orderId description
  end.

(** The error a callback gets for an order that has no pending purchase. *)
Definition settledError (E : Externals) (orderId : string) (c : RazorpayCallback) : AppError :=
  match c with
  | PostVerify pid sig _ =>
      if String.eqb (expectedSignature E orderId pid) sig
      then mkAppError "Purchase record not found" 404
      else mkAppError "Payment verification failed" 400
  | PostFailure _ => mkAppError "Purchase record not found" 404
  end.

(** [User.findOne({email})] on the collection of [w]. *)
Definition userByEmail (email : string) (w : World) : option (Loaded User.t) :=
  first_match (fun u => String.eqb (User.email u) email) (users w).

(** The document signup stores. *)
Definition signedUp (E : Externals) (name email password salt : string) (fresh : ObjectId)
  : User.t :=
  User.mk fresh name email (Some (bcrypt_hash E password salt)) None [] None None.

(** The body of a successful signin or signup. *)
Definition sessionBody (message : string) (user : User.t) (token : string) : Body :=
  BJson (JObj [("status", JStr "success"); ("message", JStr message);
               ("data", JObj [("user", User.toObject (User.with_password None user));
                              ("token", JStr token)])]).

(** The query of [resetPassword] on the collection of [w]. *)
Definition userByResetToken (E : Externals) (token : string) (now : Z) (w : World)
  : option (Loaded User.t) :=
  first_match (validReset (sha256_hex E token) now) (users w).

(** What a profile update leaves of a user: the identifier, the password,
    the enrolled courses and the reset token; a user other than the caller
    is left whole. *)
Definition profileFrame (userId : ObjectId) (u u' : User.t) : Prop :=
  User._id u' = User._id u
  /\ User.password u' = User.password u
  /\ User.enrolledCourses u' = User.enrolledCourses u
  /\ User.passwordResetToken u' = User.passwordResetToken u
  /\ User.passwordResetExpires u' = User.passwordResetExpires u
  /\ (User._id u <> userId -> u' = u).

(** A collection after some steps: the documents that were there, each
    related to what it has become, followed by the documents created
    since. *)
Definition evolved {A} (R : A -> A -> Prop) (l l' : list A) : Prop :=
  exists old new, l' = old ++ new /\ Forall2 R l old.

(** A computation under which the users evolve by [R]. *)
Definition usersEvolve {B} (R : User.t -> User.t -> Prop) (m : M B) : Prop :=
  forall w, evolved R (users w) (users (snd (m w))).

(** A user keeps its identifier and the courses it is enrolled in, in
    their order; courses may have been added behind them. *)
Definition stillEnrolled (u u' : User.t) : Prop :=
  User._id u' = User._id u
  /\ exists more, User.enrolledCourses u' = User.enrolledCourses u ++ more.

Definition isAccountDeletion (op : Operation) : bool :=
  match op with
  | DeleteUserAccount _ _ => true
  | _ => false
  end.

(** A user keeps its identifier and its stored password hash. *)
Definition samePassword (u u' : User.t) : Prop :=
  User._id u' = User._id u /\ User.password u' = User.password u.

(** The operations that write a password, or remove a user. *)
Definition writesPassword (op : Operation) : bool :=
  match op with
  | ChangeUserPassword _ _ _ _ | ResetPassword _ _ _ _ | DeleteUserAccount _ _ => true
  | _ => false
  end.

(** The document [createNewCourse] stores. *)
Definition createdCourse (instructorId : ObjectId) (title description : string) (price : Z)
    (url : string) (fresh : ObjectId) : Course.t :=
  Course.mk fresh title description price (Some url) instructorId [] false None None.

(** The error of reading [secure_url] off a failed upload. *)
Definition noSecureUrl : JsError :=
  TypeError "Cannot read properties of undefined (reading 'secure_url')".

(** The reply of a listing: [{status, results, data: {key: items}}]. *)
Definition listing (key : string) (items : list jsval) : Reply :=
  json 200 (success [("results", JNum (Z.of_nat (length items)));
                     ("data", JObj [(key, JArr items)])]).

(** A course as the listings show it: instructor and lectures populated
    from the collections of [w]. *)
Definition courseView (w : World) (c : Course.t) : jsval :=
  JObj (populatedCourse c
          (snd <$> first_match (fun d => String.eqb (User._id d) (Course.instructor c)) (users w))
          (populatedLectures c w)).

(** A course as the search shows it: instructor populated, lectures as
    references. *)
Definition courseSummary (w : World) (c : Course.t) : jsval :=
  JObj (Course.toObjectWith
          (instructorObject
             (snd <$> first_match (fun d => String.eqb (User._id d) (Course.instructor c))
                        (users w)))
          (JArr (map JStr (Course.lectures c))) c).

(** The media store is unreachable: every upload throws. *)
Definition offlineMedia : Externals :=
  mkExternals (hmac_sha256_hex demoExternals) (sha256_hex demoExternals)
    (bcrypt_hash demoExternals) (bcrypt_compare demoExternals)
    (generateToken demoExternals) (jwt_sign demoExternals) (constructEvent demoExternals)
    (stripe_sessions_create demoExternals) (razorpay_orders_create demoExternals)
    (fun _ => Threw (ExternalError "connect ETIMEDOUT"))
    (cloudinary_destroy demoExternals) (getDBStatus demoExternals) (regex_i demoExternals)
    (price_between demoExternals) (positional_upsert demoExternals)
    "rzp_key" "rzp_secret" "whsec" "https://lms".

(** The completed purchases of a user, in collection order. *)
Definition completedPurchases (userId : ObjectId) (w : World) : list CoursePurchase.t :=
  filter (fun p => completedBy userId p = true) (purchases w).

(** The error of spreading the course of a purchase whose course is gone. *)
Definition noCourseObject : JsError :=
  TypeError "Cannot read properties of null (reading 'toObject')".

(** The [purchaseInfo] of a listed course. *)
Definition purchaseInfo (p : CoursePurchase.t) : jsval :=
  JObj [("purchaseDate", opt_js JNum (CoursePurchase.purchaseDate p));
        ("amount", JNum (CoursePurchase.amount p));
        ("paymentId", JStr (CoursePurchase.paymentId p))].

(** The object [populate] put in the place of a course reference. *)
Definition courseObjectOf (course : Course.t) (fs : list (string * jsval)) : Prop :=
  fields_get "_id" fs = JStr (Course._id course)
  /\ fields_get "title" fs = JStr (Course.title course)
  /\ fields_get "description" fs = JStr (Course.description course)
  /\ fields_get "price" fs = JNum (Course.price course).

(** A purchase with its populated course, or with [null] when the course
    is gone. *)
Definition populatedAs (w : World) (p : CoursePurchase.t)
    (pc : CoursePurchase.t * option jsval) : Prop :=
  fst pc = p
  /\ match courseById (CoursePurchase.courseId p) w with
     | Some (_, course) => exists fs, snd pc = Some (JObj fs) /\ courseObjectOf course fs
     | None => snd pc = None
     end.

(** An item of the listing shows a purchase: it is the object of the
    course the purchase refers to, with the date, the amount and the
    payment identifier of the purchase under [purchaseInfo]. *)
Definition showsPurchase (w : World) (p : CoursePurchase.t) (item : jsval) : Prop :=
  exists slot course,
    courseById (CoursePurchase.courseId p) w = Some (slot, course)
    /\ js_get "_id" item = JStr (CoursePurchase.courseId p)
    /\ js_get "title" item = JStr (Course.title course)
    /\ js_get "description" item = JStr (Course.description course)
    /\ js_get "price" item = JNum (Course.price course)
    /\ js_get "purchaseInfo" item = purchaseInfo p.

(** The later purchase first; a purchase without a date after the dated
    ones. *)
Definition newestFirst (a b : CoursePurchase.t) : Prop :=
  date_ge (CoursePurchase.purchaseDate a) (CoursePurchase.purchaseDate b) = true.


(** The query of [updateLectureProgress]: the progress of the user in the
    course that has an entry for the lecture. *)
Definition progressWithLecture (courseId userId lectureId : ObjectId)
    (p : CourseProgress.t) : bool :=
  progressOf courseId userId p
  && existsb (fun lc => String.eqb (fst lc) lectureId) (CourseProgress.lectures p).

Definition isProgressOperation (op : Operation) : bool :=
  match op with
  | GetUserCourseProgress _ _ | UpdateLectureProgress _ _ _ _
  | MarkCourseAsCompleted _ _ _ | ResetCourseProgress _ _ _ => true
  | _ => false
  end.

(** * Properties *)

(** ** Queries *)

Lemma first_match_Some {A} (q : A -> bool) (l : list A) i x :
  first_match q l = Some (i, x) ->
  l !! i = Some x /\ q x = true /\ forall j y, l !! j = Some y -> j < i -> q y = false.
Proof.
  unfold first_match. intros H. apply list_find_Some in H as (Hl & Hq & Hfirst).
  repeat split; auto. intros j y Hj Hlt.
  specialize (Hfirst j y Hj Hlt). destruct (q y); congruence.
Qed.

Lemma first_match_None {A} (q : A -> bool) (l : list A) :
  first_match q l = None <-> forall x, x ∈ l -> q x = false.
Proof.
  unfold first_match. rewrite list_find_None, Forall_forall. split.
  - intros H x Hx. specialize (H x Hx). destruct (q x); congruence.
  - intros H x Hx. rewrite (H x Hx). discriminate.
Qed.

Lemma status_eqb_eq a b : status_eqb a b = true <-> a = b.
Proof. destruct a, b; simpl; split; congruence. Qed.

Lemma pendingOrder_inv orderId userId p :
  pendingOrder orderId userId p = true ->
  CoursePurchase.paymentId p = orderId /\ CoursePurchase.userId p = userId
  /\ CoursePurchase.status p = pending.
Proof.
  unfold pendingOrder. rewrite !andb_true_iff, !String.eqb_eq, status_eqb_eq. tauto.
Qed.

Lemma pendingPayment_inv id p :
  pendingPayment id p = true ->
  CoursePurchase.paymentId p = id /\ CoursePurchase.status p = pending.
Proof.
  unfold pendingPayment. rewrite andb_true_iff, String.eqb_eq, status_eqb_eq. tauto.
Qed.

Lemma lookup_insert_other_status (l : list CoursePurchase.t) slot q i p' :
  <[slot := q]> l !! i = Some p' ->
  CoursePurchase.status q <> CoursePurchase.status p' ->
  l !! i = Some p'.
Proof.
  intros H Hne. apply list_lookup_insert_Some in H as [(-> & -> & _)|[_ H]]; [done|exact H].
Qed.

(** Unfolding of the monad and of the model operations. *)
Ltac run :=
  unfold notFound, findOne, findById, find, save, create,
    findOneAndUpdate, findOneAndUpsert, findByIdAndUpdate, findByIdAndDelete,
    populateOne, populateMany, populatedId in *;
  unfold bind, ret, throw, lift, log in *;
  simpl in *.

(** ** Payment verification *)

(** C1.  A request to [verifyPayment] whose signature differs from the hex
    HMAC-SHA256 (keyed with the Razorpay key secret) of
    [razorpay_order_id + "|" + razorpay_payment_id] is rejected with the
    application error 400, and the first purchase matching the order
    identifier, the user and the status [pending] is rewritten in its slot:
    the record that was [pending] now has the status [failed], and keeps
    its identifier, user, course, amount and order identifier; no other
    slot changes (nothing is written when no purchase matches).  When the
    signatures are equal no purchase becomes [failed]: every record that is
    [failed] afterwards is a record that was there, unchanged, before. *)
Theorem verifyPayment_signature_check
    (E : Externals) (userId : ObjectId) (oid pid sig : string) (now : Z) (w : World) :
  let r := verifyPayment E userId oid pid sig now w in
  (sig <> expectedSignature E oid pid ->
     fst r = Ok (Next (mkAppError "Payment verification failed" 400))
     /\ match first_match (pendingOrder oid userId) (purchases w) with
        | Some (i, p) =>
            purchases (snd r) = <[i := CoursePurchase.with_status failed p]> (purchases w)
            /\ CoursePurchase.status p = pending
            /\ exists p',
                 purchases (snd r) !! i = Some p'
                 /\ CoursePurchase.status p' = failed
                 /\ CoursePurchase.paymentId p' = oid
                 /\ CoursePurchase.userId p' = userId
                 /\ CoursePurchase._id p' = CoursePurchase._id p
                 /\ CoursePurchase.courseId p' = CoursePurchase.courseId p
                 /\ CoursePurchase.amount p' = CoursePurchase.amount p
        | None => purchases (snd r) = purchases w
        end)
  /\ (sig = expectedSignature E oid pid ->
      forall i p', purchases (snd r) !! i = Some p' ->
                   CoursePurchase.status p' = failed ->
                   purchases w !! i = Some p').
Proof.
  intros r. subst r. unfold verifyPayment. split.
  - intros Hne.
    assert (Hb : String.eqb (expectedSignature E oid pid) sig = false)
      by (apply String.eqb_neq; congruence).
    rewrite Hb. run.
    destruct (first_match (pendingOrder oid userId) (purchases w)) as [[i p]|] eqn:Hfind;
      simpl; [|auto].
    apply first_match_Some in Hfind as (Hi & Hq & _).
    apply pendingOrder_inv in Hq as (Hoid & Huser & Hpending).
    split; [done|]. split; [done|]. split; [done|].
    exists (CoursePurchase.with_status failed p). split.
    + apply list_lookup_insert_Some. left. split; [done|]. split; [done|].
      by eapply lookup_lt_Some.
    + by repeat split.
  - intros ->. rewrite String.eqb_refl. run.
    destruct (first_match _ (purchases w)) as [[slot p]|] eqn:Hfind; simpl; [|auto].
    repeat case_match; simplify_eq/=;
      intros i p' Hi Hfailed; (eapply lookup_insert_other_status; [exact Hi|]);
      rewrite Hfailed; discriminate.
Qed.

Lemma verifyPayment_signature_check_witness :
  let forged := verifyPayment demoExternals "u1" "order_1" "pay_1" "forged" 7 demoWorld in
  let genuine :=
    verifyPayment demoExternals "u1" "order_1" "pay_1"
      "hmac(rzp_secret,order_1|pay_1)" 7 demoWorld in
  (fst forged = Ok (Next (mkAppError "Payment verification failed" 400))
   /\ purchases (snd forged)
      = [CoursePurchase.mk "p1" "u1" "c1" 10 pending "cs_1" None None None None;
         CoursePurchase.mk "p2" "u1" "c1" 10 failed "order_1" None None None None])
  /\ (forall i p', purchases (snd genuine) !! i = Some p' ->
                   CoursePurchase.status p' = failed ->
                   purchases demoWorld !! i = Some p')
  /\ CoursePurchase.status <$> purchases (snd genuine) !! 1 = Some completed.
Proof.
  split; [|split; [|reflexivity]].
  - destruct (proj1 (verifyPayment_signature_check demoExternals "u1" "order_1" "pay_1"
                       "forged" 7 demoWorld)) as (Hreply & Hwritten & _).
    + vm_compute. discriminate.
    + split; [exact Hreply|exact Hwritten].
  - apply (verifyPayment_signature_check demoExternals "u1" "order_1" "pay_1"
             "hmac(rzp_secret,order_1|pay_1)" 7 demoWorld).
    reflexivity.
Defined.

(** ** The life of a purchase record *)

Lemma lifecycle_refl p : lifecycle p p.
Proof. by left. Qed.

Lemma lifecycle_trans p q r : lifecycle p q -> lifecycle q r -> lifecycle p r.
Proof.
  intros [->|Hpq] Hqr; [exact Hqr|].
  destruct Hqr as [->|Hqr]; [by right|].
  destruct Hpq as (_ & [Hq|Hq] & _), Hqr as (Hq' & _); congruence.
Qed.

Lemma lifecycle_terminal p p' :
  lifecycle p p' -> CoursePurchase.status p <> pending -> p' = p.
Proof. intros [->|(Hp & _)] Hne; [done|contradiction]. Qed.

Lemma grows_refl ps : grows ps ps.
Proof.
  exists ps, []. split; [by rewrite app_nil_r|].
  apply Forall2_same_length_lookup_2; [done|]. intros i x y Hx Hy.
  rewrite Hx in Hy. injection Hy as ->. apply lifecycle_refl.
Qed.

Lemma Forall2_lifecycle_trans ps qs rs :
  Forall2 lifecycle ps qs -> Forall2 lifecycle qs rs -> Forall2 lifecycle ps rs.
Proof.
  intros H. revert rs. induction H as [|p q ps qs Hpq _ IH]; intros rs Hr.
  - inversion Hr. constructor.
  - inversion Hr as [|? r ? rs' Hqr Hrest]; subst. constructor.
    + eapply lifecycle_trans; eauto.
    + by apply IH.
Qed.

Lemma grows_trans ps qs rs : grows ps qs -> grows qs rs -> grows ps rs.
Proof.
  intros (old & new & -> & Hold) (old' & new' & -> & Hold').
  apply Forall2_app_inv_l in Hold' as (o1 & o2 & Ho1 & Ho2 & ->).
  exists o1, (o2 ++ new'). split; [by rewrite app_assoc|].
  eapply Forall2_lifecycle_trans; eauto.
Qed.

Lemma grows_create ps p : grows ps (ps ++ [p]).
Proof.
  destruct (grows_refl ps) as (old & new & Heq & H).
  exists ps, [p]. split; [done|]. destruct new.
  - rewrite app_nil_r in Heq. by subst.
  - apply Forall2_length in H. apply (f_equal length) in Heq.
    rewrite length_app in Heq. simpl in Heq. lia.
Qed.

Lemma grows_update ps i p p' :
  ps !! i = Some p -> lifecycle p p' -> grows ps (<[i := p']> ps).
Proof.
  intros Hi Hl. exists (<[i := p']> ps), []. split; [by rewrite app_nil_r|].
  apply Forall2_same_length_lookup_2; [by rewrite length_insert|].
  intros j x y Hx Hy.
  apply list_lookup_insert_Some in Hy as [(-> & -> & _)|[_ Hy]].
  - rewrite Hi in Hx. by injection Hx as <-.
  - rewrite Hx in Hy. injection Hy as ->. apply lifecycle_refl.
Qed.

Lemma grows_lookup ps ps' i p :
  grows ps ps' -> ps !! i = Some p ->
  exists p', ps' !! i = Some p' /\ lifecycle p p'.
Proof.
  intros (old & new & -> & H) Hi.
  destruct (Forall2_lookup_l _ _ _ _ _ H Hi) as (p' & Hp' & Hl).
  exists p'. split; [|done]. by apply lookup_app_l_Some.
Qed.

Lemma keeps_steps {A} (m : M A) : keeps m -> steps m.
Proof. intros H w. rewrite H. apply grows_refl. Qed.

Lemma keeps_ret {A} (a : A) : keeps (ret a).
Proof. done. Qed.

Lemma keeps_throw {A} e : keeps (@throw A e).
Proof. done. Qed.

Lemma keeps_lift {A} (r : Result A) : keeps (lift r).
Proof. done. Qed.

Lemma keeps_notFound msg : keeps (notFound msg).
Proof. done. Qed.

Lemma keeps_bind {A B} (m : M A) (k : A -> M B) :
  keeps m -> (forall a, keeps (k a)) -> keeps (bind m k).
Proof.
  intros Hm Hk w. unfold bind. specialize (Hm w).
  destruct (m w) as [[a|e] w']; simpl in *; [|done].
  by rewrite Hk.
Qed.

Lemma steps_bind {A B} (m : M A) (k : A -> M B) :
  steps m -> (forall a, steps (k a)) -> steps (bind m k).
Proof.
  intros Hm Hk w. unfold bind. specialize (Hm w).
  destruct (m w) as [[a|e] w']; simpl in *; [|done].
  eapply grows_trans; [exact Hm|apply Hk].
Qed.

Lemma keeps_mapM {A B} (f : A -> M B) (l : list A) :
  (forall a, keeps (f a)) -> keeps (mapM f l).
Proof.
  intros Hf. induction l as [|a l IH]; simpl; [apply keeps_ret|].
  apply keeps_bind; [apply Hf|]. intros b.
  apply keeps_bind; [apply IH|]. intros bs. apply keeps_ret.
Qed.

(** Straight-line computations are settled by running them. *)
Ltac keeps_by_running :=
  intros ?w; run; repeat case_match; simplify_eq/=; reflexivity.

Lemma keeps_populatePurchaseCourse p : keeps (populatePurchaseCourse p).
Proof. unfold populatePurchaseCourse. keeps_by_running. Qed.

Lemma keeps_purchasedCourse pc : keeps (purchasedCourse pc).
Proof. unfold purchasedCourse. keeps_by_running. Qed.

Lemma keeps_withInstructor c : keeps (withInstructor c).
Proof. unfold withInstructor. keeps_by_running. Qed.

Lemma keeps_withInstructorAndLectures c : keeps (withInstructorAndLectures c).
Proof. unfold withInstructorAndLectures. keeps_by_running. Qed.

Lemma keeps_enrolledCourseObject c : keeps (enrolledCourseObject c).
Proof. unfold enrolledCourseObject. keeps_by_running. Qed.

Lemma keeps_find {A} (m : Model A) q : keeps (find m q).
Proof. keeps_by_running. Qed.

Lemma keeps_findById {A} (m : Model A) idof id : keeps (findById m idof id).
Proof. keeps_by_running. Qed.

Lemma keeps_populateMany {A} (m : Model A) idof ids : keeps (populateMany m idof ids).
Proof. keeps_by_running. Qed.

Create HintDb keeps.

#[local] Hint Resolve keeps_ret keeps_throw keeps_lift keeps_notFound keeps_mapM keeps_find keeps_findById
  keeps_populateMany keeps_populatePurchaseCourse keeps_purchasedCourse
  keeps_withInstructor keeps_withInstructorAndLectures keeps_enrolledCourseObject : keeps.

Ltac keeps_by_structure :=
  first
    [ solve [auto with keeps]
    | apply keeps_bind; [keeps_by_structure|intros ?; keeps_by_structure]
    | match goal with
      | |- keeps (match ?x with _ => _ end) => destruct x; keeps_by_structure
      end
    | progress cbv zeta; keeps_by_structure
    | keeps_by_running ].

Ltac grows_by_cases :=
  first
    [ apply grows_refl
    | apply grows_create
    | match goal with
      | H : first_match _ (purchases ?w) = Some (?i, ?p)
        |- grows (purchases ?w) (<[?i := _]> (purchases ?w)) =>
          let Hl := fresh in
          let Hq := fresh in
          apply first_match_Some in H as (Hl & Hq & _);
          first [ apply pendingOrder_inv in Hq as (? & ? & ?)
                | apply pendingPayment_inv in Hq as (? & ?) ];
          eapply grows_update; [exact Hl|right; simpl; auto 10]
      end ].

Lemma handler_steps E op : steps (handler E op).
Proof.
  destruct op; simpl.
  all: try (apply keeps_steps;
            unfold createNewCourse, searchCourses, getPublishedCourses, getMyCreatedCourses,
              updateCourseDetails, getCourseDetails, addLectureToCourse, getCourseLectures,
              createUserAccount, authenticateUser, signOutUser, getCurrentUserProfile,
              updateUserProfile, changeUserPassword, forgotPassword, resetPassword,
              deleteUserAccount, getPaymentStatus, getCoursePurchaseStatus,
              getPurchasedCourses, getUserCourseProgress, updateLectureProgress,
              markCourseAsCompleted, resetCourseProgress, checkHealth,
              uploadMedia, secureUrl, compareWith, deleteMediaFromCloudinary,
              nextIsNotDefined;
            solve [keeps_by_structure]).
  all: unfold createRazorpayOrder, verifyPayment, handlePaymentFailure,
         initiateStripeCheckout, handleStripeWebhook, dispatchStripeEvent;
       intros w; run; repeat case_match; simplify_eq/=; grows_by_cases.
Qed.

Lemma serve_world E op w : snd (serve E op w) = snd (handler E op w).
Proof.
  unfold serve, catchAsync. by destruct (handler E op w) as [[[r|e]|e] w'].
Qed.

Lemma runAll_grows E ops w : grows (purchases w) (purchases (runAll E ops w)).
Proof.
  revert w. induction ops as [|op ops IH]; intros w; simpl; [apply grows_refl|].
  eapply grows_trans; [|apply IH]. rewrite serve_world. apply handler_steps.
Qed.

(** C2.  Under any sequence of operations of the service (the Stripe
    webhook, [verifyPayment] and [handlePaymentFailure] among them, which
    are the ones that write a status), a purchase record stays in its slot
    and either is untouched or has left [pending] for [completed] or
    [failed]; a record that is [completed] or [failed] is never changed
    again. *)
Theorem purchase_status_lifecycle
    (E : Externals) (ops : list Operation) (w : World) (i : nat) (p : CoursePurchase.t) :
  purchases w !! i = Some p ->
  exists p', purchases (runAll E ops w) !! i = Some p'
             /\ lifecycle p p'
             /\ (CoursePurchase.status p <> pending -> p' = p).
Proof.
  intros Hi. destruct (grows_lookup _ _ _ _ (runAll_grows E ops w) Hi) as (p' & Hp' & Hl).
  exists p'. repeat split; auto. by apply lifecycle_terminal.
Qed.

Lemma purchase_status_lifecycle_witness :
  let ops :=
    [HandleStripeWebhook "completed:cs_1" (Some "whsec") 5;
     HandleStripeWebhook "expired:cs_1" (Some "whsec") 6;
     VerifyPayment "u1" "order_1" "pay_1" "forged" 7;
     HandlePaymentFailure "u1" "order_1" None;
     VerifyPayment "u1" "order_1" "pay_1" "hmac(rzp_secret,order_1|pay_1)" 8] in
  purchases demoWorld !! 1 = Some razorpayPending
  /\ exists p', purchases (runAll demoExternals ops demoWorld) !! 1 = Some p'
                /\ lifecycle razorpayPending p'
                /\ (CoursePurchase.status razorpayPending <> pending -> p' = razorpayPending).
Proof.
  intros ops. split; [reflexivity|].
  apply (purchase_status_lifecycle demoExternals ops demoWorld 1 razorpayPending).
  reflexivity.
Defined.

(** ** Enrollment on completion *)

Lemma includes_push ids x : includes (ids ++ [x]) x = true.
Proof.
  unfold includes. rewrite existsb_app. simpl.
  rewrite String.eqb_refl. by rewrite orb_true_r.
Qed.

Lemma includes_enrolledAfter u c : includes (enrolledAfter u c) c = true.
Proof.
  unfold enrolledAfter. destruct (includes (User.enrolledCourses u) c) eqn:H; [done|].
  apply includes_push.
Qed.

Lemma not_marked_same (l : list CoursePurchase.t) i p :
  l !! i = Some p -> CoursePurchase.status p <> completed ->
  ~ exists p', l !! i = Some p' /\ CoursePurchase.status p' = completed.
Proof. intros Hi Hne (p' & Hi' & Hc). congruence. Qed.

Lemma marked_insert (l : list CoursePurchase.t) j q i p :
  l !! i = Some p -> CoursePurchase.status p <> completed ->
  (exists p', <[j := q]> l !! i = Some p' /\ CoursePurchase.status p' = completed) ->
  i = j /\ CoursePurchase.status q = completed.
Proof.
  intros Hi Hne (p' & Hi' & Hc).
  apply list_lookup_insert_Some in Hi' as [(-> & -> & _)|[_ Hi']]; [done|congruence].
Qed.

Lemma webhook_enrolls E rawBody sig now w i p uslot u :
  let w' := snd (handleStripeWebhook E rawBody sig now w) in
  markedCompleted w w' i p ->
  userById (CoursePurchase.userId p) w = Some (uslot, u) ->
  exists u', users w' !! uslot = Some u'
             /\ User._id u' = CoursePurchase.userId p
             /\ User.enrolledCourses u' = enrolledAfter u (CoursePurchase.courseId p).
Proof.
  intros w' (Hi & Hne & Hdone) Hu. subst w'. revert Hdone.
  unfold userById in Hu.
  unfold handleStripeWebhook, dispatchStripeEvent. run.
  repeat case_match; simplify_eq/=; intros Hdone.
  all: try (exfalso; eapply not_marked_same; eassumption).
  all: try (apply (marked_insert _ _ _ _ _ Hi Hne) in Hdone as [-> Hst]; simpl in Hst;
            try discriminate).
  all: repeat match goal with
         | H : first_match _ (purchases _) = Some _ |- _ =>
             apply first_match_Some in H as (? & _ & _)
         end; simplify_eq/=.
  all: apply first_match_Some in Hu as (Hl & Hid & _); apply String.eqb_eq in Hid.
  - eexists. split; [apply list_lookup_insert_eq; by eapply lookup_lt_Some|].
    simpl. split; [done|].
    unfold enrolledAfter. by destruct (includes _ _).
  - exists u. repeat split; auto. unfold enrolledAfter. by destruct (includes _ _).
Qed.

Lemma verifyPayment_enrolls E userId oid pid sig now w i p uslot u cslot c :
  let w' := snd (verifyPayment E userId oid pid sig now w) in
  markedCompleted w w' i p ->
  userById (CoursePurchase.userId p) w = Some (uslot, u) ->
  courseById (CoursePurchase.courseId p) w = Some (cslot, c) ->
  exists u', users w' !! uslot = Some u'
             /\ User._id u' = CoursePurchase.userId p
             /\ User.enrolledCourses u' = enrolledAfter u (CoursePurchase.courseId p).
Proof.
  intros w' (Hi & Hne & Hdone) Hu Hc. subst w'. revert Hdone.
  unfold userById in Hu. unfold courseById in Hc.
  unfold verifyPayment. run.
  repeat case_match; simplify_eq/=; intros Hdone.
  all: try (exfalso; eapply not_marked_same; eassumption).
  all: try (apply (marked_insert _ _ _ _ _ Hi Hne) in Hdone as [-> Hst]; simpl in Hst;
            try discriminate).
  all: repeat match goal with
         | H : first_match _ (purchases _) = Some _ |- _ =>
             let Hq := fresh in
             apply first_match_Some in H as (? & Hq & _);
             apply pendingOrder_inv in Hq as (? & ? & ?)
         end; simplify_eq/=.
  all: repeat match goal with
         | Hfound : first_match ?q (courses ?w0) = Some _,
           H : context [snd <$> first_match ?q (courses ?w0)] |- _ =>
             rewrite Hfound in H; simpl in H
         end; simplify_eq/=.
  all: apply first_match_Some in Hu as (Hl & Hid & _); apply String.eqb_eq in Hid.
  all: apply first_match_Some in Hc as (_ & Hcid & _); apply String.eqb_eq in Hcid.
  all: unfold enrolledAfter; rewrite <- Hcid.
  - eexists. split; [apply list_lookup_insert_eq; by eapply lookup_lt_Some|].
    simpl. split; [done|]. by destruct (includes _ _).
  - exists u. repeat split; auto. by destruct (includes _ _).
Qed.

(** C3 (as amended).  When the Stripe webhook or [verifyPayment] marks a
    purchase [completed] and the buyer's user document exists (and, for
    [verifyPayment], the purchased course still exists, so that the
    populated reference is not [null]), the buyer's document afterwards
    lists the course among its enrolled courses: the course is appended
    exactly when it was not in the list, and the list is left as it was
    otherwise. *)
Theorem completed_purchase_enrolls_existing_buyer (E : Externals) :
  (forall rawBody sig now w i p uslot u,
     let w' := snd (handleStripeWebhook E rawBody sig now w) in
     markedCompleted w w' i p ->
     userById (CoursePurchase.userId p) w = Some (uslot, u) ->
     exists u', users w' !! uslot = Some u'
                /\ User._id u' = CoursePurchase.userId p
                /\ includes (User.enrolledCourses u') (CoursePurchase.courseId p) = true
                /\ User.enrolledCourses u' = enrolledAfter u (CoursePurchase.courseId p))
  /\ (forall userId oid pid sig now w i p uslot u cslot c,
       let w' := snd (verifyPayment E userId oid pid sig now w) in
       markedCompleted w w' i p ->
       userById (CoursePurchase.userId p) w = Some (uslot, u) ->
       courseById (CoursePurchase.courseId p) w = Some (cslot, c) ->
       exists u', users w' !! uslot = Some u'
                  /\ User._id u' = CoursePurchase.userId p
                  /\ includes (User.enrolledCourses u') (CoursePurchase.courseId p) = true
                  /\ User.enrolledCourses u' = enrolledAfter u (CoursePurchase.courseId p)).
Proof.
  split.
  - intros rawBody sig now w i p uslot u w' Hm Hu.
    destruct (webhook_enrolls E rawBody sig now w i p uslot u Hm Hu) as (u' & H1 & H2 & H3).
    exists u'. repeat split; auto. rewrite H3. apply includes_enrolledAfter.
  - intros userId oid pid sig now w i p uslot u cslot c w' Hm Hu Hc.
    destruct (verifyPayment_enrolls E userId oid pid sig now w i p uslot u cslot c Hm Hu Hc)
      as (u' & H1 & H2 & H3).
    exists u'. repeat split; auto. rewrite H3. apply includes_enrolledAfter.
Qed.

Lemma completed_purchase_enrolls_existing_buyer_witness :
  let w1 := snd (handleStripeWebhook demoExternals "completed:cs_1" (Some "whsec") 5 demoWorld) in
  let w2 :=
    snd (verifyPayment demoExternals "u1" "order_1" "pay_1"
           "hmac(rzp_secret,order_1|pay_1)" 8 demoWorld) in
  (exists u', users w1 !! 0 = Some u'
              /\ User._id u' = "u1"
              /\ includes (User.enrolledCourses u') "c1" = true
              /\ User.enrolledCourses u' = ["c1"])
  /\ (exists u', users w2 !! 0 = Some u'
                /\ User._id u' = "u1"
                /\ includes (User.enrolledCourses u') "c1" = true
                /\ User.enrolledCourses u' = ["c1"]).
Proof.
  split.
  - apply (proj1 (completed_purchase_enrolls_existing_buyer demoExternals)
             "completed:cs_1" (Some "whsec") 5%Z demoWorld 0 stripePending 0 ann).
    + split; [reflexivity|]. split; [discriminate|].
      eexists. split; reflexivity.
    + reflexivity.
  - apply (proj2 (completed_purchase_enrolls_existing_buyer demoExternals)
             "u1" "order_1" "pay_1" "hmac(rzp_secret,order_1|pay_1)" 8%Z demoWorld
             1 razorpayPending 0 ann 0 rocqCourse).
    + split; [reflexivity|]. split; [discriminate|].
      eexists. split; reflexivity.
    + reflexivity.
    + reflexivity.
Defined.

(** C3 as stated fails: the webhook completes the purchase of a buyer whose
    account is gone, and no user is enrolled. *)
Lemma completed_purchase_without_enrollment :
  let w' := snd (handleStripeWebhook demoExternals "completed:cs_1" (Some "whsec") 5 orphanWorld) in
  markedCompleted orphanWorld w' 0 stripePending
  /\ ~ exists u, u ∈ users w'
                 /\ User._id u = CoursePurchase.userId stripePending
                 /\ CoursePurchase.courseId stripePending ∈ User.enrolledCourses u.
Proof.
  split.
  - split; [reflexivity|]. split; [discriminate|]. eexists. split; reflexivity.
  - intros (u & Hu & _). vm_compute in Hu. by apply elem_of_nil in Hu.
Qed.

(** ** Redelivery of a Stripe event *)

Lemma settled_after_update id (l : list CoursePurchase.t) n t t' :
  (forall i j p q, l !! i = Some p -> l !! j = Some q ->
                   pendingPayment id p = true -> pendingPayment id q = true -> i = j) ->
  l !! n = Some t -> pendingPayment id t = true -> pendingPayment id t' = false ->
  first_match (pendingPayment id) (<[n := t']> l) = None.
Proof.
  intros Huniq Hn Ht Ht'. apply first_match_None. intros x Hx.
  apply list_elem_of_lookup in Hx as [j Hj].
  apply list_lookup_insert_Some in Hj as [(-> & -> & _)|[Hne Hj]]; [done|].
  destruct (pendingPayment id x) eqn:Hx; [|done].
  exfalso. apply Hne. eapply Huniq; eauto.
Qed.

Lemma dispatch_settles event now w :
  event_type event = "checkout.session.completed"
  \/ event_type event = "checkout.session.expired" ->
  atMostOnePending (event_object_id event) w ->
  settled (event_object_id event) (snd (dispatchStripeEvent event now w)).
Proof.
  intros Htype Huniq. unfold settled, dispatchStripeEvent.
  assert (Hdone : forall n t t',
            purchases w !! n = Some t ->
            pendingPayment (event_object_id event) t = true ->
            CoursePurchase.status t' <> pending ->
            first_match (pendingPayment (event_object_id event)) (<[n := t']> (purchases w))
            = None).
  { intros n t t' Hn Ht Hne. eapply settled_after_update; eauto.
    unfold pendingPayment. destruct (CoursePurchase.status t'); try done.
    all: by rewrite andb_false_r. }
  destruct Htype as [Htype|Htype]; rewrite Htype; simpl; run.
  all: destruct (first_match _ (purchases w)) as [[n t]|] eqn:Hfind; simpl; [|done].
  all: apply first_match_Some in Hfind as (Hn & Ht & _).
  all: repeat case_match; simplify_eq/=; by eapply Hdone.
Qed.

Lemma dispatch_settled event now w :
  settled (event_object_id event) w ->
  purchases (snd (dispatchStripeEvent event now w)) = purchases w
  /\ users (snd (dispatchStripeEvent event now w)) = users w.
Proof.
  unfold settled, dispatchStripeEvent. intros Hs.
  repeat case_match; run; try rewrite Hs; done.
Qed.

Lemma dispatch_unhandled event now w :
  event_type event <> "checkout.session.completed" ->
  event_type event <> "checkout.session.expired" ->
  purchases (snd (dispatchStripeEvent event now w)) = purchases w
  /\ users (snd (dispatchStripeEvent event now w)) = users w.
Proof.
  intros H1 H2. apply String.eqb_neq in H1, H2.
  unfold dispatchStripeEvent. by rewrite H1, H2.
Qed.

Lemma webhook_world E rawBody sig now w :
  snd (handleStripeWebhook E rawBody sig now w)
  = match constructEvent E rawBody sig (STRIPE_WEBHOOK_SECRET E) with
    | Ok event => snd (dispatchStripeEvent event now w)
    | Threw _ => w
    end.
Proof.
  unfold handleStripeWebhook. destruct (constructEvent _ _ _ _); [|done].
  unfold bind, ret. by destruct (dispatchStripeEvent a now w) as [[[]|?] ?].
Qed.

Lemma quiet_handlers_keep E op : writesPurchases op = false -> keeps (handler E op).
Proof.
  destruct op; simpl; try discriminate; intros _.
  all: unfold createNewCourse, searchCourses, getPublishedCourses, getMyCreatedCourses,
         updateCourseDetails, getCourseDetails, addLectureToCourse, getCourseLectures,
         createUserAccount, authenticateUser, signOutUser, getCurrentUserProfile,
         updateUserProfile, changeUserPassword, forgotPassword, resetPassword,
         deleteUserAccount, getPaymentStatus, getCoursePurchaseStatus,
         getPurchasedCourses, getUserCourseProgress, updateLectureProgress,
         markCourseAsCompleted, resetCourseProgress, checkHealth,
         uploadMedia, secureUrl, compareWith, deleteMediaFromCloudinary,
         nextIsNotDefined;
       solve [keeps_by_structure].
Qed.

Lemma paymentIds_update i p p' (ps : list CoursePurchase.t) :
  ps !! i = Some p -> CoursePurchase.paymentId p' = CoursePurchase.paymentId p ->
  map CoursePurchase.paymentId (<[i := p']> ps) = map CoursePurchase.paymentId ps.
Proof.
  intros Hi Hid. rewrite list_fmap_insert, Hid. apply list_insert_id.
  by rewrite list_lookup_fmap, Hi.
Qed.

(** A handler leaves the payment identifiers in their slots; the two that
    open a checkout may add the one just minted behind them. *)
Lemma handler_paymentIds E op w :
  paymentIds (snd (handler E op w)) = paymentIds w
  \/ exists id, minted E op w = Some id
                /\ paymentIds (snd (handler E op w)) = paymentIds w ++ [id].
Proof.
  destruct (writesPurchases op) eqn:Hop.
  - unfold paymentIds, minted, courseById.
    destruct op; try discriminate Hop; clear Hop; simpl.
    all: unfold createRazorpayOrder, verifyPayment, handlePaymentFailure,
           initiateStripeCheckout, handleStripeWebhook, dispatchStripeEvent;
         run; repeat case_match; simplify_eq/=.
    all: try (by left).
    all: try (right; eexists; split; [reflexivity|]; by rewrite map_app).
    all: left;
         match goal with
         | H : first_match _ (purchases ?w0) = Some (?i, ?p) |- _ =>
             apply first_match_Some in H as (H & _ & _);
             eapply paymentIds_update; [exact H|reflexivity]
         end.
  - left. unfold paymentIds. by rewrite (quiet_handlers_keep E op Hop w).
Qed.

Lemma reachable_unique w : reachable w -> NoDup (paymentIds w).
Proof.
  induction 1 as [w Hnone|E op w _ IH Hfresh].
  - unfold paymentIds. rewrite Hnone. constructor.
  - rewrite serve_world.
    destruct (handler_paymentIds E op w) as [->|(id & Hid & ->)]; [done|].
    apply NoDup_app. split; [done|]. split; [|apply NoDup_singleton].
    intros x Hx Hx'. apply list_elem_of_singleton in Hx' as ->. by apply (Hfresh id).
Qed.

Lemma unique_atMostOnePending id w : NoDup (paymentIds w) -> atMostOnePending id w.
Proof.
  intros Hnd i j p q Hi Hj Hp Hq.
  apply pendingPayment_inv in Hp as [Hp _], Hq as [Hq _].
  eapply NoDup_lookup; [exact Hnd|..]; unfold paymentIds; rewrite list_lookup_fmap.
  - by rewrite Hi; simpl; rewrite Hp.
  - by rewrite Hj; simpl; rewrite Hq.
Qed.

Lemma redelivery_when_unique E rawBody sig now now' w :
  (forall event, constructEvent E rawBody sig (STRIPE_WEBHOOK_SECRET E) = Ok event ->
                 atMostOnePending (event_object_id event) w) ->
  let once := snd (handleStripeWebhook E rawBody sig now w) in
  let twice := snd (handleStripeWebhook E rawBody sig now' once) in
  purchases twice = purchases once /\ users twice = users once.
Proof.
  intros Huniq once twice. subst once twice. rewrite !webhook_world.
  destruct (constructEvent E rawBody sig (STRIPE_WEBHOOK_SECRET E)) as [event|e]; [|done].
  specialize (Huniq event eq_refl).
  destruct (decide (event_type event = "checkout.session.completed")) as [Hc|Hc];
    [|destruct (decide (event_type event = "checkout.session.expired")) as [He|He]].
  - apply dispatch_settled, dispatch_settles; auto.
  - apply dispatch_settled, dispatch_settles; auto.
  - by apply dispatch_unhandled.
Qed.

(** C4.  In every state of the service, delivering the same Stripe event
    a second time changes neither the purchases nor the users: the
    purchase and enrollment state after two deliveries is the state after
    one.  The handler finds the purchase by its external identifier among
    the [pending] ones, the first delivery takes it out of [pending], and
    no other purchase carries that identifier, the identifiers being
    minted by the payment providers one per session and order. *)
Theorem webhook_redelivery_idempotent
    (E : Externals) (rawBody : string) (sig : option string) (now now' : Z) (w : World) :
  reachable w ->
  let once := snd (handleStripeWebhook E rawBody sig now w) in
  let twice := snd (handleStripeWebhook E rawBody sig now' once) in
  purchases twice = purchases once /\ users twice = users once.
Proof.
  intros Hw. apply redelivery_when_unique. intros event _.
  by apply unique_atMostOnePending, reachable_unique.
Qed.

Lemma webhook_redelivery_idempotent_witness :
  let w := snd (serve demoExternals (InitiateStripeCheckout "u1" "c1" "p1") openingWorld) in
  let once := snd (handleStripeWebhook demoExternals "completed:cs_1" (Some "whsec") 5 w) in
  let twice :=
    snd (handleStripeWebhook demoExternals "completed:cs_1" (Some "whsec") 6 once) in
  purchases w
  = [CoursePurchase.mk "p1" "u1" "c1" 10 pending "cs_1" None None None None]
  /\ purchases once
     = [CoursePurchase.mk "p1" "u1" "c1" 10 completed "cs_1" (Some 5%Z) None None None]
  /\ User.enrolledCourses <$> users once = [["c1"]]
  /\ purchases twice = purchases once /\ users twice = users once.
Proof.
  intros w once twice. split; [reflexivity|]. split; [reflexivity|]. split; [reflexivity|].
  apply (webhook_redelivery_idempotent demoExternals "completed:cs_1" (Some "whsec") 5 6 w).
  apply reachable_serve; [by apply reachable_start|].
  intros id _ Hin. by apply elem_of_nil in Hin.
Defined.

(** ** Database calls of the webhook *)

Lemma newCalls_app w w' cs : trace w' = trace w ++ cs -> newCalls w w' = cs.
Proof. unfold newCalls. intros ->. apply drop_app_length. Qed.

(** C6 (as amended).  For every event accepted by signature construction
    the handler switches on the event type.  The [checkout.session.expired]
    case makes exactly one call, a [findOneAndUpdate] on the purchases (one
    lookup with its conditional write).  The [checkout.session.completed]
    case makes one purchase lookup and, when a pending purchase is found,
    one purchase write followed by one user lookup and a conditional user
    write.  Any other type makes no database call. *)
Theorem webhook_database_calls
    (E : Externals) (rawBody : string) (sig : option string) (now : Z) (w : World)
    (event : StripeEvent) :
  constructEvent E rawBody sig (STRIPE_WEBHOOK_SECRET E) = Ok event ->
  newCalls w (snd (handleStripeWebhook E rawBody sig now w))
  = if String.eqb (event_type event) "checkout.session.completed"
    then completedCalls (event_object_id event) w
    else if String.eqb (event_type event) "checkout.session.expired"
    then [(MCoursePurchase, findOneAndUpdate_)]
    else [].
Proof.
  intros Hevent. rewrite webhook_world, Hevent.
  apply newCalls_app. unfold dispatchStripeEvent, completedCalls, userById.
  repeat case_match; run; repeat case_match; simplify_eq/=;
    rewrite <- ?app_assoc; simpl; try reflexivity.
  all: try by rewrite app_nil_r.
  all: match goal with
       | Ha : includes ?a ?b = _, Hb : negb (includes ?a ?b) = _ |- _ =>
           rewrite Ha in Hb; discriminate
       end.
Qed.

Lemma webhook_database_calls_witness :
  newCalls demoWorld
    (snd (handleStripeWebhook demoExternals "expired:cs_1" (Some "whsec") 5 demoWorld))
  = [(MCoursePurchase, findOneAndUpdate_)]
  /\ newCalls demoWorld
       (snd (handleStripeWebhook demoExternals "completed:cs_1" (Some "whsec") 5 demoWorld))
     = [(MCoursePurchase, findOne_); (MCoursePurchase, save_);
        (MUser, findById_); (MUser, save_)].
Proof.
  split.
  - apply (webhook_database_calls demoExternals "expired:cs_1" (Some "whsec") 5 demoWorld
             (mkEvent "checkout.session.expired" "cs_1")).
    reflexivity.
  - apply (webhook_database_calls demoExternals "completed:cs_1" (Some "whsec") 5 demoWorld
             (mkEvent "checkout.session.completed" "cs_1")).
    reflexivity.
Defined.

(** C6 as stated fails: the completed case that finds its purchase makes
    two lookups and two writes. *)
Lemma webhook_completed_two_lookups_two_writes :
  let calls :=
    newCalls demoWorld
      (snd (handleStripeWebhook demoExternals "completed:cs_1" (Some "whsec") 5 demoWorld)) in
  constructEvent demoExternals "completed:cs_1" (Some "whsec")
    (STRIPE_WEBHOOK_SECRET demoExternals)
  = Ok (mkEvent "checkout.session.completed" "cs_1")
  /\ lookups calls = 2 /\ writes calls = 2
  /\ ~ (lookups calls = 1 /\ writes calls <= 1).
Proof. vm_compute. repeat split; try reflexivity. intros [H _]. discriminate. Qed.

(** ** Course details *)

(** C7.  For a [courseId] that no course of the database carries,
    [getCourseDetails] hands [next] the application error with status 404
    and message "Course not found"; the shared wrapper answers 404 with
    [{status: "error", message: "Course not found"}], which holds no course
    data; no collection is written. *)
Theorem getCourseDetails_not_found (E : Externals) (courseId : ObjectId) (w : World) :
  (forall c, c ∈ courses w -> Course._id c <> courseId) ->
  fst (getCourseDetails courseId w) = Ok (Next (mkAppError "Course not found" 404))
  /\ fst (serve E (GetCourseDetails courseId) w)
     = Sent (mkResponse 404 []
               (BJson (JObj [("status", JStr "error");
                             ("message", JStr "Course not found")])))
  /\ js_has "data" (JObj [("status", JStr "error"); ("message", JStr "Course not found")])
     = false
  /\ courses (snd (serve E (GetCourseDetails courseId) w)) = courses w.
Proof.
  intros Hnone.
  assert (Hfind : first_match (fun d => String.eqb (Course._id d) courseId) (courses w) = None).
  { apply first_match_None. intros c Hc. apply String.eqb_neq. by apply Hnone. }
  unfold serve, catchAsync. simpl. unfold getCourseDetails. run. rewrite Hfind. simpl.
  repeat split; reflexivity.
Qed.

Lemma getCourseDetails_not_found_witness :
  fst (getCourseDetails "c404" demoWorld) = Ok (Next (mkAppError "Course not found" 404))
  /\ fst (serve demoExternals (GetCourseDetails "c404") demoWorld)
     = Sent (mkResponse 404 []
               (BJson (JObj [("status", JStr "error");
                             ("message", JStr "Course not found")])))
  /\ js_has "data" (JObj [("status", JStr "error"); ("message", JStr "Course not found")])
     = false
  /\ courses (snd (serve demoExternals (GetCourseDetails "c404") demoWorld))
     = courses demoWorld.
Proof.
  apply (getCourseDetails_not_found demoExternals "c404" demoWorld).
  intros c Hc. apply list_elem_of_In in Hc. simpl in Hc.
  destruct Hc as [<-|[]]. discriminate.
Defined.

(** ** Lecture content and purchase status *)

Lemma lecturePreview_videoUrl l :
  js_has "videoUrl" (lecturePreview l) = true <-> Lecture.isPreview l = Some true.
Proof.
  unfold lecturePreview. destruct (Lecture.isPreview l) as [[|]|]; simpl; split; congruence.
Qed.

Lemma lecturePreview_hideVideo l : lecturePreview (hideVideo l) = lecturePreview l.
Proof.
  unfold hideVideo.
  destruct (Lecture.isPreview l) as [[|]|] eqn:Hp; simpl; [done| |];
    unfold lecturePreview; simpl; by rewrite Hp.
Qed.

Lemma lectureById_hideVideos w id :
  lectureById (hideVideos w) id = hideVideo <$> lectureById w id.
Proof.
  unfold lectureById, first_match. simpl.
  rewrite list_find_fmap.
  rewrite (list_find_ext _ (fun x => String.eqb (Lecture._id x) id = true)).
  - by destruct (list_find _ (lectures w)) as [[i l]|].
  - intros x. simpl. unfold hideVideo. by destruct (default false (Lecture.isPreview x)).
Qed.

Lemma populatedLectures_hideVideos course w :
  populatedLectures course (hideVideos w) = map hideVideo (populatedLectures course w).
Proof.
  unfold populatedLectures. induction (Course.lectures course) as [|id ids IH]; [done|].
  csimpl. rewrite lectureById_hideVideos. destruct (lectureById w id); csimpl; by rewrite IH.
Qed.

(** The [lectures] written last in the object literal replaces the
    populated lectures that the spread of the course put there. *)
Lemma courseData_lectures course instr lects b ls :
  obj_spread (populatedCourse course instr lects) [("isPurchased", b); ("lectures", ls)]
  = obj_spread (Course.toObjectWith (instructorObject instr) JNull course)
      [("isPurchased", b); ("lectures", ls)].
Proof.
  unfold populatedCourse, Course.toObjectWith, opt_field.
  by destruct (Course.thumbnail course), (Course.category course), (Course.level course).
Qed.

Lemma courseData_get_lectures course instr b ls :
  fields_get "lectures"
    (obj_spread (Course.toObjectWith instr JNull course) [("isPurchased", b); ("lectures", ls)])
  = ls.
Proof.
  unfold Course.toObjectWith, opt_field.
  by destruct (Course.thumbnail course), (Course.category course), (Course.level course).
Qed.

Lemma getCoursePurchaseStatus_reply userId courseId w slot course :
  courseById courseId w = Some (slot, course) ->
  fst (getCoursePurchaseStatus userId courseId w)
  = let lects := populatedLectures course w in
    let instr :=
      snd <$> first_match (fun d => String.eqb (User._id d) (Course.instructor course))
                (users w) in
    let purchase := first_match (completedPurchaseOf userId courseId) (purchases w) in
    Ok (json 200
          (success
             [("data",
                JObj [("course",
                        JObj (obj_spread
                                (Course.toObjectWith (instructorObject instr) JNull course)
                                [("isPurchased", JBool (bool_decide (is_Some purchase)));
                                 ("lectures",
                                   if bool_decide (is_Some purchase)
                                   then JArr (map Lecture.toObject lects)
                                   else JArr (map lecturePreview lects))]));
                      ("purchaseInfo",
                        match purchase with
                        | Some (_, p) => CoursePurchase.toObject p
                        | None => JNull
                        end)])])).
Proof.
  unfold courseById. intros Hc.
  unfold getCoursePurchaseStatus, findById, findOne, populateOne, populateMany, bind, ret, log.
  cbn -[obj_spread populatedCourse first_match]. rewrite Hc.
  cbn -[obj_spread populatedCourse first_match]. by rewrite courseData_lectures.
Qed.

(** C8.  In the reply of [getCoursePurchaseStatus] for an existing course:
    a user without a completed purchase of it gets, for each populated
    lecture, the preview object, which has a [videoUrl] field if and only
    if the lecture's [isPreview] flag is true; a user with a completed
    purchase gets the full lecture objects.  The reply to a user without a
    completed purchase is the same when the video references of all
    lectures that are not previews are erased from the database: they do
    not flow into it. *)
Theorem purchase_status_hides_unpurchased_videos
    (userId courseId : ObjectId) (w : World) (slot : nat) (course : Course.t) :
  courseById courseId w = Some (slot, course) ->
  let lects := populatedLectures course w in
  let reply := fst (getCoursePurchaseStatus userId courseId w) in
  (first_match (completedPurchaseOf userId courseId) (purchases w) = None ->
     responseLectures reply = Some (map lecturePreview lects)
     /\ Forall (fun l => js_has "videoUrl" (lecturePreview l) = true
                         <-> Lecture.isPreview l = Some true) lects
     /\ reply = fst (getCoursePurchaseStatus userId courseId (hideVideos w)))
  /\ (forall p, first_match (completedPurchaseOf userId courseId) (purchases w) = Some p ->
        responseLectures reply = Some (map Lecture.toObject lects)).
Proof.
  intros Hc lects reply. subst lects reply.
  rewrite (getCoursePurchaseStatus_reply userId courseId w slot course Hc).
  split.
  - intros Hnone. split; [|split].
    + rewrite Hnone. unfold responseLectures, json, success.
      cbn -[obj_spread Course.toObjectWith]. by rewrite courseData_get_lectures.
    + apply Forall_forall. intros l _. apply lecturePreview_videoUrl.
    + rewrite (getCoursePurchaseStatus_reply userId courseId (hideVideos w) slot course Hc).
      cbn -[obj_spread Course.toObjectWith populatedLectures first_match]. rewrite Hnone.
      cbn -[obj_spread Course.toObjectWith populatedLectures].
      rewrite populatedLectures_hideVideos, map_map.
      rewrite (map_ext (fun l => lecturePreview (hideVideo l)) lecturePreview); [done|].
      intros l. apply lecturePreview_hideVideo.
  - intros p Hp. rewrite Hp. unfold responseLectures, json, success.
    cbn -[obj_spread Course.toObjectWith]. by rewrite courseData_get_lectures.
Qed.

Lemma purchase_status_hides_unpurchased_videos_witness :
  let reply := fst (getCoursePurchaseStatus "u7" "c1" demoWorld) in
  responseLectures reply = Some [lecturePreview introLecture; lecturePreview paidLecture]
  /\ Forall (fun l => js_has "videoUrl" (lecturePreview l) = true
                      <-> Lecture.isPreview l = Some true) [introLecture; paidLecture]
  /\ reply = fst (getCoursePurchaseStatus "u7" "c1" (hideVideos demoWorld)).
Proof.
  apply (proj1 (purchase_status_hides_unpurchased_videos "u7" "c1" demoWorld 0 rocqCourse
                  eq_refl)).
  reflexivity.
Defined.

Example preview_lecture_shows_video :
  js_get "videoUrl" (lecturePreview introLecture) = JStr "https://video/intro"
  /\ js_has "videoUrl" (lecturePreview paidLecture) = false.
Proof. split; reflexivity. Qed.

(** ** Credentials in replies *)

Lemma toObject_without_password u :
  User.password u = None ->
  js_has "password" (User.toObject u) = false
  /\ js_get "password" (User.toObject u) = JUndefined.
Proof.
  unfold User.toObject, User.fields. intros ->. by destruct (User.photoUrl u).
Qed.

(** What the two handlers would send: where [createUserAccount] or
    [authenticateUser] builds a response, the user object in its body is
    the document with its password set to [undefined]. *)
Lemma built_responses_hide_password (E : Externals) :
  (forall name email password salt fresh w r,
     fst (createUserAccount E name email password salt fresh w) = Ok (Respond r) ->
     code r = 201 /\ userWithoutPassword r)
  /\ (forall email password w r,
        fst (authenticateUser E email password w) = Ok (Respond r) ->
        code r = 200 /\ userWithoutPassword r).
Proof.
  split.
  - intros name email password salt fresh w r. unfold createUserAccount. run.
    repeat case_match; simplify_eq/=; intros Hr; simplify_eq/=.
    split; [done|]. eexists. split; [reflexivity|]. split; [done|].
    by apply toObject_without_password.
  - intros email password w r. unfold authenticateUser, compareWith. run.
    repeat case_match; simplify_eq/=; intros Hr; simplify_eq/=.
    split; [done|]. eexists. split; [reflexivity|]. split; [done|].
    by apply toObject_without_password.
Qed.



(** The hash stays in the database: signup stores it and signin leaves it
    there. *)
Example signup_stores_hash :
  User.password <$>
    users (snd (createUserAccount demoExternals "Bob" "bob@lms" "hunter2" "salt" "u2"
                  demoWorld)) !! 1
  = Some (Some "bcrypt(salt,hunter2)").
Proof. reflexivity. Qed.

(** ** Updating a course *)

Lemma updatedBy_refl title description price c : updatedBy title description price c c.
Proof. by repeat split. Qed.

Lemma or_str_falsy o s : falsyStr o -> or_str o s = s.
Proof. by intros [->| ->]. Qed.

Lemma or_num_falsy o n : falsyNum o -> or_num o n = n.
Proof. by intros [->| ->]. Qed.

Lemma Forall2_update {A} (R : A -> A -> Prop) (l : list A) i x y :
  (forall z, R z z) -> l !! i = Some x -> R x y -> Forall2 R l (<[i := y]> l).
Proof.
  intros Hrefl Hi Hxy. apply Forall2_same_length_lookup_2; [by rewrite length_insert|].
  intros j a b Ha Hb. apply list_lookup_insert_Some in Hb as [(-> & -> & _)|[_ Hb]].
  - rewrite Hi in Ha. by injection Ha as <-.
  - rewrite Ha in Hb. injection Hb as ->. apply Hrefl.
Qed.

Lemma Forall2_same {A} (R : A -> A -> Prop) (l : list A) :
  (forall z, R z z) -> Forall2 R l l.
Proof. intros H. induction l; constructor; auto. Qed.

(** C10.  [updateCourseDetails] keeps the stored value of every field for
    which the request supplies a falsy value: a title or description that
    is absent or empty, a price that is absent or 0, leave the field as it
    was (so a price of 0 cannot be set).  The fields [instructor],
    [lectures] and [isPublished] of every course are left as they were,
    and every course stays in its slot. *)
Theorem updateCourseDetails_frame
    (E : Externals) (courseId : ObjectId) (title description : option string)
    (price : option Z) (thumbnail : option string) (w : World) :
  Forall2 (updatedBy title description price)
    (courses w)
    (courses (snd (updateCourseDetails E courseId title description price thumbnail w))).
Proof.
  pose proof (updatedBy_refl title description price) as Hrefl.
  unfold updateCourseDetails, uploadMedia, secureUrl. run.
  destruct (first_match _ (courses w)) as [[slot c]|] eqn:Hfind; simpl;
    [|by apply Forall2_same].
  apply first_match_Some in Hfind as (Hslot & _ & _).
  repeat case_match; simplify_eq/=; try by apply Forall2_same.
  all: eapply Forall2_update; [done|exact Hslot|].
  all: repeat split; simpl; auto using or_str_falsy, or_num_falsy.
Qed.

(** A price of 0 and an empty title are not written; a truthy price is. *)
Example updateCourseDetails_zero_price :
  Course.price <$>
    courses (snd (updateCourseDetails demoExternals "c1" (Some "") None (Some 0%Z) None
                    demoWorld)) !! 0 = Some 10%Z
  /\ Course.title <$>
       courses (snd (updateCourseDetails demoExternals "c1" (Some "") None (Some 0%Z) None
                       demoWorld)) !! 0 = Some "Rocq"
  /\ Course.price <$>
       courses (snd (updateCourseDetails demoExternals "c1" None None (Some 25%Z) None
                       demoWorld)) !! 0 = Some 25%Z.
Proof. repeat split; reflexivity. Qed.

(** ** The response envelope *)

(** The reply is made by the last step, whatever came before it. *)
Lemma enveloped_bind {A} (m : M A) (k : A -> M Reply) :
  (forall a, alwaysEnveloped (k a)) -> alwaysEnveloped (bind m k).
Proof.
  intros Hk w. unfold bind. destruct (m w) as [[a|e] w']; [apply Hk|exact I].
Qed.

Lemma enveloped_next e : alwaysEnveloped (ret (Next e)).
Proof. intros w. exact I. Qed.

Lemma enveloped_throw e : alwaysEnveloped (throw e).
Proof. intros w. exact I. Qed.

Lemma enveloped_respond c cs v :
  envelope v = true -> alwaysEnveloped (ret (Respond (mkResponse c cs (BJson v)))).
Proof. intros Hv w. by exists v. Qed.

Ltac enveloped_by_structure :=
  repeat first
    [ apply enveloped_next
    | apply enveloped_throw
    | apply enveloped_respond; reflexivity
    | apply enveloped_bind; intros ?
    | match goal with
      | |- alwaysEnveloped (match ?x with _ => _ end) => destruct x
      end
    | progress cbv zeta ].

Lemma handler_enveloped E op :
  isStripeWebhook op = false -> alwaysEnveloped (handler E op).
Proof.
  intros Hop. destruct op; try discriminate Hop; clear Hop; simpl.
  all: unfold createNewCourse, searchCourses, getPublishedCourses, getMyCreatedCourses,
         updateCourseDetails, getCourseDetails, addLectureToCourse, getCourseLectures,
         createUserAccount, authenticateUser, signOutUser, getCurrentUserProfile,
         updateUserProfile, changeUserPassword, forgotPassword, resetPassword,
         deleteUserAccount, createRazorpayOrder, verifyPayment, handlePaymentFailure,
         getPaymentStatus, initiateStripeCheckout, getCoursePurchaseStatus,
         getPurchasedCourses, getUserCourseProgress, updateLectureProgress,
         markCourseAsCompleted, resetCourseProgress, checkHealth,
         notFound, nextIsNotDefined, progressReply, json, success.
  all: enveloped_by_structure.
Qed.

(** C5 (as amended).  Every response that an operation other than the
    Stripe webhook sends, whether the handler's own [res.json] or the
    wrapper's serialization of an application error, has a JSON body with a
    [status] field together with a [data] field or a [message] field. *)
Theorem responses_are_enveloped
    (E : Externals) (op : Operation) (w : World) (r : Response) :
  isStripeWebhook op = false ->
  fst (serve E op w) = Sent r ->
  exists v, body r = BJson v /\ envelope v = true.
Proof.
  intros Hop. pose proof (handler_enveloped E op Hop w) as H.
  unfold serve, catchAsync. destruct (handler E op w) as [[[r'|e]|e] w']; simpl in *.
  - intros [= <-]. exact H.
  - intros [= <-]. eexists. split; reflexivity.
  - discriminate.
Qed.

Lemma responses_are_enveloped_witness :
  exists r v,
    fst (serve demoExternals (GetCoursePurchaseStatus "u1" "c1") demoWorld) = Sent r
    /\ body r = BJson v /\ envelope v = true.
Proof.
  eexists.
  destruct (responses_are_enveloped demoExternals (GetCoursePurchaseStatus "u1" "c1")
              demoWorld _ eq_refl eq_refl) as (v & Hv & Henv).
  exists v. split; [reflexivity|]. split; assumption.
Defined.

(** C5 as stated fails: the webhook acknowledges with [{received: true}],
    and answers a rejected signature with plain text. *)
Lemma webhook_reply_not_enveloped :
  fst (serve demoExternals (HandleStripeWebhook "completed:cs_1" (Some "whsec") 5) demoWorld)
  = Sent (mkResponse 200 [] (BJson (JObj [("received", JBool true)])))
  /\ envelope (JObj [("received", JBool true)]) = false
  /\ fst (serve demoExternals (HandleStripeWebhook "completed:cs_1" (Some "forged") 5)
            demoWorld)
     = Sent (mkResponse 400 []
               (BText "Webhook Error: No signatures found matching the expected signature")).
Proof. repeat split; reflexivity. Qed.

(** The token helper answers with [{success, message, user}]: no [status]
    field.  No route handler of the service sends this response. *)
Example token_helper_body :
  Utils.generateToken demoExternals ann "Welcome back"
  = Respond (mkResponse 200 [("token", Some "jwt.u1")]
               (BJson (JObj [("success", JBool true);
                             ("message", JStr "Welcome back");
                             ("user", User.toObject ann)])))
  /\ envelope (JObj [("success", JBool true);
                     ("message", JStr "Welcome back");
                     ("user", User.toObject ann)]) = false.
Proof. split; reflexivity. Qed.

(** * Further properties *)

(** * Further properties of the handlers *)

(** ** Handlers that only read *)

Lemma sameData_refl w : sameData w w.
Proof. by repeat split. Qed.

Lemma sameData_trans w1 w2 w3 : sameData w1 w2 -> sameData w2 w3 -> sameData w1 w3.
Proof.
  intros (?&?&?&?&?) (?&?&?&?&?). repeat split; congruence.
Qed.

Lemma readOnly_ret {A} (a : A) : readOnly (ret a).
Proof. intros w. apply sameData_refl. Qed.

Lemma readOnly_throw {A} e : readOnly (@throw A e).
Proof. intros w. apply sameData_refl. Qed.

Lemma readOnly_lift {A} (r : Result A) : readOnly (lift r).
Proof. intros w. apply sameData_refl. Qed.

Lemma readOnly_bind {A B} (m : M A) (k : A -> M B) :
  readOnly m -> (forall a, readOnly (k a)) -> readOnly (bind m k).
Proof.
  intros Hm Hk w. unfold bind. specialize (Hm w).
  destruct (m w) as [[a|e] w']; simpl in *; [|done].
  eapply sameData_trans; [exact Hm|apply Hk].
Qed.

Lemma readOnly_mapM {A B} (f : A -> M B) (l : list A) :
  (forall a, readOnly (f a)) -> readOnly (mapM f l).
Proof.
  intros Hf. induction l as [|a l IH]; simpl; [apply readOnly_ret|].
  apply readOnly_bind; [apply Hf|]. intros b.
  apply readOnly_bind; [apply IH|]. intros bs. apply readOnly_ret.
Qed.

Lemma readOnly_log c : readOnly (log c).
Proof. intros w. by repeat split. Qed.

Lemma readOnly_findOne {A} (m : Model A) q : readOnly (findOne m q).
Proof. apply readOnly_bind; [apply readOnly_log|]. intros _ w. apply sameData_refl. Qed.

Lemma readOnly_findById {A} (m : Model A) idof id : readOnly (findById m idof id).
Proof. apply readOnly_bind; [apply readOnly_log|]. intros _ w. apply sameData_refl. Qed.

Lemma readOnly_find {A} (m : Model A) q : readOnly (find m q).
Proof. apply readOnly_bind; [apply readOnly_log|]. intros _ w. apply sameData_refl. Qed.

Lemma readOnly_populateOne {A} (m : Model A) idof id : readOnly (populateOne m idof id).
Proof. apply readOnly_bind; [apply readOnly_log|]. intros _ w. apply sameData_refl. Qed.

Lemma readOnly_populateMany {A} (m : Model A) idof ids : readOnly (populateMany m idof ids).
Proof. apply readOnly_bind; [apply readOnly_log|]. intros _ w. apply sameData_refl. Qed.

Create HintDb readOnly.

#[local] Hint Resolve readOnly_ret readOnly_throw readOnly_lift readOnly_mapM
  readOnly_findOne readOnly_findById readOnly_find readOnly_populateOne
  readOnly_populateMany : readOnly.

Ltac readOnly_by_structure :=
  first
    [ solve [auto with readOnly]
    | apply readOnly_bind; [readOnly_by_structure|intros ?; readOnly_by_structure]
    | match goal with
      | |- readOnly (match ?x with _ => _ end) => destruct x; readOnly_by_structure
      end
    | progress cbv zeta; readOnly_by_structure ].

Lemma readOnly_withInstructor c : readOnly (withInstructor c).
Proof. unfold withInstructor. readOnly_by_structure. Qed.

Lemma readOnly_withInstructorAndLectures c : readOnly (withInstructorAndLectures c).
Proof. unfold withInstructorAndLectures. readOnly_by_structure. Qed.

Lemma readOnly_enrolledCourseObject c : readOnly (enrolledCourseObject c).
Proof. unfold enrolledCourseObject. readOnly_by_structure. Qed.

Lemma readOnly_populatePurchaseCourse p : readOnly (populatePurchaseCourse p).
Proof. unfold populatePurchaseCourse. readOnly_by_structure. Qed.

Lemma readOnly_purchasedCourse pc : readOnly (purchasedCourse pc).
Proof. unfold purchasedCourse. readOnly_by_structure. Qed.

#[local] Hint Resolve readOnly_withInstructor readOnly_withInstructorAndLectures
  readOnly_enrolledCourseObject readOnly_populatePurchaseCourse
  readOnly_purchasedCourse : readOnly.

Lemma query_handlers_readOnly E op : isQuery op = true -> readOnly (handler E op).
Proof.
  intros Hop. destruct op; try discriminate Hop; clear Hop; simpl.
  all: unfold searchCourses, getPublishedCourses, getMyCreatedCourses, getCourseDetails,
         getCourseLectures, authenticateUser, signOutUser, getCurrentUserProfile,
         getPaymentStatus, getCoursePurchaseStatus, getPurchasedCourses,
         getUserCourseProgress, checkHealth, compareWith, notFound, nextIsNotDefined.
  all: readOnly_by_structure.
Qed.

(** X1.  The handlers of the [GET] routes, of signin, of signout and of the
    health check write nothing: whatever the request and whatever they
    answer (a response, an application error or an exception), the users,
    courses, lectures, purchases and progress records are, after the
    request, what they were before it. *)
Theorem queries_write_nothing (E : Externals) (op : Operation) (w : World) :
  isQuery op = true -> sameData w (snd (serve E op w)).
Proof.
  intros Hop. rewrite serve_world. by apply query_handlers_readOnly.
Qed.

Lemma queries_write_nothing_witness :
  sameData demoWorld (snd (serve demoExternals (GetPurchasedCourses "u1") demoWorld))
  /\ sameData demoWorld
       (snd (serve demoExternals (AuthenticateUser (Some "ann@lms") (Some "secret"))
               demoWorld)).
Proof.
  split.
  - apply (queries_write_nothing demoExternals (GetPurchasedCourses "u1") demoWorld).
    reflexivity.
  - apply (queries_write_nothing demoExternals
             (AuthenticateUser (Some "ann@lms") (Some "secret")) demoWorld).
    reflexivity.
Defined.

(** ** The Stripe webhook: acknowledgement *)

Lemma dispatchStripeEvent_returns event now w :
  fst (dispatchStripeEvent event now w) = Ok tt.
Proof.
  unfold dispatchStripeEvent. repeat case_match; run; repeat case_match; simplify_eq/=; done.
Qed.

(** X2.  A webhook request whose signature Stripe's library rejects is
    answered 400 with the text "Webhook Error: " followed by the library's
    message, without a single database call and without any write.  An
    accepted event is always acknowledged with 200 [{received: true}],
    whether or not a purchase or a buyer was found, and an event whose type
    is neither [checkout.session.completed] nor [checkout.session.expired]
    leaves the world as it was. *)
Theorem webhook_acknowledgement
    (E : Externals) (rawBody : string) (sig : option string) (now : Z) (w : World) :
  match constructEvent E rawBody sig (STRIPE_WEBHOOK_SECRET E) with
  | Threw err =>
      handleStripeWebhook E rawBody sig now w
      = (Ok (Respond (mkResponse 400 [] (BText ("Webhook Error: " ++ err_message err)))), w)
  | Ok event =>
      fst (handleStripeWebhook E rawBody sig now w)
      = Ok (json 200 (JObj [("received", JBool true)]))
      /\ (event_type event <> "checkout.session.completed" ->
          event_type event <> "checkout.session.expired" ->
          snd (handleStripeWebhook E rawBody sig now w) = w)
  end.
Proof.
  unfold handleStripeWebhook.
  destruct (constructEvent E rawBody sig (STRIPE_WEBHOOK_SECRET E)) as [event|err]; [|done].
  pose proof (dispatchStripeEvent_returns event now w) as Hret.
  unfold bind, ret. destruct (dispatchStripeEvent event now w) as [[[]|e] w'] eqn:Hd;
    simpl in Hret; [|discriminate].
  split; [done|]. intros H1 H2. apply String.eqb_neq in H1, H2.
  unfold dispatchStripeEvent in Hd. rewrite H1, H2 in Hd. by injection Hd as <-.
Qed.

Lemma webhook_acknowledgement_witness :
  handleStripeWebhook demoExternals "completed:cs_1" (Some "forged") 5 demoWorld
  = (Ok (Respond (mkResponse 400 []
           (BText "Webhook Error: No signatures found matching the expected signature"))),
     demoWorld)
  /\ snd (handleStripeWebhook demoExternals "payment_intent.created" (Some "whsec") 5 orphanWorld)
     = orphanWorld.
Proof.
  split.
  - exact (webhook_acknowledgement demoExternals "completed:cs_1" (Some "forged") 5 demoWorld).
  - pose proof (webhook_acknowledgement demoExternals "payment_intent.created" (Some "whsec") 5
                  orphanWorld) as H.
    simpl in H. destruct H as [_ H]. apply H; discriminate.
Defined.

(** ** Opening a checkout *)

(** X3.  [initiateStripeCheckout] creates a purchase record only when it
    answers 200: then the course exists, the user has no completed purchase
    of it, Stripe opened a session, and exactly one record is appended,
    [pending], for this user and course, with the course's price as amount
    and the session's identifier as external payment identifier, which is
    the [sessionId] of the response.  In every other outcome (404 for a
    missing course, 400 for a course already purchased, a failing Stripe
    call) no purchase is created.  Users and courses are never written. *)
Theorem initiateStripeCheckout_outcomes
    (E : Externals) (userId courseId fresh : ObjectId) (w : World) :
  let r := initiateStripeCheckout E userId courseId fresh w in
  users (snd r) = users w /\ courses (snd r) = courses w
  /\ match fst r with
     | Ok (Respond resp) =>
         exists slot course session,
           courseById courseId w = Some (slot, course)
           /\ first_match (completedPurchaseOf userId courseId) (purchases w) = None
           /\ stripe_sessions_create E course courseId userId = Ok session
           /\ purchases (snd r)
              = purchases w ++ [openedPurchase fresh userId courseId course (session_id session)]
           /\ code resp = 200
           /\ body resp
              = BJson (success [("data", JObj [("sessionId", JStr (session_id session));
                                               ("sessionUrl", JStr (session_url session))])])
     | Ok (Next e) =>
         purchases (snd r) = purchases w
         /\ ((courseById courseId w = None /\ e = mkAppError "Course not found" 404)
             \/ (is_Some (first_match (completedPurchaseOf userId courseId) (purchases w))
                 /\ e = mkAppError "Course already purchased" 400))
     | Threw _ => purchases (snd r) = purchases w
     end.
Proof.
  intros r. subst r. unfold initiateStripeCheckout, courseById, openedPurchase. run.
  destruct (first_match _ (courses w)) as [[slot course]|] eqn:Hc; simpl; [|by auto 10].
  destruct (first_match _ (purchases w)) as [[i p]|] eqn:Hp; simpl.
  { repeat split; auto; try (right; split; [by eexists|done]). }
  destruct (stripe_sessions_create E course courseId userId) as [session|e] eqn:Hs; simpl;
    [|done].
  repeat split; auto. by exists slot, course, session.
Qed.

Example initiateStripeCheckout_examples :
  purchases (snd (initiateStripeCheckout demoExternals "u3" "c1" "p9" demoWorld))
  = purchases demoWorld ++ [CoursePurchase.mk "p9" "u3" "c1" 10 pending "cs_1" None None None None]
  /\ fst (initiateStripeCheckout demoExternals "u3" "c404" "p9" demoWorld)
     = Ok (Next (mkAppError "Course not found" 404)).
Proof. split; reflexivity. Qed.

(** ** Opening a Razorpay order *)

(** X4.  [createRazorpayOrder] creates a purchase record only when it
    answers 200: then exactly one record is appended, [pending], for this
    user and course, with the course's price as amount and the order's
    identifier as external payment identifier, which is the [orderId] of
    the response.  A missing course (404), a course already purchased (400)
    and a failing Razorpay call (500, "Failed to create Razorpay order")
    create nothing. *)
Theorem createRazorpayOrder_outcomes
    (E : Externals) (userId courseId fresh : ObjectId) (now : Z) (w : World) :
  let r := createRazorpayOrder E userId courseId fresh now w in
  users (snd r) = users w /\ courses (snd r) = courses w
  /\ match fst r with
     | Ok (Respond resp) =>
         exists slot course order,
           courseById courseId w = Some (slot, course)
           /\ first_match (completedPurchaseOf userId courseId) (purchases w) = None
           /\ razorpay_orders_create E course courseId userId now = Ok order
           /\ purchases (snd r)
              = purchases w ++ [openedPurchase fresh userId courseId course (order_id order)]
           /\ code resp = 200
           /\ (match body resp with
               | BJson v => js_get "orderId" (js_get "data" v)
               | BText _ => JUndefined
               end) = JStr (order_id order)
     | Ok (Next e) =>
         purchases (snd r) = purchases w
         /\ ((courseById courseId w = None /\ e = mkAppError "Course not found" 404)
             \/ (is_Some (first_match (completedPurchaseOf userId courseId) (purchases w))
                 /\ e = mkAppError "Course already purchased" 400)
             \/ (exists slot course err,
                   courseById courseId w = Some (slot, course)
                   /\ razorpay_orders_create E course courseId userId now = Threw err
                   /\ e = mkAppError "Failed to create Razorpay order" 500))
     | Threw _ => purchases (snd r) = purchases w
     end.
Proof.
  intros r. subst r. unfold createRazorpayOrder, courseById, openedPurchase. run.
  destruct (first_match _ (courses w)) as [[slot course]|] eqn:Hc; simpl; [|by auto 10].
  destruct (first_match _ (purchases w)) as [[i p]|] eqn:Hp; simpl.
  { repeat split; auto; try (right; left; split; [by eexists|done]). }
  destruct (razorpay_orders_create E course courseId userId now) as [order|e] eqn:Hs; simpl.
  - repeat split; auto. by exists slot, course, order.
  - repeat split; auto. right. right. by exists slot, course, e.
Qed.

Example createRazorpayOrder_example :
  purchases (snd (createRazorpayOrder demoExternals "u3" "c1" "p9" 3 demoWorld))
  = purchases demoWorld
    ++ [CoursePurchase.mk "p9" "u3" "c1" 10 pending "order_1" None None None None].
Proof. reflexivity. Qed.

(** ** From checkout to enrollment *)

Lemma first_match_app_new {A} (q : A -> bool) (l : list A) x :
  first_match q l = None -> q x = true -> first_match q (l ++ [x]) = Some (length l, x).
Proof.
  unfold first_match. intros Hnone Hx. rewrite (list_find_app_r _ _ _ Hnone). simpl.
  destruct (decide (q x = true)); [done|contradiction].
Qed.

Lemma insert_last {A} (l : list A) x y : <[length l := y]> (l ++ [x]) = l ++ [y].
Proof. rewrite insert_app_r_alt by lia. by rewrite Nat.sub_diag. Qed.

Lemma initiateStripeCheckout_opens E userId courseId fresh w slot course session :
  courseById courseId w = Some (slot, course) ->
  first_match (completedPurchaseOf userId courseId) (purchases w) = None ->
  stripe_sessions_create E course courseId userId = Ok session ->
  let w1 := snd (initiateStripeCheckout E userId courseId fresh w) in
  purchases w1 = purchases w ++ [openedPurchase fresh userId courseId course (session_id session)]
  /\ users w1 = users w /\ courses w1 = courses w /\ lectures w1 = lectures w.
Proof.
  unfold courseById. intros Hc Hp Hs. unfold initiateStripeCheckout. run.
  rewrite Hc. simpl. rewrite Hp. simpl. rewrite Hs. simpl. done.
Qed.

Lemma initiateStripeCheckout_already E userId courseId fresh w :
  is_Some (courseById courseId w) ->
  is_Some (first_match (completedPurchaseOf userId courseId) (purchases w)) ->
  fst (initiateStripeCheckout E userId courseId fresh w)
  = Ok (Next (mkAppError "Course already purchased" 400)).
Proof.
  unfold courseById. intros [[slot c] Hc] [[i p] Hp]. unfold initiateStripeCheckout. run.
  rewrite Hc. simpl. by rewrite Hp.
Qed.

(** What the [checkout.session.completed] case does when it finds its
    purchase. *)
Lemma dispatch_completes now w id i p :
  first_match (pendingPayment id) (purchases w) = Some (i, p) ->
  let w' := snd (dispatchStripeEvent (mkEvent "checkout.session.completed" id) now w) in
  purchases w'
  = <[i := CoursePurchase.with_purchaseDate now (CoursePurchase.with_status completed p)]>
      (purchases w)
  /\ courses w' = courses w /\ lectures w' = lectures w
  /\ match userById (CoursePurchase.userId p) w with
     | Some (uslot, u) =>
         exists u', users w' !! uslot = Some u'
                    /\ User._id u' = User._id u
                    /\ User.enrolledCourses u' = enrolledAfter u (CoursePurchase.courseId p)
                    /\ forall j, j <> uslot -> users w' !! j = users w !! j
     | None => users w' = users w
     end.
Proof.
  intros Hp. unfold dispatchStripeEvent, userById, enrolledAfter. simpl. run.
  rewrite Hp. simpl.
  destruct (first_match _ (users w)) as [[uslot u]|] eqn:Hu; simpl; [|done].
  apply first_match_Some in Hu as (Hl & _ & _).
  destruct (includes (User.enrolledCourses u) (CoursePurchase.courseId p)) eqn:Hin; simpl.
  - repeat split; auto. by exists u.
  - repeat split; auto. eexists. split; [apply list_lookup_insert_eq; by eapply lookup_lt_Some|].
    repeat split; auto. intros j Hj. by apply list_lookup_insert_ne.
Qed.

(** X5.  A checkout that Stripe then reports as completed enrolls the
    buyer and closes the course to a second purchase.  When the course
    exists, the user exists and has no completed purchase of it, Stripe
    opens a session whose identifier no pending purchase carries yet, and
    the webhook then receives the [checkout.session.completed] event of
    that session: the purchases are the former ones followed by the new
    record, now [completed] and dated; the buyer's enrolled courses include
    the course (pushed exactly when it was not there); and a further
    [initiateStripeCheckout] by the same user for the same course is
    refused with 400 "Course already purchased". *)
Theorem checkout_completion_enrolls_and_closes
    (E : Externals) (userId courseId fresh fresh' : ObjectId)
    (rawBody : string) (sig : option string) (now : Z) (w : World)
    (slot : nat) (course : Course.t) (session : Session) (uslot : nat) (user : User.t) :
  courseById courseId w = Some (slot, course) ->
  first_match (completedPurchaseOf userId courseId) (purchases w) = None ->
  stripe_sessions_create E course courseId userId = Ok session ->
  settled (session_id session) w ->
  userById userId w = Some (uslot, user) ->
  constructEvent E rawBody sig (STRIPE_WEBHOOK_SECRET E)
  = Ok (mkEvent "checkout.session.completed" (session_id session)) ->
  let w1 := snd (initiateStripeCheckout E userId courseId fresh w) in
  let w2 := snd (handleStripeWebhook E rawBody sig now w1) in
  purchases w2
  = purchases w
    ++ [CoursePurchase.with_purchaseDate now
          (CoursePurchase.with_status completed
             (openedPurchase fresh userId courseId course (session_id session)))]
  /\ (exists user', users w2 !! uslot = Some user'
                    /\ User._id user' = User._id user
                    /\ User.enrolledCourses user' = enrolledAfter user courseId
                    /\ includes (User.enrolledCourses user') courseId = true)
  /\ fst (initiateStripeCheckout E userId courseId fresh' w2)
     = Ok (Next (mkAppError "Course already purchased" 400)).
Proof.
  intros Hc Hnone Hs Hsettled Hu Hev w1 w2.
  destruct (initiateStripeCheckout_opens E userId courseId fresh w slot course session
              Hc Hnone Hs) as (Hp1 & Hu1 & Hc1 & _).
  fold w1 in Hp1, Hu1, Hc1.
  set (p0 := openedPurchase fresh userId courseId course (session_id session)) in *.
  assert (Hfind : first_match (pendingPayment (session_id session)) (purchases w1)
                  = Some (length (purchases w), p0)).
  { rewrite Hp1. apply first_match_app_new; [exact Hsettled|].
    unfold pendingPayment, p0, openedPurchase. simpl. by rewrite String.eqb_refl. }
  pose proof (dispatch_completes now w1 _ _ _ Hfind) as (Hp2 & Hc2 & _ & Hu2).
  assert (Hw2 : w2 = snd (dispatchStripeEvent
                            (mkEvent "checkout.session.completed" (session_id session)) now w1)).
  { subst w2. by rewrite webhook_world, Hev. }
  rewrite <- Hw2 in Hp2, Hc2, Hu2.
  assert (Hps : purchases w2
                = purchases w
                  ++ [CoursePurchase.with_purchaseDate now
                        (CoursePurchase.with_status completed p0)]).
  { rewrite Hp2, Hp1. apply insert_last. }
  split; [exact Hps|]. split.
  - unfold userById in Hu2. rewrite Hu1 in Hu2. simpl in Hu2.
    unfold userById in Hu. rewrite Hu in Hu2.
    destruct Hu2 as (u' & H1 & H2 & H3 & _). exists u'. repeat split; auto.
    rewrite H3. apply includes_enrolledAfter.
  - apply initiateStripeCheckout_already.
    + unfold courseById. rewrite Hc2, Hc1. by eexists.
    + rewrite Hps. eexists. apply first_match_app_new; [exact Hnone|].
      unfold completedPurchaseOf. simpl. by rewrite !String.eqb_refl.
Qed.

Lemma checkout_completion_enrolls_and_closes_witness :
  let w := mkWorld [ann] [rocqCourse] [introLecture; paidLecture] [] [] [] in
  let w1 := snd (initiateStripeCheckout demoExternals "u1" "c1" "p1" w) in
  let w2 := snd (handleStripeWebhook demoExternals "completed:cs_1" (Some "whsec") 5 w1) in
  purchases w2
  = [CoursePurchase.mk "p1" "u1" "c1" 10 completed "cs_1" (Some 5%Z) None None None]
  /\ (exists user', users w2 !! 0 = Some user'
                    /\ User._id user' = "u1"
                    /\ User.enrolledCourses user' = ["c1"]
                    /\ includes (User.enrolledCourses user') "c1" = true)
  /\ fst (initiateStripeCheckout demoExternals "u1" "c1" "p2" w2)
     = Ok (Next (mkAppError "Course already purchased" 400)).
Proof.
  intros w.
  apply (checkout_completion_enrolls_and_closes demoExternals "u1" "c1" "p1" "p2"
           "completed:cs_1" (Some "whsec") 5%Z w 0 rocqCourse
           (mkSession "cs_1" "https://checkout/cs_1") 0 ann);
    reflexivity.
Defined.

(** ** A Razorpay order is settled once *)

Lemma first_match_after_update {A} (q : A -> bool) (l : list A) n t t' :
  (forall i j x y, l !! i = Some x -> l !! j = Some y -> q x = true -> q y = true -> i = j) ->
  l !! n = Some t -> q t = true -> q t' = false ->
  first_match q (<[n := t']> l) = None.
Proof.
  intros Huniq Hn Ht Ht'. apply first_match_None. intros x Hx.
  apply list_elem_of_lookup in Hx as [j Hj].
  apply list_lookup_insert_Some in Hj as [(-> & -> & _)|[Hne Hj]]; [done|].
  destruct (q x) eqn:Hx; [|done].
  exfalso. apply Hne. eapply Huniq; eauto.
Qed.

Lemma pendingOrder_not_pending orderId userId p :
  CoursePurchase.status p <> pending -> pendingOrder orderId userId p = false.
Proof.
  unfold pendingOrder. destruct (CoursePurchase.status p); [done|..];
    intros _; by rewrite andb_false_r.
Qed.

Lemma callback_settles E userId orderId c w :
  atMostOnePendingOrder orderId userId w ->
  first_match (pendingOrder orderId userId) (purchases (snd (callback E userId orderId c w)))
  = None.
Proof.
  intros Huniq.
  assert (Hdone : forall n t t',
            first_match (pendingOrder orderId userId) (purchases w) = Some (n, t) ->
            CoursePurchase.status t' <> pending ->
            first_match (pendingOrder orderId userId) (<[n := t']> (purchases w)) = None).
  { intros n t t' Hf Hne. apply first_match_Some in Hf as (Hn & Ht & _).
    eapply first_match_after_update; eauto using pendingOrder_not_pending. }
  destruct c as [pid sig now|description]; simpl.
  - unfold verifyPayment. run.
    destruct (first_match _ (purchases w)) as [[n t]|] eqn:Hf;
      repeat case_match; simplify_eq/=; try done;
      by (eapply Hdone; [reflexivity|]).
  - unfold handlePaymentFailure. run.
    destruct (first_match _ (purchases w)) as [[n t]|] eqn:Hf; simpl; [|done].
    by (eapply Hdone; [reflexivity|]).
Qed.

Lemma callback_on_settled E userId orderId c w :
  first_match (pendingOrder orderId userId) (purchases w) = None ->
  sameData w (snd (callback E userId orderId c w))
  /\ fst (callback E userId orderId c w) = Ok (Next (settledError E orderId c)).
Proof.
  intros Hnone. destruct c as [pid sig now|description]; simpl.
  - unfold verifyPayment.
    destruct (String.eqb (expectedSignature E orderId pid) sig); simpl; run;
      rewrite Hnone; simpl; by repeat split.
  - unfold handlePaymentFailure. run. rewrite Hnone. simpl. by repeat split.
Qed.

(** X6.  The first callback about a Razorpay order settles it.  When at
    most one pending purchase of the user carries the order identifier,
    then after any one callback ([verifyPayment] with a genuine or a forged
    signature, or [handlePaymentFailure]) every further callback about that
    order writes nothing and is refused: 400 "Payment verification failed"
    for a signature that does not match, 404 "Purchase record not found"
    otherwise.  In particular a forged or failed first callback leaves the
    purchase [failed] for good, and a verified payment cannot be verified
    again. *)
Theorem razorpay_order_settled_once
    (E : Externals) (userId : ObjectId) (orderId : string)
    (first second : RazorpayCallback) (w : World) :
  atMostOnePendingOrder orderId userId w ->
  let w1 := snd (callback E userId orderId first w) in
  let r2 := callback E userId orderId second w1 in
  sameData w1 (snd r2) /\ fst r2 = Ok (Next (settledError E orderId second)).
Proof.
  intros Huniq w1 r2. apply callback_on_settled. by apply callback_settles.
Qed.

Lemma razorpay_order_settled_once_witness :
  let w1 := snd (verifyPayment demoExternals "u1" "order_1" "pay_1" "forged" 7 demoWorld) in
  let r2 :=
    verifyPayment demoExternals "u1" "order_1" "pay_1" "hmac(rzp_secret,order_1|pay_1)" 8 w1 in
  CoursePurchase.status <$> purchases w1 !! 1 = Some failed
  /\ sameData w1 (snd r2)
  /\ fst r2 = Ok (Next (mkAppError "Purchase record not found" 404)).
Proof.
  split; [reflexivity|].
  apply (razorpay_order_settled_once demoExternals "u1" "order_1"
           (PostVerify "pay_1" "forged" 7)
           (PostVerify "pay_1" "hmac(rzp_secret,order_1|pay_1)" 8) demoWorld).
  intros i j p q Hi Hj Hp Hq.
  destruct i as [|[|[|i]]]; simpl in Hi; simplify_eq; try discriminate;
  destruct j as [|[|[|j]]]; simpl in Hj; simplify_eq; try discriminate; reflexivity.
Defined.

(** ** The first handled Stripe event wins *)

(** X7.  When at most one pending purchase carries a session's identifier,
    the first [checkout.session.completed] or [checkout.session.expired]
    event about that session decides the purchase: any later accepted event
    about the same session, of whatever type, changes neither the purchases
    nor the users.  A session reported expired is not completed by a later
    completion event, and the buyer is not enrolled by it. *)
Theorem first_stripe_event_wins
    (E : Externals) (raw1 raw2 : string) (sig1 sig2 : option string) (now1 now2 : Z)
    (event1 event2 : StripeEvent) (w : World) :
  constructEvent E raw1 sig1 (STRIPE_WEBHOOK_SECRET E) = Ok event1 ->
  constructEvent E raw2 sig2 (STRIPE_WEBHOOK_SECRET E) = Ok event2 ->
  event_type event1 = "checkout.session.completed"
  \/ event_type event1 = "checkout.session.expired" ->
  event_object_id event2 = event_object_id event1 ->
  atMostOnePending (event_object_id event1) w ->
  let w1 := snd (handleStripeWebhook E raw1 sig1 now1 w) in
  let w2 := snd (handleStripeWebhook E raw2 sig2 now2 w1) in
  purchases w2 = purchases w1 /\ users w2 = users w1.
Proof.
  intros H1 H2 Htype Hid Huniq w1 w2. subst w1 w2.
  rewrite !webhook_world, H1, H2.
  apply dispatch_settled. rewrite Hid. by apply dispatch_settles.
Qed.

Lemma first_stripe_event_wins_witness :
  let w1 := snd (handleStripeWebhook demoExternals "expired:cs_1" (Some "whsec") 5 demoWorld) in
  let w2 := snd (handleStripeWebhook demoExternals "completed:cs_1" (Some "whsec") 6 w1) in
  CoursePurchase.status <$> purchases w1 !! 0 = Some failed
  /\ purchases w2 = purchases w1 /\ users w2 = users w1.
Proof.
  split; [reflexivity|].
  apply (first_stripe_event_wins demoExternals "expired:cs_1" "completed:cs_1"
           (Some "whsec") (Some "whsec") 5 6
           (mkEvent "checkout.session.expired" "cs_1")
           (mkEvent "checkout.session.completed" "cs_1") demoWorld);
    try reflexivity; [by right|].
  intros i j p q Hi Hj Hp Hq.
  destruct i as [|[|[|i]]]; simpl in Hi; simplify_eq; try discriminate;
  destruct j as [|[|[|j]]]; simpl in Hj; simplify_eq; try discriminate; reflexivity.
Defined.

(** ** Accounts *)

(** X8.  Signup with an email that a user already carries is refused with
    400 "User already exists with this email" and writes nothing.
    Otherwise exactly one user is appended, holding the bcrypt hash of the
    password (never the password as supplied), no enrolled course and no
    reset token; this happens before the token is generated, so the account
    exists also when the token generator throws and the request fails. *)
Theorem createUserAccount_outcomes
    (E : Externals) (name email password salt : string) (fresh : ObjectId) (w : World) :
  let r := createUserAccount E name email password salt fresh w in
  match userByEmail email w with
  | Some _ =>
      fst r = Ok (Next (mkAppError "User already exists with this email" 400))
      /\ sameData w (snd r)
  | None =>
      users (snd r) = users w ++ [signedUp E name email password salt fresh]
      /\ courses (snd r) = courses w /\ purchases (snd r) = purchases w
      /\ fst r
         = match generateToken E fresh with
           | Ok token =>
               Ok (Respond (mkResponse 201 [("token", Some token)]
                      (sessionBody "Account created successfully"
                         (signedUp E name email password salt fresh) token)))
           | Threw e => Threw e
           end
  end.
Proof.
  intros r. subst r. unfold createUserAccount, userByEmail, signedUp, sessionBody. run.
  destruct (first_match _ (users w)) as [[i u]|]; simpl; [by repeat split|].
  destruct (generateToken E fresh); simpl; by repeat split.
Qed.

Example createUserAccount_without_token :
  let r := createUserAccount demoExternals "Bob" "bob@lms" "hunter2" "salt" "u2" demoWorld in
  fst r = Threw (TypeError "Cannot read properties of undefined (reading '_id')")
  /\ User.email <$> users (snd r) !! 1 = Some "bob@lms".
Proof. split; reflexivity. Qed.

Lemma authenticateUser_rejects
    (E : Externals) (email password : option string) (w : World) :
  truthy_str email = true -> truthy_str password = true ->
  userByEmail (default "" email) w = None
  \/ (exists slot user hash,
        userByEmail (default "" email) w = Some (slot, user)
        /\ User.password user = Some hash
        /\ bcrypt_compare E (default "" password) hash = false) ->
  fst (authenticateUser E email password w)
  = Ok (Next (mkAppError "Invalid email or password" 401)).
Proof.
  unfold authenticateUser, userByEmail, compareWith.
  intros -> ->. simpl. run. intros [->|(slot & user & hash & -> & -> & Hcmp)]; simpl; [done|].
  by rewrite Hcmp.
Qed.

(** X9.  Signin does not tell an unknown email from a wrong password: both
    are refused with the same error, 401 "Invalid email or password".  A
    request without an email or without a password (absent or empty) is
    refused with 400 before any database call. *)
Theorem authenticateUser_refusals
    (E : Externals) (email password : option string) (w : World) :
  (truthy_str email = false \/ truthy_str password = false ->
     authenticateUser E email password w
     = (Ok (Next (mkAppError "Please provide email and password" 400)), w))
  /\ (truthy_str email = true -> truthy_str password = true ->
      userByEmail (default "" email) w = None
      \/ (exists slot user hash,
            userByEmail (default "" email) w = Some (slot, user)
            /\ User.password user = Some hash
            /\ bcrypt_compare E (default "" password) hash = false) ->
      fst (authenticateUser E email password w)
      = Ok (Next (mkAppError "Invalid email or password" 401))).
Proof.
  split; [|apply authenticateUser_rejects].
  unfold authenticateUser. intros [-> | ->]; simpl; [done|]. by rewrite orb_true_r.
Qed.

Lemma authenticateUser_refusals_witness :
  fst (authenticateUser demoExternals (Some "nobody@lms") (Some "secret") demoWorld)
  = Ok (Next (mkAppError "Invalid email or password" 401))
  /\ fst (authenticateUser demoExternals (Some "ann@lms") (Some "guess") demoWorld)
     = Ok (Next (mkAppError "Invalid email or password" 401))
  /\ authenticateUser demoExternals (Some "ann@lms") (Some "") demoWorld
     = (Ok (Next (mkAppError "Please provide email and password" 400)), demoWorld).
Proof.
  split; [|split].
  - apply (proj2 (authenticateUser_refusals demoExternals (Some "nobody@lms") (Some "secret")
                    demoWorld)); [reflexivity..|].
    left. reflexivity.
  - apply (proj2 (authenticateUser_refusals demoExternals (Some "ann@lms") (Some "guess")
                    demoWorld)); [reflexivity..|].
    right. exists 0, ann, "bcrypt(salt,secret)". repeat split; reflexivity.
  - apply (proj1 (authenticateUser_refusals demoExternals (Some "ann@lms") (Some "")
                    demoWorld)).
    right. reflexivity.
Defined.

Lemma createUserAccount_stores E name email password salt fresh w :
  userByEmail email w = None ->
  users (snd (createUserAccount E name email password salt fresh w))
  = users w ++ [signedUp E name email password salt fresh].
Proof.
  unfold userByEmail. intros Hnone. unfold createUserAccount, signedUp. run.
  rewrite Hnone. simpl. by destruct (generateToken E fresh).
Qed.

Lemma authenticateUser_accepts E email password w slot user hash :
  email <> ""%string -> password <> ""%string ->
  userByEmail email w = Some (slot, user) ->
  User.password user = Some hash ->
  bcrypt_compare E password hash = true ->
  fst (authenticateUser E (Some email) (Some password) w)
  = match generateToken E (User._id user) with
    | Ok token =>
        Ok (Respond (mkResponse 200 [("token", Some token)]
                       (sessionBody "Logged in successfully" user token)))
    | Threw e => Threw e
    end.
Proof.
  unfold userByEmail. intros He Hp Hu Hh Hc.
  apply String.eqb_neq in He, Hp.
  unfold authenticateUser, compareWith, sessionBody. simpl. rewrite He, Hp. simpl. run.
  rewrite Hu. simpl. rewrite Hh. simpl. rewrite Hc. simpl.
  by destruct (generateToken E (User._id user)).
Qed.

(** X10.  Signing up and then signing in.  When no user carries the email,
    the email and the passwords are not empty and bcrypt accepts the
    password against the hash it made of it, then after the signup request
    (whatever became of its token) the account is in use: a signin with a
    password that bcrypt rejects against the stored hash is refused with
    401, a second signup with the email is refused with 400, and a signin
    with the password passes the check and ends as the token generator
    does: 200 with the token and the new user without its password when a
    token comes back, the generator's exception otherwise.  The helper of
    this repository, called with the identifier alone, throws, so here both
    the signup and the signin end in its [TypeError]. *)
Theorem signup_then_signin
    (E : Externals) (name email password salt wrong : string) (fresh : ObjectId)
    (w : World) :
  email <> ""%string -> password <> ""%string -> wrong <> ""%string ->
  userByEmail email w = None ->
  bcrypt_compare E password (bcrypt_hash E password salt) = true ->
  bcrypt_compare E wrong (bcrypt_hash E password salt) = false ->
  let w1 := snd (createUserAccount E name email password salt fresh w) in
  fst (authenticateUser E (Some email) (Some password) w1)
  = match generateToken E fresh with
    | Ok token =>
        Ok (Respond (mkResponse 200 [("token", Some token)]
                       (sessionBody "Logged in successfully"
                          (signedUp E name email password salt fresh) token)))
    | Threw e => Threw e
    end
  /\ fst (authenticateUser E (Some email) (Some wrong) w1)
     = Ok (Next (mkAppError "Invalid email or password" 401))
  /\ (forall name' password' salt' fresh',
        fst (createUserAccount E name' email password' salt' fresh' w1)
        = Ok (Next (mkAppError "User already exists with this email" 400))).
Proof.
  intros He Hp Hw Hnone Hok Hbad w1.
  pose proof (createUserAccount_stores E name email password salt fresh w Hnone) as Hw1.
  fold w1 in Hw1.
  assert (Hfind : userByEmail email w1
                  = Some (length (users w), signedUp E name email password salt fresh)).
  { unfold userByEmail. rewrite Hw1. apply first_match_app_new; [exact Hnone|].
    simpl. apply String.eqb_refl. }
  split; [|split].
  - by apply (authenticateUser_accepts E email password w1 _ _ _ He Hp Hfind eq_refl).
  - apply authenticateUser_rejects.
    + simpl. by apply String.eqb_neq in He as ->.
    + simpl. by apply String.eqb_neq in Hw as ->.
    + right. eexists _, _, _. split; [exact Hfind|]. split; [reflexivity|exact Hbad].
  - intros name' password' salt' fresh'. unfold userByEmail in Hfind.
    unfold createUserAccount. run. by rewrite Hfind.
Qed.

Lemma signup_then_signin_witness :
  let signup :=
    createUserAccount demoExternals "Bob" "bob@lms" "hunter2" "salt" "u2" demoWorld in
  let w1 := snd signup in
  fst signup = Threw (TypeError "Cannot read properties of undefined (reading '_id')")
  /\ fst (authenticateUser demoExternals (Some "bob@lms") (Some "hunter2") w1)
     = Threw (TypeError "Cannot read properties of undefined (reading '_id')")
  /\ fst (authenticateUser demoExternals (Some "bob@lms") (Some "hunter3") w1)
     = Ok (Next (mkAppError "Invalid email or password" 401))
  /\ fst (createUserAccount demoExternals "Rob" "bob@lms" "hunter4" "pepper" "u3" w1)
     = Ok (Next (mkAppError "User already exists with this email" 400)).
Proof.
  intros signup w1. split; [reflexivity|].
  destruct (signup_then_signin demoExternals "Bob" "bob@lms" "hunter2" "salt" "hunter3" "u2"
              demoWorld) as (Hright & Hwrong & Htaken); try discriminate; try reflexivity.
  split; [exact Hright|]. split; [exact Hwrong|]. apply Htaken.
Defined.

(** ** Passwords *)

(** X11.  [changeUserPassword] for an existing user with a stored hash: a
    current password that bcrypt rejects against the stored hash is refused
    with 400 "Current password is incorrect" and nothing is written; one
    that bcrypt accepts makes the handler store the bcrypt hash of the new
    password in that user's document: afterwards the document in the
    user's slot has that hash as its password and the identifier, name,
    email, photo, enrolled courses and reset token it had, and every other
    slot holds what it held. *)
Theorem changeUserPassword_outcomes
    (E : Externals) (userId : ObjectId) (current new salt : string) (w : World)
    (slot : nat) (user : User.t) (hash : string) :
  current <> ""%string -> new <> ""%string ->
  userById userId w = Some (slot, user) ->
  User.password user = Some hash ->
  let r := changeUserPassword E userId (Some current) (Some new) salt w in
  if bcrypt_compare E current hash
  then fst r = Ok (Respond (mkResponse 200 []
                      (BJson (JObj [("status", JStr "success");
                                    ("message", JStr "Password changed successfully")]))))
       /\ users (snd r)
          = <[slot := User.with_password (Some (bcrypt_hash E new salt)) user]> (users w)
       /\ (exists user',
             users (snd r) !! slot = Some user'
             /\ User.password user' = Some (bcrypt_hash E new salt)
             /\ User._id user' = userId
             /\ User.name user' = User.name user
             /\ User.email user' = User.email user
             /\ User.photoUrl user' = User.photoUrl user
             /\ User.enrolledCourses user' = User.enrolledCourses user
             /\ User.passwordResetToken user' = User.passwordResetToken user
             /\ User.passwordResetExpires user' = User.passwordResetExpires user)
       /\ (forall j, j <> slot -> users (snd r) !! j = users w !! j)
       /\ courses (snd r) = courses w /\ purchases (snd r) = purchases w
  else fst r = Ok (Next (mkAppError "Current password is incorrect" 400))
       /\ sameData w (snd r).
Proof.
  intros Hc Hn Hu Hh r. subst r. unfold userById in Hu.
  apply String.eqb_neq in Hc, Hn.
  unfold changeUserPassword, compareWith. simpl. rewrite Hc, Hn. simpl. run.
  rewrite Hu. simpl. rewrite Hh. simpl.
  apply first_match_Some in Hu as (Hslot & Hid & _). apply String.eqb_eq in Hid.
  destruct (bcrypt_compare E current hash); simpl; [|by repeat split].
  split; [done|]. split; [done|]. split; [|split; [|done]].
  - eexists. split.
    + apply list_lookup_insert_Some. left. split; [done|]. split; [reflexivity|].
      by eapply lookup_lt_Some.
    + by repeat split.
  - intros j Hj. by apply list_lookup_insert_ne.
Qed.

Lemma changeUserPassword_outcomes_witness :
  let good := changeUserPassword demoExternals "u1" (Some "secret") (Some "fresh") "salt"
                demoWorld in
  let bad := changeUserPassword demoExternals "u1" (Some "guess") (Some "fresh") "salt"
               demoWorld in
  (fst good = Ok (Respond (mkResponse 200 []
                     (BJson (JObj [("status", JStr "success");
                                   ("message", JStr "Password changed successfully")]))))
   /\ users (snd good)
      = [User.mk "u1" "Ann" "ann@lms" (Some "bcrypt(salt,fresh)") None [] None None])
  /\ (fst bad = Ok (Next (mkAppError "Current password is incorrect" 400))
      /\ users (snd bad)
         = [User.mk "u1" "Ann" "ann@lms" (Some "bcrypt(salt,secret)") None [] None None]).
Proof.
  split.
  - destruct (changeUserPassword_outcomes demoExternals "u1" "secret" "fresh" "salt"
                demoWorld 0 ann "bcrypt(salt,secret)") as (Hreply & Husers & _);
      try discriminate; try reflexivity.
    split; [exact Hreply|exact Husers].
  - destruct (changeUserPassword_outcomes demoExternals "u1" "guess" "fresh" "salt"
                demoWorld 0 ann "bcrypt(salt,secret)") as (Hreply & Husers & _);
      try discriminate; try reflexivity.
    split; [exact Hreply|exact Husers].
Defined.

Lemma validReset_inv hashed now u :
  validReset hashed now u = true ->
  User.passwordResetToken u = Some hashed
  /\ exists t, User.passwordResetExpires u = Some t /\ (now < t)%Z.
Proof.
  unfold validReset, eq_opt. rewrite andb_true_iff.
  destruct (User.passwordResetToken u) as [x|]; [|intros [? _]; discriminate].
  destruct (User.passwordResetExpires u) as [t|]; [|intros [_ ?]; discriminate].
  rewrite String.eqb_eq, Z.ltb_lt. intros [-> Ht]. split; [done|]. by exists t.
Qed.

Lemma forgotPassword_arms E email resetToken now w slot user :
  userByEmail email w = Some (slot, user) ->
  users (snd (forgotPassword E email resetToken now w))
  = <[slot := User.with_reset (Some (sha256_hex E resetToken))
                (Some (now + 10 * 60 * 1000)%Z) user]> (users w).
Proof.
  unfold userByEmail. intros Hu. unfold forgotPassword. run. by rewrite Hu.
Qed.

Lemma resetPassword_refuses E token password salt now w :
  userByResetToken E token now w = None ->
  fst (resetPassword E token password salt now w)
  = Ok (Next (if truthy_str password
              then mkAppError "Token is invalid or has expired" 400
              else mkAppError "Please provide new password" 400))
  /\ sameData w (snd (resetPassword E token password salt now w)).
Proof.
  unfold userByResetToken. intros Hnone. unfold resetPassword.
  destruct (truthy_str password); simpl; [|by repeat split].
  run. rewrite Hnone. simpl. by repeat split.
Qed.

(** X12.  The password-reset round trip.  After [forgotPassword] for an
    existing email, at a moment when no user carries the hash of the reset
    token, [resetPassword] with that token and a non-empty password, less
    than ten minutes later, stores the bcrypt hash of the new password in
    that user's document and clears the reset token and its expiry; the
    token then is spent: a second [resetPassword] with it is refused with
    400 "Token is invalid or has expired" and writes nothing.  Ten minutes
    after the request or later, the first [resetPassword] is refused the
    same way. *)
Theorem password_reset_round_trip
    (E : Externals) (email resetToken password salt : string) (now later : Z)
    (w : World) (slot : nat) (user : User.t) :
  password <> ""%string ->
  userByEmail email w = Some (slot, user) ->
  (forall u, u ∈ users w -> User.passwordResetToken u <> Some (sha256_hex E resetToken)) ->
  let w1 := snd (forgotPassword E email resetToken now w) in
  let armed := User.with_reset (Some (sha256_hex E resetToken))
                 (Some (now + 10 * 60 * 1000)%Z) user in
  ((later < now + 10 * 60 * 1000)%Z ->
     let w2 := snd (resetPassword E resetToken (Some password) salt later w1) in
     users w2
     = <[slot := User.with_reset None None
                   (User.with_password (Some (bcrypt_hash E password salt)) armed)]> (users w)
     /\ forall again salt',
          fst (resetPassword E resetToken (Some password) salt' again w2)
          = Ok (Next (mkAppError "Token is invalid or has expired" 400))
          /\ sameData w2 (snd (resetPassword E resetToken (Some password) salt' again w2)))
  /\ ((now + 10 * 60 * 1000 <= later)%Z ->
      fst (resetPassword E resetToken (Some password) salt later w1)
      = Ok (Next (mkAppError "Token is invalid or has expired" 400))
      /\ sameData w1 (snd (resetPassword E resetToken (Some password) salt later w1))).
Proof.
  intros Hpw Hu Hfresh w1 armed.
  pose proof (forgotPassword_arms E email resetToken now w slot user Hu) as Hw1.
  fold w1 armed in Hw1.
  assert (Hslot : users w !! slot = Some user).
  { unfold userByEmail in Hu. by apply first_match_Some in Hu as (? & _). }
  assert (Htruthy : truthy_str (Some password) = true).
  { simpl. by apply String.eqb_neq in Hpw as ->. }
  assert (Hothers : forall t u, u ∈ users w -> validReset (sha256_hex E resetToken) t u = false).
  { intros t u Hin. destruct (validReset _ t u) eqn:Hv; [|done].
    apply validReset_inv in Hv as (Htok & _). by apply Hfresh in Hin. }
  split.
  - intros Hlater w2.
    assert (Hfind : userByResetToken E resetToken later w1 = Some (slot, armed)).
    { unfold userByResetToken. rewrite Hw1. apply list_find_Some. split; [|split].
      - apply list_lookup_insert_eq. by eapply lookup_lt_Some.
      - unfold validReset, armed. simpl. rewrite String.eqb_refl. simpl.
        by apply Z.ltb_lt.
      - intros j y Hj Hlt Hy.
        rewrite list_lookup_insert_ne in Hj by lia.
        apply list_elem_of_lookup_2 in Hj. by rewrite (Hothers later y Hj) in Hy. }
    assert (Hw2 : users w2
                  = <[slot := User.with_reset None None
                                (User.with_password (Some (bcrypt_hash E password salt)) armed)]>
                      (users w)).
    { subst w2. unfold userByResetToken in Hfind. unfold resetPassword.
      rewrite Htruthy. simpl. run. rewrite Hfind. simpl.
      rewrite Hw1, list_insert_insert_eq.
      by destruct (generateToken E (User._id user)). }
    split; [exact Hw2|]. intros again salt'.
    pose proof (resetPassword_refuses E resetToken (Some password) salt' again w2) as Href.
    rewrite Htruthy in Href. apply Href.
    unfold userByResetToken. apply first_match_None. intros u Hin. rewrite Hw2 in Hin.
    apply list_elem_of_lookup in Hin as [j Hj].
    apply list_lookup_insert_Some in Hj as [(_ & <- & _)|[_ Hj]]; [done|].
    apply Hothers. by eapply list_elem_of_lookup_2.
  - intros Hlate.
    pose proof (resetPassword_refuses E resetToken (Some password) salt later w1) as Href.
    rewrite Htruthy in Href. apply Href.
    unfold userByResetToken. apply first_match_None. intros u Hin. rewrite Hw1 in Hin.
    apply list_elem_of_lookup in Hin as [j Hj].
    apply list_lookup_insert_Some in Hj as [(_ & <- & _)|[_ Hj]].
    + unfold validReset, armed. simpl. rewrite String.eqb_refl. simpl. by apply Z.ltb_ge.
    + apply Hothers. by eapply list_elem_of_lookup_2.
Qed.

Lemma password_reset_round_trip_witness :
  let w1 := snd (forgotPassword demoExternals "ann@lms" "r3s3t" 0 demoWorld) in
  let w2 := snd (resetPassword demoExternals "r3s3t" (Some "fresh") "salt" 5 w1) in
  (User.password <$> users w2 !! 0 = Some (Some "bcrypt(salt,fresh)")
   /\ User.passwordResetToken <$> users w2 !! 0 = Some None
   /\ fst (resetPassword demoExternals "r3s3t" (Some "fresh") "salt" 6 w2)
      = Ok (Next (mkAppError "Token is invalid or has expired" 400)))
  /\ fst (resetPassword demoExternals "r3s3t" (Some "fresh") "salt" 600000 w1)
     = Ok (Next (mkAppError "Token is invalid or has expired" 400)).
Proof.
  intros w1 w2.
  assert (Hfresh : forall u, u ∈ users demoWorld ->
            User.passwordResetToken u <> Some (sha256_hex demoExternals "r3s3t")).
  { intros u Hu. apply list_elem_of_In in Hu. simpl in Hu. destruct Hu as [<-|[]].
    discriminate. }
  destruct (password_reset_round_trip demoExternals "ann@lms" "r3s3t" "fresh" "salt" 0 5
              demoWorld 0 ann ltac:(discriminate) eq_refl Hfresh) as [Hgood _].
  destruct (password_reset_round_trip demoExternals "ann@lms" "r3s3t" "fresh" "salt" 0 600000
              demoWorld 0 ann ltac:(discriminate) eq_refl Hfresh) as [_ Hlate].
  specialize (Hgood ltac:(reflexivity)). destruct Hgood as [Hw2 Hspent].
  specialize (Hlate ltac:(discriminate)). destruct Hlate as [Hlate _].
  subst w2 w1. split; [|exact Hlate].
  split; [by rewrite Hw2|]. split; [by rewrite Hw2|].
  apply (Hspent 6%Z "salt").
Defined.

(** ** Deleting an account, updating a profile *)

(** X13.  [deleteUserAccount] for an existing user with a stored hash: a
    password that bcrypt rejects is refused with 400 "Incorrect password"
    and nothing is written; one that bcrypt accepts removes that user's
    document, and only it, from the users, clears the [token] cookie and
    answers 200.  The user's purchases stay in the database, pending ones
    included. *)
Theorem deleteUserAccount_outcomes
    (E : Externals) (userId : ObjectId) (password : string) (w : World)
    (slot : nat) (user : User.t) (hash : string) :
  password <> ""%string ->
  userById userId w = Some (slot, user) ->
  User.password user = Some hash ->
  let r := deleteUserAccount E userId (Some password) w in
  courses (snd r) = courses w /\ purchases (snd r) = purchases w
  /\ progresses (snd r) = progresses w
  /\ if bcrypt_compare E password hash
     then fst r = Ok (Respond (mkResponse 200 [("token", None)]
                         (BJson (JObj [("status", JStr "success");
                                       ("message", JStr "Account deleted successfully")]))))
          /\ users (snd r) = delete slot (users w)
     else fst r = Ok (Next (mkAppError "Incorrect password" 400))
          /\ users (snd r) = users w.
Proof.
  intros Hp Hu Hh r. subst r. unfold userById in Hu. apply String.eqb_neq in Hp.
  unfold deleteUserAccount, compareWith, deleteMediaFromCloudinary. simpl. rewrite Hp. simpl.
  run. rewrite Hu. simpl. rewrite Hh. simpl.
  destruct (bcrypt_compare E password hash); simpl; [|by repeat split].
  destruct (truthy_str (User.photoUrl user)); simpl.
  - destruct (cloudinary_destroy E _); simpl; rewrite Hu; by repeat split.
  - rewrite Hu. by repeat split.
Qed.

Lemma deleteUserAccount_outcomes_witness :
  let good := deleteUserAccount demoExternals "u1" (Some "secret") demoWorld in
  let bad := deleteUserAccount demoExternals "u1" (Some "guess") demoWorld in
  (users (snd good) = [] /\ purchases (snd good) = [stripePending; razorpayPending])
  /\ (fst bad = Ok (Next (mkAppError "Incorrect password" 400))
      /\ users (snd bad) = [ann]).
Proof.
  split.
  - destruct (deleteUserAccount_outcomes demoExternals "u1" "secret" demoWorld 0 ann
                "bcrypt(salt,secret)" ltac:(discriminate) eq_refl eq_refl)
      as (_ & Hp & _ & _ & Hu).
    split; [exact Hu|exact Hp].
  - destruct (deleteUserAccount_outcomes demoExternals "u1" "guess" demoWorld 0 ann
                "bcrypt(salt,secret)" ltac:(discriminate) eq_refl eq_refl)
      as (_ & _ & _ & Hr & Hu).
    split; [exact Hr|exact Hu].
Defined.

(** ** How the users evolve *)

Section Evolution.
Context {A : Type} (R : A -> A -> Prop).
Hypothesis R_refl : forall x, R x x.
Hypothesis R_trans : forall x y z, R x y -> R y z -> R x z.

Lemma evolved_refl l : evolved R l l.
Proof using R_refl. exists l, []. split; [by rewrite app_nil_r|]. by apply Forall2_same. Qed.

Lemma Forall2_trans_R l1 l2 l3 : Forall2 R l1 l2 -> Forall2 R l2 l3 -> Forall2 R l1 l3.
Proof using R_trans.
  intros H. revert l3. induction H as [|x y l1 l2 Hxy _ IH]; intros l3 H3.
  - inversion H3. constructor.
  - inversion H3 as [|? z ? l3' Hyz Hrest]; subst. constructor; eauto.
Qed.

Lemma evolved_trans l1 l2 l3 : evolved R l1 l2 -> evolved R l2 l3 -> evolved R l1 l3.
Proof using R_trans.
  intros (old & new & -> & Hold) (old' & new' & -> & Hold').
  apply Forall2_app_inv_l in Hold' as (o1 & o2 & Ho1 & Ho2 & ->).
  exists o1, (o2 ++ new'). split; [by rewrite app_assoc|].
  eapply Forall2_trans_R; eauto.
Qed.

Lemma evolved_create l x : evolved R l (l ++ [x]).
Proof using R_refl. exists l, [x]. split; [done|]. by apply Forall2_same. Qed.

Lemma evolved_update l i x y : l !! i = Some x -> R x y -> evolved R l (<[i := y]> l).
Proof using R_refl.
  intros Hi Hxy. exists (<[i := y]> l), []. split; [by rewrite app_nil_r|].
  by eapply Forall2_update.
Qed.

Lemma evolved_lookup l l' i x :
  evolved R l l' -> l !! i = Some x -> exists y, l' !! i = Some y /\ R x y.
Proof.
  intros (old & new & -> & H) Hi.
  destruct (Forall2_lookup_l _ _ _ _ _ H Hi) as (y & Hy & Hxy).
  exists y. split; [|done]. by apply lookup_app_l_Some.
Qed.
End Evolution.

Section UsersEvolve.
Context (R : User.t -> User.t -> Prop).
Hypothesis R_refl : forall x, R x x.
Hypothesis R_trans : forall x y z, R x y -> R y z -> R x z.

Lemma usersEvolve_ret {B} (b : B) : usersEvolve R (ret b).
Proof using R_refl. intros w. by apply evolved_refl. Qed.

Lemma usersEvolve_throw {B} e : usersEvolve R (@throw B e).
Proof using R_refl. intros w. by apply evolved_refl. Qed.

Lemma usersEvolve_lift {B} (r : Result B) : usersEvolve R (lift r).
Proof using R_refl. intros w. by apply evolved_refl. Qed.

Lemma usersEvolve_bind {B C} (m : M B) (k : B -> M C) :
  usersEvolve R m -> (forall b, usersEvolve R (k b)) -> usersEvolve R (bind m k).
Proof using R_trans.
  intros Hm Hk w. unfold bind. specialize (Hm w).
  destruct (m w) as [[b|e] w']; simpl in *; [|done].
  eapply evolved_trans; [done|exact Hm|apply Hk].
Qed.

Lemma usersEvolve_readOnly {B} (m : M B) : readOnly m -> usersEvolve R m.
Proof using R_refl. intros Hm w. destruct (Hm w) as (-> & _). by apply evolved_refl. Qed.

Lemma usersEvolve_mapM {B C} (f : B -> M C) (l : list B) :
  (forall b, usersEvolve R (f b)) -> usersEvolve R (mapM f l).
Proof using R_refl R_trans.
  intros Hf. induction l as [|b l IH]; simpl; [apply usersEvolve_ret|].
  apply usersEvolve_bind; [apply Hf|]. intros c.
  apply usersEvolve_bind; [apply IH|]. intros cs. apply usersEvolve_ret.
Qed.
End UsersEvolve.

(** The users after a straight-line computation: untouched, one more, or
    one rewritten in the slot where a query found it. *)
Ltac evolved_by_cases solveR :=
  first
    [ apply evolved_refl; solve [auto]
    | apply evolved_create; solve [auto]
    | match goal with
      | H : first_match _ (users ?w) = Some (?i, ?u)
        |- evolved _ (users ?w) (<[?i := _]> (users ?w)) =>
          let Hl := fresh in
          let Hq := fresh in
          apply first_match_Some in H as (Hl & Hq & _);
          eapply evolved_update; [solve [auto]|exact Hl|solveR Hq]
      end ].

Ltac usersEvolve_by_running solveR :=
  intros ?w; run; repeat case_match; simplify_eq/=; evolved_by_cases solveR.

Ltac usersEvolve_by_structure solveR :=
  first
    [ apply usersEvolve_ret; solve [auto]
    | apply usersEvolve_throw; solve [auto]
    | apply usersEvolve_lift; solve [auto]
    | apply usersEvolve_readOnly; [solve [auto]|solve [auto with readOnly]]
    | apply usersEvolve_mapM; [solve [auto]..|intros ?; usersEvolve_by_structure solveR]
    | apply usersEvolve_bind;
        [solve [auto]..|usersEvolve_by_structure solveR
        |intros ?; usersEvolve_by_structure solveR]
    | match goal with
      | |- usersEvolve _ (match ?x with _ => _ end) =>
          destruct x; usersEvolve_by_structure solveR
      end
    | progress cbv zeta; usersEvolve_by_structure solveR
    | usersEvolve_by_running solveR ].

Lemma stillEnrolled_refl u : stillEnrolled u u.
Proof. split; [done|]. exists []. by rewrite app_nil_r. Qed.

Lemma stillEnrolled_trans u v x : stillEnrolled u v -> stillEnrolled v x -> stillEnrolled u x.
Proof.
  intros [H1 [m1 E1]] [H2 [m2 E2]]. split; [congruence|].
  exists (m1 ++ m2). by rewrite E2, E1, app_assoc.
Qed.

Ltac solve_stillEnrolled Hq :=
  split; [done|]; simpl; first [by exists []; rewrite app_nil_r|by eexists].

Lemma handler_keeps_enrollment E op :
  isAccountDeletion op = false -> usersEvolve stillEnrolled (handler E op).
Proof.
  pose proof stillEnrolled_refl. pose proof stillEnrolled_trans.
  intros Hop. destruct op; try discriminate Hop; clear Hop; simpl.
  all: unfold createNewCourse, searchCourses, getPublishedCourses, getMyCreatedCourses,
         updateCourseDetails, getCourseDetails, addLectureToCourse, getCourseLectures,
         createUserAccount, authenticateUser, signOutUser, getCurrentUserProfile,
         updateUserProfile, changeUserPassword, forgotPassword, resetPassword,
         createRazorpayOrder, verifyPayment, handlePaymentFailure,
         getPaymentStatus, initiateStripeCheckout, handleStripeWebhook, dispatchStripeEvent,
         getCoursePurchaseStatus,
         getPurchasedCourses, getUserCourseProgress, updateLectureProgress,
         markCourseAsCompleted, resetCourseProgress, checkHealth,
         uploadMedia, secureUrl, compareWith, deleteMediaFromCloudinary,
         notFound, nextIsNotDefined.
  all: first [ solve [usersEvolve_by_structure solve_stillEnrolled]
             | solve [usersEvolve_by_running solve_stillEnrolled] ].
Qed.

Lemma runAll_usersEvolve E R ops w :
  (forall x, R x x) -> (forall x y z, R x y -> R y z -> R x z) ->
  Forall (fun op => usersEvolve R (handler E op)) ops ->
  evolved R (users w) (users (runAll E ops w)).
Proof.
  intros Hrefl Htrans Hops. revert w.
  induction Hops as [|op ops Hop _ IH]; intros w; simpl; [by apply evolved_refl|].
  eapply evolved_trans; [done| |apply IH]. rewrite serve_world. apply Hop.
Qed.

(** X14.  Enrollment is never revoked.  Under any sequence of operations
    that contains no account deletion, a user document stays in its slot,
    keeps its identifier, and keeps every course it is enrolled in, in the
    same order; courses can only be added behind them. *)
Theorem enrollment_is_never_revoked
    (E : Externals) (ops : list Operation) (w : World) (i : nat) (u : User.t) :
  Forall (fun op => isAccountDeletion op = false) ops ->
  users w !! i = Some u ->
  exists u', users (runAll E ops w) !! i = Some u'
             /\ User._id u' = User._id u
             /\ exists more, User.enrolledCourses u' = User.enrolledCourses u ++ more.
Proof.
  intros Hops Hi.
  assert (Hev : evolved stillEnrolled (users w) (users (runAll E ops w))).
  { apply (runAll_usersEvolve E stillEnrolled);
      [apply stillEnrolled_refl|apply stillEnrolled_trans|].
    eapply Forall_impl; [exact Hops|]. intros op Hop. by apply handler_keeps_enrollment. }
  destruct (evolved_lookup _ _ _ _ _ Hev Hi) as (u' & Hu' & Hid & Hmore).
  by exists u'.
Qed.

Lemma enrollment_is_never_revoked_witness :
  let ops :=
    [HandleStripeWebhook "completed:cs_1" (Some "whsec") 5;
     UpdateUserProfile "u1" (Some "Anna") None None;
     ChangeUserPassword "u1" (Some "secret") (Some "fresh") "salt";
     HandleStripeWebhook "expired:cs_1" (Some "whsec") 6;
     CreateUserAccount "Bob" "bob@lms" "hunter2" "salt" "u2"] in
  exists u', users (runAll demoExternals ops demoWorld) !! 0 = Some u'
             /\ User._id u' = User._id ann
             /\ exists more, User.enrolledCourses u' = User.enrolledCourses ann ++ more.
Proof.
  intros ops.
  apply (enrollment_is_never_revoked demoExternals ops demoWorld 0 ann).
  - repeat constructor.
  - reflexivity.
Defined.

Lemma samePassword_refl u : samePassword u u.
Proof. by split. Qed.

Lemma samePassword_trans u v x : samePassword u v -> samePassword v x -> samePassword u x.
Proof. intros [? ?] [? ?]. split; congruence. Qed.

Ltac solve_samePassword Hq := by split.

Lemma handler_keeps_passwords E op :
  writesPassword op = false -> usersEvolve samePassword (handler E op).
Proof.
  pose proof samePassword_refl. pose proof samePassword_trans.
  intros Hop. destruct op; try discriminate Hop; clear Hop; simpl.
  all: unfold createNewCourse, searchCourses, getPublishedCourses, getMyCreatedCourses,
         updateCourseDetails, getCourseDetails, addLectureToCourse, getCourseLectures,
         createUserAccount, authenticateUser, signOutUser, getCurrentUserProfile,
         updateUserProfile, forgotPassword,
         createRazorpayOrder, verifyPayment, handlePaymentFailure,
         getPaymentStatus, initiateStripeCheckout, handleStripeWebhook, dispatchStripeEvent,
         getCoursePurchaseStatus,
         getPurchasedCourses, getUserCourseProgress, updateLectureProgress,
         markCourseAsCompleted, resetCourseProgress, checkHealth,
         uploadMedia, secureUrl, compareWith, deleteMediaFromCloudinary,
         notFound, nextIsNotDefined.
  all: first [ solve [usersEvolve_by_structure solve_samePassword]
             | solve [usersEvolve_by_running solve_samePassword] ].
Qed.

(** X15.  Stored password hashes are written only by the password
    operations.  Under any sequence of operations that contains no password
    change, no password reset and no account deletion, every user document
    keeps its slot, its identifier and its stored password hash; signin and
    signup, which blank the password of the document they answer with, do
    not blank it in the database. *)
Theorem passwords_written_only_by_password_operations
    (E : Externals) (ops : list Operation) (w : World) (i : nat) (u : User.t) :
  Forall (fun op => writesPassword op = false) ops ->
  users w !! i = Some u ->
  exists u', users (runAll E ops w) !! i = Some u'
             /\ User._id u' = User._id u
             /\ User.password u' = User.password u.
Proof.
  intros Hops Hi.
  assert (Hev : evolved samePassword (users w) (users (runAll E ops w))).
  { apply (runAll_usersEvolve E samePassword);
      [apply samePassword_refl|apply samePassword_trans|].
    eapply Forall_impl; [exact Hops|]. intros op Hop. by apply handler_keeps_passwords. }
  destruct (evolved_lookup _ _ _ _ _ Hev Hi) as (u' & Hu' & Hid & Hpw).
  by exists u'.
Qed.

Lemma passwords_written_only_by_password_operations_witness :
  let ops :=
    [AuthenticateUser (Some "ann@lms") (Some "secret");
     ForgotPassword "ann@lms" "r3s3t" 0;
     UpdateUserProfile "u1" (Some "Anna") None None;
     HandleStripeWebhook "completed:cs_1" (Some "whsec") 5] in
  exists u', users (runAll demoExternals ops demoWorld) !! 0 = Some u'
             /\ User._id u' = User._id ann
             /\ User.password u' = User.password ann.
Proof.
  intros ops.
  apply (passwords_written_only_by_password_operations demoExternals ops demoWorld 0 ann).
  - repeat constructor.
  - reflexivity.
Defined.

Lemma profileFrame_refl userId u : profileFrame userId u u.
Proof. by repeat split. Qed.

Lemma profileFrame_trans userId u v x :
  profileFrame userId u v -> profileFrame userId v x -> profileFrame userId u x.
Proof.
  intros (H1 & H2 & H3 & H4 & H5 & H6) (G1 & G2 & G3 & G4 & G5 & G6).
  repeat split; try congruence.
  intros Hne. rewrite G6, H6; [done..|congruence].
Qed.

Ltac solve_profileFrame Hq :=
  apply String.eqb_eq in Hq; repeat split; try done;
  let Hne := fresh in intros Hne; by rewrite Hq in Hne.

Lemma updateUserProfile_evolves E userId name email photoUrl :
  usersEvolve (profileFrame userId) (updateUserProfile E userId name email photoUrl).
Proof.
  pose proof (profileFrame_refl userId). pose proof (profileFrame_trans userId).
  unfold updateUserProfile, uploadMedia, secureUrl, deleteMediaFromCloudinary.
  usersEvolve_by_structure solve_profileFrame.
Qed.

(** X16.  [updateUserProfile] writes at most the name, the email and the
    photo of the caller's own document: whatever the request and the
    outcome, every user keeps its slot, its identifier, its password, its
    enrolled courses and its reset token, and the documents of the other
    users are left whole.  When the requested email is carried by another
    user the request is refused with 400 "Email already exists" and nothing
    is written, a supplied name included. *)
Theorem updateUserProfile_frame
    (E : Externals) (userId : ObjectId) (name email photoUrl : option string) (w : World) :
  let r := updateUserProfile E userId name email photoUrl w in
  (forall i u, users w !! i = Some u ->
     exists u', users (snd r) !! i = Some u' /\ profileFrame userId u u')
  /\ (truthy_str email = true ->
      is_Some (first_match (fun u => String.eqb (User.email u) (default "" email)
                                     && negb (String.eqb (User._id u) userId)) (users w)) ->
      fst r = Ok (Next (mkAppError "Email already exists" 400)) /\ sameData w (snd r)).
Proof.
  intros r. subst r. split.
  - intros i u Hi.
    apply (evolved_lookup _ _ _ _ _ (updateUserProfile_evolves E userId name email photoUrl w) Hi).
  - intros He [[i u] Hfound]. unfold updateUserProfile. run. rewrite He. simpl.
    rewrite Hfound. simpl. by repeat split.
Qed.

Lemma updateUserProfile_frame_witness :
  let w := mkWorld [ann; User.mk "u2" "Bob" "bob@lms" (Some "h") None ["c1"] None None]
             [] [] [] [] [] in
  let r := updateUserProfile demoExternals "u1" (Some "Anna") (Some "bob@lms") None w in
  (exists u', users (snd r) !! 1 = Some u'
              /\ profileFrame "u1" (User.mk "u2" "Bob" "bob@lms" (Some "h") None ["c1"] None None) u')
  /\ fst r = Ok (Next (mkAppError "Email already exists" 400))
  /\ sameData w (snd r).
Proof.
  intros w r.
  destruct (updateUserProfile_frame demoExternals "u1" (Some "Anna") (Some "bob@lms") None w)
    as [Hframe Hrefuse].
  split; [exact (Hframe 1 _ eq_refl)|].
  apply Hrefuse; [reflexivity|]. by eexists.
Defined.

Example updateUserProfile_example :
  users (snd (updateUserProfile demoExternals "u1" (Some "Anna") (Some "") None demoWorld))
  = [User.mk "u1" "Anna" "ann@lms" (Some "bcrypt(salt,secret)") None [] None None].
Proof. reflexivity. Qed.

(** ** Courses and lectures *)

(** X17.  [createNewCourse] stores a course only when the media store
    accepts the thumbnail: then exactly one course is appended, with the
    caller as instructor, the upload's URL as thumbnail, no lecture, not
    published, and the reply is 201 with that course.  When the upload
    fails (a missing thumbnail included, if the media store refuses it) the
    helper swallows the failure, the handler throws the [TypeError] of
    reading [secure_url] off [undefined], and no course is created. *)
Theorem createNewCourse_outcomes
    (E : Externals) (instructorId : ObjectId) (title description : string) (price : Z)
    (thumbnail : option string) (fresh : ObjectId) (w : World) :
  let r := createNewCourse E instructorId title description price thumbnail fresh w in
  match cloudinary_upload E thumbnail with
  | Ok upload =>
      let course :=
        createdCourse instructorId title description price (secure_url upload) fresh in
      r = (Ok (json 201 (success [("data", JObj [("course", Course.toObject course)])])),
           mkWorld (users w) (courses w ++ [course]) (lectures w) (purchases w)
             (progresses w) (trace w ++ [(MCourse, create_)]))
  | Threw _ => r = (Threw noSecureUrl, w)
  end.
Proof.
  intros r. subst r. unfold createNewCourse, uploadMedia, secureUrl, createdCourse. run.
  destruct (cloudinary_upload E thumbnail); simpl; [done|]. by destruct w.
Qed.

Example createNewCourse_examples :
  fst (createNewCourse demoExternals "u1" "Logic" "Intro" 5 None "c2" demoWorld)
  = Threw noSecureUrl
  /\ Course.thumbnail <$>
       courses (snd (createNewCourse demoExternals "u1" "Logic" "Intro" 5 (Some "t.png") "c2"
                       demoWorld)) !! 1
     = Some (Some "https://media/t.png").
Proof. split; reflexivity. Qed.

(** X18.  A failed upload aborts the two update handlers before they
    write.  When the media store refuses the file, [updateCourseDetails]
    with a non-empty thumbnail for an existing course, and
    [updateUserProfile] with a non-empty photo for an existing user whose
    requested email is free, throw the [TypeError] of reading [secure_url]
    off [undefined] and write nothing: a title, description, price, name or
    email supplied in the same request is not saved. *)
Theorem failed_upload_aborts_update
    (E : Externals) (file : string) (err : JsError) (w : World) :
  file <> ""%string ->
  cloudinary_upload E (Some file) = Threw err ->
  (forall courseId title description price,
     is_Some (courseById courseId w) ->
     let r := updateCourseDetails E courseId title description price (Some file) w in
     fst r = Threw noSecureUrl /\ sameData w (snd r))
  /\ (forall userId name email,
        is_Some (userById userId w) ->
        (truthy_str email = true ->
         first_match (fun u => String.eqb (User.email u) (default "" email)
                               && negb (String.eqb (User._id u) userId)) (users w) = None) ->
        let r := updateUserProfile E userId name email (Some file) w in
        fst r = Threw noSecureUrl /\ sameData w (snd r)).
Proof.
  intros Hfile Hup. apply String.eqb_neq in Hfile. split.
  - intros courseId title description price [[slot c] Hc] r. subst r.
    unfold courseById in Hc. unfold updateCourseDetails, uploadMedia, secureUrl. run.
    rewrite Hc, Hfile, Hup. simpl. by repeat split.
  - intros userId name email [[slot u] Hu] Hfree r. subst r.
    unfold userById in Hu.
    unfold updateUserProfile, uploadMedia, secureUrl, deleteMediaFromCloudinary. run.
    rewrite Hfile. simpl.
    destruct (truthy_str email) eqn:He; simpl.
    + rewrite (Hfree eq_refl). simpl. rewrite Hu. simpl.
      destruct (truthy_str (User.photoUrl u)); simpl;
        [destruct (cloudinary_destroy E _); simpl|]; rewrite Hup; simpl; by repeat split.
    + rewrite Hu. simpl.
      destruct (truthy_str (User.photoUrl u)); simpl;
        [destruct (cloudinary_destroy E _); simpl|]; rewrite Hup; simpl; by repeat split.
Qed.

Lemma first_match_update_same {A} (q : A -> bool) (l : list A) i x y :
  first_match q l = Some (i, x) -> q y = true -> first_match q (<[i := y]> l) = Some (i, y).
Proof.
  intros Hf Hy. apply first_match_Some in Hf as (Hi & _ & Hfirst).
  apply list_find_Some. split; [|split; [done|]].
  - apply list_lookup_insert_eq. by eapply lookup_lt_Some.
  - intros j z Hj Hlt. rewrite list_lookup_insert_ne in Hj by lia.
    rewrite (Hfirst j z Hj Hlt). discriminate.
Qed.

Lemma lectureById_after_create w w' new id :
  lectures w' = lectures w ++ [new] ->
  (forall l, l ∈ lectures w -> Lecture._id l <> Lecture._id new) ->
  lectureById w' id
  = if String.eqb (Lecture._id new) id then Some new else lectureById w id.
Proof.
  intros Hl Hfresh. unfold lectureById, first_match. rewrite Hl.
  destruct (String.eqb (Lecture._id new) id) eqn:Hid.
  - assert (Hnone : list_find (fun d => String.eqb (Lecture._id d) id = true) (lectures w)
                    = None).
    { apply list_find_None, Forall_forall. intros l Hin Hq.
      apply String.eqb_eq in Hid, Hq. apply (Hfresh l Hin). congruence. }
    rewrite (list_find_app_r _ _ _ Hnone). simpl.
    destruct (decide (String.eqb (Lecture._id new) id = true)); [done|contradiction].
  - destruct (list_find _ (lectures w)) as [[i l]|] eqn:Hf.
    + by rewrite (list_find_app_l _ _ _ _ _ Hf).
    + rewrite (list_find_app_r _ _ _ Hf). simpl.
      destruct (decide (String.eqb (Lecture._id new) id = true)); [congruence|done].
Qed.

Lemma omap_lectureById_old w w' new (ids : list ObjectId) :
  (forall id, lectureById w' id
              = if String.eqb (Lecture._id new) id then Some new else lectureById w id) ->
  Lecture._id new ∉ ids ->
  omap (lectureById w') ids = omap (lectureById w) ids.
Proof.
  intros Hby. induction ids as [|id ids IH]; intros Hnotin; [done|].
  apply not_elem_of_cons in Hnotin as [Hne Hrest]. csimpl.
  rewrite Hby. apply String.eqb_neq in Hne. rewrite Hne.
  destruct (lectureById w id); csimpl; by rewrite IH.
Qed.

(** X19.  A lecture that was added is listed.  When the course exists and
    the identifier the database gives the new lecture is carried by no
    lecture and by no reference of the course, then after
    [addLectureToCourse], [getCourseLectures] for that course answers 200
    with the lectures it listed before followed by the new lecture, and
    [results] one higher.  The new lecture has the supplied title,
    description and video reference, no duration and no preview flag. *)
Theorem added_lecture_is_listed
    (courseId : ObjectId) (title description : string) (videoUrl : option string)
    (fresh : ObjectId) (w : World) (slot : nat) (course : Course.t) :
  courseById courseId w = Some (slot, course) ->
  (forall l, l ∈ lectures w -> Lecture._id l <> fresh) ->
  fresh ∉ Course.lectures course ->
  let new := Lecture.mk fresh title description videoUrl None None courseId in
  let w1 := snd (addLectureToCourse courseId title description videoUrl fresh w) in
  fst (getCourseLectures courseId w)
  = Ok (listing "lectures" (map Lecture.toObject (populatedLectures course w)))
  /\ fst (getCourseLectures courseId w1)
     = Ok (listing "lectures" (map Lecture.toObject (populatedLectures course w ++ [new]))).
Proof.
  intros Hc Hfresh Hnotin new w1. unfold courseById in Hc.
  assert (Hget : forall w0 c0 s0,
            first_match (fun d => String.eqb (Course._id d) courseId) (courses w0)
            = Some (s0, c0) ->
            fst (getCourseLectures courseId w0)
            = Ok (listing "lectures" (map Lecture.toObject (populatedLectures c0 w0)))).
  { intros w0 c0 s0 H0. unfold getCourseLectures, listing, populatedLectures, lectureById.
    run. rewrite H0. simpl. by rewrite length_map. }
  split; [by eapply Hget|].
  pose proof Hc as Hc'. apply first_match_Some in Hc' as (_ & Hid & _).
  set (course1 := Course.with_lectures (Course.lectures course ++ [fresh]) course).
  assert (Hw1 : courses w1 = <[slot := course1]> (courses w)
                /\ lectures w1 = lectures w ++ [new]).
  { subst w1. unfold addLectureToCourse. run. by rewrite Hc. }
  destruct Hw1 as [Hcs Hls].
  assert (Hc1 : first_match (fun d => String.eqb (Course._id d) courseId) (courses w1)
                = Some (slot, course1)).
  { rewrite Hcs. by eapply first_match_update_same. }
  rewrite (Hget w1 course1 slot Hc1). do 3 f_equal.
  pose proof (lectureById_after_create w w1 new) as Hby.
  specialize (fun id => Hby id Hls Hfresh).
  unfold populatedLectures, course1. simpl. rewrite omap_app.
  rewrite (omap_lectureById_old w w1 new _ Hby Hnotin). f_equal.
  csimpl. rewrite Hby. simpl. by rewrite String.eqb_refl.
Qed.

Lemma added_lecture_is_listed_witness :
  let new := Lecture.mk "l3" "Ltac" "Automation" (Some "https://video/ltac") None None "c1" in
  let w1 :=
    snd (addLectureToCourse "c1" "Ltac" "Automation" (Some "https://video/ltac") "l3"
           demoWorld) in
  fst (getCourseLectures "c1" demoWorld)
  = Ok (listing "lectures" (map Lecture.toObject [introLecture; paidLecture]))
  /\ fst (getCourseLectures "c1" w1)
     = Ok (listing "lectures" (map Lecture.toObject [introLecture; paidLecture; new])).
Proof.
  apply (added_lecture_is_listed "c1" "Ltac" "Automation" (Some "https://video/ltac") "l3"
           demoWorld 0 rocqCourse).
  - reflexivity.
  - intros l Hl. apply list_elem_of_In in Hl. simpl in Hl.
    destruct Hl as [<-|[<-|[]]]; discriminate.
  - intros Hin. apply list_elem_of_In in Hin. simpl in Hin.
    destruct Hin as [?|[?|[]]]; discriminate.
Defined.

Lemma failed_upload_aborts_update_witness :
  (let r := updateCourseDetails offlineMedia "c1" (Some "Rocq 2") None (Some 20%Z)
              (Some "t.png") demoWorld in
   fst r = Threw noSecureUrl /\ sameData demoWorld (snd r))
  /\ (let r := updateUserProfile offlineMedia "u1" (Some "Anna") None (Some "me.png")
                 demoWorld in
      fst r = Threw noSecureUrl /\ sameData demoWorld (snd r)).
Proof.
  destruct (failed_upload_aborts_update offlineMedia "t.png"
              (ExternalError "connect ETIMEDOUT") demoWorld ltac:(discriminate) eq_refl)
    as [Hcourse _].
  destruct (failed_upload_aborts_update offlineMedia "me.png"
              (ExternalError "connect ETIMEDOUT") demoWorld ltac:(discriminate) eq_refl)
    as [_ Huser].
  split.
  - apply Hcourse. by eexists.
  - apply Huser; [by eexists|discriminate].
Defined.

(** ** Listings *)

Lemma mapM_reads {A B} (f : A -> M B) (g : World -> A -> B) :
  (forall a w, fst (f a w) = Ok (g w a) /\ sameData w (snd (f a w))) ->
  (forall w w' a, sameData w w' -> g w' a = g w a) ->
  forall l w, fst (mapM f l w) = Ok (map (g w) l) /\ sameData w (snd (mapM f l w)).
Proof.
  intros Hf Hg. induction l as [|a l IH]; intros w; simpl.
  - split; [done|apply sameData_refl].
  - unfold bind. destruct (Hf a w) as [Ha Hsame].
    destruct (f a w) as [[b|e] w1]; simpl in *; [|discriminate].
    injection Ha as ->. destruct (IH w1) as [Hl Hsame1].
    destruct (mapM f l w1) as [[bs|e] w2]; simpl in *; [|discriminate].
    injection Hl as ->. unfold ret. simpl. split.
    + do 2 f_equal. apply map_ext. intros c. by apply Hg.
    + by eapply sameData_trans.
Qed.

Lemma courseView_sameData w w' c : sameData w w' -> courseView w' c = courseView w c.
Proof.
  intros (Hu & _ & Hl & _). unfold courseView, populatedLectures, lectureById.
  by rewrite Hu, Hl.
Qed.

Lemma courseSummary_sameData w w' c : sameData w w' -> courseSummary w' c = courseSummary w c.
Proof. intros (Hu & _). unfold courseSummary. by rewrite Hu. Qed.

Lemma withInstructorAndLectures_reads c w :
  fst (withInstructorAndLectures c w) = Ok (courseView w c)
  /\ sameData w (snd (withInstructorAndLectures c w)).
Proof. unfold withInstructorAndLectures. run. by repeat split. Qed.

Lemma withInstructor_reads c w :
  fst (withInstructor c w) = Ok (courseSummary w c)
  /\ sameData w (snd (withInstructor c w)).
Proof. unfold withInstructor. run. by repeat split. Qed.

Lemma courses_listing (f : Course.t -> M jsval) (g : World -> Course.t -> jsval)
    (q : Course.t -> bool) w :
  (forall a w, fst (f a w) = Ok (g w a) /\ sameData w (snd (f a w))) ->
  (forall w w' a, sameData w w' -> g w' a = g w a) ->
  fst ((let* found := find Courses q in
        let* items := mapM f found in
        ret (listing "courses" items)) w)
  = Ok (listing "courses" (map (g w) (filter (fun x => q x = true) (courses w)))).
Proof.
  intros Hf Hg. unfold find, bind, log, ret. simpl.
  set (w1 := mkWorld _ _ _ _ _ _).
  assert (Hsame : sameData w w1) by by repeat split.
  destruct (mapM_reads f g Hf Hg (filter (fun x => q x = true) (courses w)) w1) as [Hl _].
  destruct (mapM f _ w1) as [[items|e] w2]; simpl in *; [|discriminate].
  injection Hl as ->. do 2 f_equal. apply map_ext. intros c. by apply Hg.
Qed.

Lemma filter_all {A} (q : A -> bool) (l : list A) :
  (forall x, q x = true) -> filter (fun x => q x = true) l = l.
Proof.
  intros Hq. induction l as [|x l IH]; [done|].
  rewrite filter_cons_True by apply Hq. by rewrite IH.
Qed.

(** X20.  What the course listings contain.  [getPublishedCourses] lists
    exactly the published courses and [getMyCreatedCourses] exactly the
    courses whose instructor is the caller, in collection order, each with
    instructor and lectures populated; unpublished courses of other
    instructors appear in neither.  [searchCourses] without any criterion
    (every parameter absent or empty) lists every course of the database,
    unpublished ones included, since its filter never looks at
    [isPublished].  In each reply [results] is the number of courses
    listed. *)
Theorem course_listings (E : Externals) (w : World) :
  fst (getPublishedCourses w)
  = Ok (listing "courses"
          (map (courseView w) (filter (fun c => Course.isPublished c = true) (courses w))))
  /\ (forall instructorId,
        fst (getMyCreatedCourses instructorId w)
        = Ok (listing "courses"
                (map (courseView w)
                   (filter (fun c => String.eqb (Course.instructor c) instructorId = true)
                      (courses w)))))
  /\ (forall title category level priceRange,
        truthy_str title = false -> truthy_str category = false ->
        truthy_str level = false -> truthy_str priceRange = false ->
        fst (searchCourses E title category level priceRange w)
        = Ok (listing "courses" (map (courseSummary w) (courses w)))).
Proof.
  split; [|split].
  - apply (courses_listing withInstructorAndLectures courseView Course.isPublished w).
    + apply withInstructorAndLectures_reads.
    + apply courseView_sameData.
  - intros instructorId.
    apply (courses_listing withInstructorAndLectures courseView
             (fun c => String.eqb (Course.instructor c) instructorId) w).
    + apply withInstructorAndLectures_reads.
    + apply courseView_sameData.
  - intros title category level priceRange Ht Hc Hl Hp.
    unfold searchCourses. rewrite Hp. unfold bind at 1. unfold ret at 1.
    pose proof (courses_listing withInstructor courseSummary
                  (searchFilter E title category level (fun _ => true)) w
                  withInstructor_reads courseSummary_sameData) as H.
    unfold listing in *. rewrite H. do 6 f_equal; rewrite filter_all; try done.
    all: intros c; unfold searchFilter; by rewrite Ht, Hc, Hl.
Qed.

Lemma course_listings_witness :
  let draft := Course.mk "c2" "Draft" "Soon" 5 None "u1" [] false None None in
  let w := mkWorld [ann] [rocqCourse; draft] [introLecture; paidLecture] [] [] [] in
  fst (getPublishedCourses w) = Ok (listing "courses" [courseView w rocqCourse])
  /\ fst (getMyCreatedCourses "u1" w) = Ok (listing "courses" [courseView w draft])
  /\ fst (searchCourses demoExternals None (Some "") None None w)
     = Ok (listing "courses" [courseSummary w rocqCourse; courseSummary w draft]).
Proof.
  intros draft w.
  destruct (course_listings demoExternals w) as (Hpub & Hmine & Hsearch).
  split; [exact Hpub|]. split; [exact (Hmine "u1")|].
  apply Hsearch; reflexivity.
Defined.

(** ** Purchased courses *)

Lemma mapM_related {A B} (f : A -> M B) (P : World -> A -> B -> Prop) :
  (forall a w, exists b, fst (f a w) = Ok b /\ P w a b /\ sameData w (snd (f a w))) ->
  (forall w w' a b, sameData w w' -> P w' a b -> P w a b) ->
  forall l w, exists bs, fst (mapM f l w) = Ok bs /\ Forall2 (P w) l bs
                         /\ sameData w (snd (mapM f l w)).
Proof.
  intros Hf HP. induction l as [|a l IH]; intros w; simpl.
  - exists []. split; [done|]. split; [constructor|apply sameData_refl].
  - unfold bind. destruct (Hf a w) as (b & Hb & Hpb & Hsame).
    destruct (f a w) as [[b'|e] w1]; simpl in *; [|discriminate].
    injection Hb as ->. destruct (IH w1) as (bs & Hbs & Hall & Hsame1).
    destruct (mapM f l w1) as [[bs'|e] w2]; simpl in *; [|discriminate].
    injection Hbs as ->. exists (b :: bs). unfold ret. simpl. split; [done|]. split.
    + constructor; [done|]. eapply Forall2_impl; [exact Hall|]. intros x y. by apply HP.
    + by eapply sameData_trans.
Qed.

Lemma fields_get_obj_set_eq k v fs : fields_get k (obj_set k v fs) = v.
Proof.
  induction fs as [|[k' v'] fs IH]; simpl; [by rewrite String.eqb_refl|].
  destruct (String.eqb k k') eqn:Hk; simpl; rewrite Hk; [done|exact IH].
Qed.

Lemma fields_get_obj_set_ne k k' v fs :
  k <> k' -> fields_get k (obj_set k' v fs) = fields_get k fs.
Proof.
  intros Hne. induction fs as [|[k2 v2] fs IH]; simpl.
  - by apply String.eqb_neq in Hne as ->.
  - destruct (String.eqb k' k2) eqn:Hk; simpl; [|by rewrite IH].
    apply String.eqb_eq in Hk as <-. by apply String.eqb_neq in Hne as ->.
Qed.

Lemma populatePurchaseCourse_reads p w :
  exists pc, fst (populatePurchaseCourse p w) = Ok pc /\ populatedAs w p pc
             /\ sameData w (snd (populatePurchaseCourse p w)).
Proof.
  unfold populatePurchaseCourse, populatedAs, courseById. run.
  destruct (first_match _ (courses w)) as [[i c]|]; simpl; eexists;
    (split; [reflexivity|]); (split; [split; [done|]; simpl|by repeat split]); [|done].
  eexists. split; [reflexivity|]. by repeat split.
Qed.

Lemma populatedAs_sameData w w' p pc : sameData w w' -> populatedAs w' p pc -> populatedAs w p pc.
Proof. intros (_ & Hc & _). unfold populatedAs, courseById. by rewrite Hc. Qed.

Lemma purchasedCourse_ok pc fs w :
  snd pc = Some (JObj fs) ->
  purchasedCourse pc w = (Ok (JObj (obj_set "purchaseInfo" (purchaseInfo (fst pc)) fs)), w).
Proof. intros H. unfold purchasedCourse. by rewrite H. Qed.

Lemma mapM_purchasedCourse_ok l w :
  Forall (fun pc => exists fs, snd pc = Some (JObj fs)) l ->
  exists items,
    fst (mapM purchasedCourse l w) = Ok items
    /\ Forall2 (fun pc item =>
                  exists fs, snd pc = Some (JObj fs)
                             /\ item = JObj (obj_set "purchaseInfo" (purchaseInfo (fst pc)) fs))
         l items.
Proof.
  revert w. induction l as [|pc l IH]; intros w Hall; simpl; [by exists []|].
  inversion Hall as [|? ? [fs Hfs] Hrest]; subst. unfold bind.
  rewrite (purchasedCourse_ok pc fs w Hfs).
  destruct (IH w Hrest) as (items & Hitems & Hshown).
  destruct (mapM purchasedCourse l w) as [[items'|e] w2]; simpl in *; [|discriminate].
  injection Hitems as ->. eexists. split; [reflexivity|].
  constructor; [by exists fs|done].
Qed.

Lemma mapM_purchasedCourse_null l w :
  Forall (fun pc => snd pc = None \/ exists fs, snd pc = Some (JObj fs)) l ->
  Exists (fun pc => snd pc = None) l ->
  fst (mapM purchasedCourse l w) = Threw noCourseObject.
Proof.
  revert w. induction l as [|pc l IH]; intros w Hall Hex; [by inversion Hex|].
  inversion Hall as [|? ? Hpc Hrest]; subst. simpl. unfold bind.
  destruct Hpc as [Hnone|[fs Hfs]].
  - unfold purchasedCourse. by rewrite Hnone.
  - rewrite (purchasedCourse_ok pc fs w Hfs).
    inversion Hex as [? ? Hbad|? ? Hbad]; subst; [congruence|].
    specialize (IH w Hrest Hbad).
    by destruct (mapM purchasedCourse l w) as [[items|e] w2]; simpl in *; simplify_eq.
Qed.

Lemma newerFirst_total : Total newerFirst.
Proof.
  intros [a ?] [b ?]. unfold newerFirst, date_ge. simpl.
  destruct (CoursePurchase.purchaseDate a) as [x|], (CoursePurchase.purchaseDate b) as [y|];
    auto.
  destruct (Z.leb_spec y x); [by left|right]. apply Z.leb_le. lia.
Qed.

Lemma completedPurchases_spec userId w p :
  p ∈ completedPurchases userId w
  <-> p ∈ purchases w /\ CoursePurchase.userId p = userId
      /\ CoursePurchase.status p = completed.
Proof.
  unfold completedPurchases, completedBy. rewrite list_elem_of_filter.
  rewrite andb_true_iff, String.eqb_eq, status_eqb_eq. tauto.
Qed.

(** X21.  [getPurchasedCourses] lists the completed purchases of the
    caller, and nothing else.  When the course of each of them still
    exists, the reply is 200 with one item for each purchase that is in the
    database with the caller as user and the status [completed] (pending
    and failed purchases and the purchases of other users are not shown),
    the later purchase first; each item carries the identifier, title,
    description and price of the purchased course and, under
    [purchaseInfo], the date, amount and payment identifier of the
    purchase.  When the course of one of them is gone, the handler throws
    the [TypeError] of calling [toObject] on [null], and no course is
    listed at all. *)
Theorem getPurchasedCourses_outcomes (userId : ObjectId) (w : World) :
  let mine := completedPurchases userId w in
  (Forall (fun p => is_Some (courseById (CoursePurchase.courseId p) w)) mine ->
     exists shown items,
       fst (getPurchasedCourses userId w) = Ok (listing "courses" items)
       /\ shown ≡ₚ mine
       /\ (forall p, p ∈ shown <-> p ∈ purchases w /\ CoursePurchase.userId p = userId
                                    /\ CoursePurchase.status p = completed)
       /\ Sorted newestFirst shown
       /\ Forall2 (showsPurchase w) shown items)
  /\ (Exists (fun p => courseById (CoursePurchase.courseId p) w = None) mine ->
      fst (getPurchasedCourses userId w) = Threw noCourseObject).
Proof.
  intros mine. unfold getPurchasedCourses, find, bind, log, ret. simpl.
  set (w1 := mkWorld _ _ _ _ _ _).
  assert (Hsame : sameData w w1) by by repeat split.
  fold (completedPurchases userId w). fold mine.
  destruct (mapM_related populatePurchaseCourse populatedAs populatePurchaseCourse_reads
              populatedAs_sameData mine w1) as (pcs & Hpcs & Hrel & _).
  destruct (mapM populatePurchaseCourse mine w1) as [[pcs'|e] w2]; simpl in *; [|discriminate].
  injection Hpcs as ->.
  assert (Hrel' : Forall2 (populatedAs w) mine pcs).
  { eapply Forall2_impl; [exact Hrel|]. intros p pc. by apply populatedAs_sameData. }
  assert (Hfst : fst <$> pcs = mine).
  { clear -Hrel'. induction Hrel' as [|p pc ps pcs' [Hp _] _ IH]; [done|].
    csimpl. by rewrite Hp, IH. }
  assert (Hpop : Forall (fun pc => fst pc ∈ mine /\ populatedAs w (fst pc) pc) pcs).
  { apply Forall_forall. intros pc Hin.
    apply list_elem_of_lookup in Hin as [i Hi].
    destruct (Forall2_lookup_r _ _ _ _ _ Hrel' Hi) as (p & Hp & Hpc).
    pose proof Hpc as [-> _]. split; [by eapply list_elem_of_lookup_2|done]. }
  assert (Hperm : sortByPurchaseDateDesc pcs ≡ₚ pcs)
    by (unfold sortByPurchaseDateDesc; apply merge_sort_Permutation).
  rewrite <- Hperm in Hpop.
  split.
  - intros Hall. rewrite Forall_forall in Hall.
    assert (Hok : Forall (fun pc => exists fs, snd pc = Some (JObj fs))
                    (sortByPurchaseDateDesc pcs)).
    { eapply Forall_impl; [exact Hpop|]. intros pc [Hin [_ Hpc]].
      destruct (Hall _ Hin) as [[slot c] Hc]. rewrite Hc in Hpc.
      destruct Hpc as (fs & Hfs & _). by exists fs. }
    destruct (mapM_purchasedCourse_ok _ w2 Hok) as (items & Hitems & Hshown).
    destruct (mapM purchasedCourse (sortByPurchaseDateDesc pcs) w2) as [[items'|e] w3];
      simpl in *; [|discriminate].
    injection Hitems as ->.
    exists (fst <$> sortByPurchaseDateDesc pcs), items.
    assert (Hmine : fst <$> sortByPurchaseDateDesc pcs ≡ₚ mine)
      by (by rewrite Hperm, Hfst).
    split; [done|]. split; [done|]. split; [|split].
    + intros p. rewrite Hmine. apply completedPurchases_spec.
    + unfold sortByPurchaseDateDesc. apply (Sorted_fmap fst newerFirst newestFirst).
      * by intros x y.
      * apply Sorted_merge_sort, newerFirst_total.
    + apply Forall2_fmap_l.
      apply Forall2_same_length_lookup_2; [by eapply Forall2_length|].
      intros i pc item Hpc Hitem.
      destruct (Forall2_lookup_lr _ _ _ _ _ _ Hshown Hpc Hitem) as (fs & Hfs & ->).
      rewrite Forall_lookup in Hpop. destruct (Hpop i pc Hpc) as [Hin [_ Hobj]].
      destruct (Hall _ Hin) as [[slot c] Hc]. rewrite Hc in Hobj.
      destruct Hobj as (fs' & Hfs' & Hid & Htitle & Hdesc & Hprice).
      rewrite Hfs in Hfs'. injection Hfs' as <-.
      exists slot, c. split; [exact Hc|].
      apply first_match_Some in Hc as (_ & Hc & _). apply String.eqb_eq in Hc.
      simpl. rewrite !fields_get_obj_set_ne by discriminate.
      rewrite fields_get_obj_set_eq, Hid, Htitle, Hdesc, Hprice, Hc. by repeat split.
  - intros Hex.
    assert (Hall : Forall (fun pc => snd pc = None \/ exists fs, snd pc = Some (JObj fs))
                     (sortByPurchaseDateDesc pcs)).
    { eapply Forall_impl; [exact Hpop|]. intros pc [_ [_ Hpc]].
      destruct (courseById _ w) as [[slot c]|]; [right|by left].
      destruct Hpc as (fs & Hfs & _). by exists fs. }
    assert (Hbad : Exists (fun pc => snd pc = None) (sortByPurchaseDateDesc pcs)).
    { rewrite Hperm. apply Exists_exists in Hex as (p & Hin & Hnone).
      apply list_elem_of_lookup in Hin as [i Hi].
      destruct (Forall2_lookup_l _ _ _ _ _ Hrel' Hi) as (pc & Hpc & _ & Hgone).
      rewrite Hnone in Hgone. apply Exists_exists. exists pc. split; [|done].
      by eapply list_elem_of_lookup_2. }
    pose proof (mapM_purchasedCourse_null _ w2 Hall Hbad) as Hthrow.
    by destruct (mapM purchasedCourse (sortByPurchaseDateDesc pcs) w2) as [[items'|e] w3];
      simpl in *; simplify_eq.
Qed.

Lemma getPurchasedCourses_outcomes_witness :
  let done := CoursePurchase.mk "p1" "u1" "c1" 10 completed "cs_1" (Some 5%Z) None None None in
  let lost := CoursePurchase.mk "p4" "u1" "c9" 10 completed "cs_4" (Some 6%Z) None None None in
  let other := CoursePurchase.mk "p5" "u2" "c1" 10 completed "cs_5" (Some 7%Z) None None None in
  let w := mkWorld [ann] [rocqCourse] [introLecture; paidLecture]
             [done; razorpayPending; other] [] [] in
  let w' := mkWorld [ann] [rocqCourse] [introLecture; paidLecture] [done; lost] [] [] in
  (exists item,
     fst (getPurchasedCourses "u1" w) = Ok (listing "courses" [item])
     /\ js_get "_id" item = JStr "c1"
     /\ js_get "title" item = JStr "Rocq"
     /\ js_get "price" item = JNum 10
     /\ js_get "purchaseInfo" item
        = JObj [("purchaseDate", JNum 5); ("amount", JNum 10); ("paymentId", JStr "cs_1")])
  /\ fst (getPurchasedCourses "u1" w') = Threw noCourseObject.
Proof.
  intros done lost other w w'. split.
  - destruct (proj1 (getPurchasedCourses_outcomes "u1" w))
      as (shown & items & Hreply & Hperm & _ & _ & Hshown).
    { repeat constructor. by eexists. }
    apply Permutation_singleton_r in Hperm as ->.
    inversion Hshown as [|p item ps items' Hitem Hrest]; subst.
    inversion Hrest; subst.
    destruct Hitem as (slot & course & Hcourse & Hid & Htitle & _ & Hprice & Hinfo).
    injection Hcourse as <- <-.
    exists item. split; [exact Hreply|]. split; [exact Hid|]. split; [exact Htitle|].
    split; [exact Hprice|exact Hinfo].
  - apply (proj2 (getPurchasedCourses_outcomes "u1" w')).
    apply Exists_cons_tl, Exists_cons_hd. reflexivity.
Defined.

(** ** Course progress *)

Lemma upsert_then_find (q : CourseProgress.t -> bool) upd ins w :
  (forall d, q d = true -> q (upd d) = true) -> q ins = true ->
  let w1 := snd (findOneAndUpsert CourseProgresses q upd (Ok ins) w) in
  exists k d, first_match q (progresses w1) = Some (k, d)
              /\ (d = ins \/ exists d0, d = upd d0)
              /\ (progresses w1 = <[k := d]> (progresses w)
                  \/ progresses w1 = progresses w ++ [d]).
Proof.
  intros Hupd Hins. run.
  destruct (first_match q (progresses w)) as [[i d]|] eqn:Hf; simpl.
  - pose proof Hf as Hf'. apply first_match_Some in Hf' as (_ & Hq & _).
    exists i, (upd d). split; [by eapply first_match_update_same; eauto|].
    split; [right; by eexists|by left].
  - exists (length (progresses w)), ins. split; [by apply first_match_app_new|].
    split; [by left|by right].
Qed.

Lemma getUserCourseProgress_finds userId courseId w k d :
  first_match (progressOf courseId userId) (progresses w) = Some (k, d) ->
  fst (getUserCourseProgress userId courseId w) = Ok (progressReply d).
Proof. intros Hf. unfold getUserCourseProgress. run. by rewrite Hf. Qed.

Lemma progressOf_inv courseId userId p :
  progressOf courseId userId p = true ->
  CourseProgress.course p = courseId /\ CourseProgress.user p = userId.
Proof. unfold progressOf. rewrite andb_true_iff, !String.eqb_eq. tauto. Qed.

(** X22.  Marking a course completed and reading the progress back.  After
    [markCourseAsCompleted], whatever the database held,
    [getUserCourseProgress] for the same user and course answers 200 with a
    progress record of that user and course whose [completed] flag is true.
    The upsert adds at most one record, and marking again changes nothing.
    After [resetCourseProgress] the record read back has [completed] false
    and no lecture entry. *)
Theorem progress_round_trip (userId courseId fresh fresh' : ObjectId) (w : World) :
  let w1 := snd (markCourseAsCompleted userId courseId fresh w) in
  let w2 := snd (resetCourseProgress userId courseId fresh' w1) in
  (exists p, fst (getUserCourseProgress userId courseId w1) = Ok (progressReply p)
             /\ CourseProgress.completed p = true
             /\ CourseProgress.course p = courseId /\ CourseProgress.user p = userId)
  /\ length (progresses w1) <= S (length (progresses w))
  /\ progresses (snd (markCourseAsCompleted userId courseId fresh' w1)) = progresses w1
  /\ (exists p, fst (getUserCourseProgress userId courseId w2) = Ok (progressReply p)
                /\ CourseProgress.completed p = false
                /\ CourseProgress.lectures p = []
                /\ CourseProgress.course p = courseId /\ CourseProgress.user p = userId).
Proof.
  intros w1 w2.
  assert (Hself : progressOf courseId userId
                    (CourseProgress.mk fresh courseId userId true []) = true)
    by (unfold progressOf; simpl; by rewrite !String.eqb_refl).
  assert (Hself' : progressOf courseId userId
                     (CourseProgress.mk fresh' courseId userId false []) = true)
    by (unfold progressOf; simpl; by rewrite !String.eqb_refl).
  assert (Hw1 : w1 = snd (findOneAndUpsert CourseProgresses (progressOf courseId userId)
                            (CourseProgress.with_completed true)
                            (Ok (CourseProgress.mk fresh courseId userId true [])) w)).
  { subst w1. unfold markCourseAsCompleted, bind.
    by destruct (findOneAndUpsert _ _ _ _ w) as [[[?|]|?] ?]. }
  destruct (upsert_then_find (progressOf courseId userId) (CourseProgress.with_completed true)
              (CourseProgress.mk fresh courseId userId true []) w) as (k & d & Hf & Hd & Hps);
    [done|done|]. rewrite <- Hw1 in Hf, Hps.
  assert (Hdone : CourseProgress.completed d = true) by (by destruct Hd as [->|[d0 ->]]).
  pose proof Hf as Hq. apply first_match_Some in Hq as (Hk & Hq & _).
  apply progressOf_inv in Hq as [Hc Hu].
  split; [|split; [|split]].
  - exists d. split; [by eapply getUserCourseProgress_finds|done].
  - destruct Hps as [-> | ->]; [rewrite length_insert; lia|rewrite length_app; simpl; lia].
  - unfold markCourseAsCompleted. run. rewrite Hf. simpl.
    replace (CourseProgress.with_completed true d) with d
      by (destruct d; simpl in *; by subst).
    by apply list_insert_id.
  - assert (Hw2 : w2 = snd (findOneAndUpsert CourseProgresses (progressOf courseId userId)
                              (fun p => CourseProgress.with_lectures []
                                          (CourseProgress.with_completed false p))
                              (Ok (CourseProgress.mk fresh' courseId userId false [])) w1)).
    { subst w2. unfold resetCourseProgress, bind.
      by destruct (findOneAndUpsert _ _ _ _ w1) as [[[?|]|?] ?]. }
    destruct (upsert_then_find (progressOf courseId userId)
                (fun p => CourseProgress.with_lectures []
                            (CourseProgress.with_completed false p))
                (CourseProgress.mk fresh' courseId userId false []) w1)
      as (k2 & d2 & Hf2 & Hd2 & _); [done|done|]. rewrite <- Hw2 in Hf2.
    pose proof Hf2 as Hq2. apply first_match_Some in Hq2 as (_ & Hq2 & _).
    apply progressOf_inv in Hq2 as [Hc2 Hu2].
    exists d2. split; [by eapply getUserCourseProgress_finds|].
    by destruct Hd2 as [->|[d0 ->]].
Qed.

Example progress_round_trip_example :
  fst (getUserCourseProgress "u1" "c1"
         (snd (markCourseAsCompleted "u1" "c1" "g1" demoWorld)))
  = Ok (progressReply (CourseProgress.mk "g1" "c1" "u1" true [])).
Proof. reflexivity. Qed.

(** X23.  The progress handlers never hand an error to [next]: they are
    declared without that parameter, so where the source writes
    [return next(new AppError(..., 404))] the handler throws instead.
    Whatever the request, none of the four answers with an application
    error; [getUserCourseProgress] for a user and course without a progress
    record throws the [ReferenceError] "next is not defined" and writes
    nothing. *)
Theorem progress_handlers_never_call_next
    (E : Externals) (op : Operation) (w : World) :
  isProgressOperation op = true ->
  (forall e, fst (handler E op w) <> Ok (Next e))
  /\ (forall userId courseId,
        op = GetUserCourseProgress userId courseId ->
        first_match (progressOf courseId userId) (progresses w) = None ->
        fst (handler E op w) = Threw (ReferenceError "next is not defined")
        /\ sameData w (snd (handler E op w))).
Proof.
  intros Hop. destruct op; try discriminate Hop; clear Hop; simpl; split.
  all: try (intros ? ? [=] ?; subst).
  all: unfold getUserCourseProgress, updateLectureProgress, markCourseAsCompleted,
         resetCourseProgress, nextIsNotDefined, progressReply, json; run.
  all: try (intros e; repeat case_match; simplify_eq/=; congruence).
  match goal with H : first_match _ _ = None |- _ => rewrite H end.
  simpl. by repeat split.
Qed.

Lemma progress_handlers_never_call_next_witness :
  fst (handler demoExternals (GetUserCourseProgress "u1" "c1") demoWorld)
  = Threw (ReferenceError "next is not defined")
  /\ sameData demoWorld (snd (handler demoExternals (GetUserCourseProgress "u1" "c1") demoWorld)).
Proof.
  apply (proj2 (progress_handlers_never_call_next demoExternals
                  (GetUserCourseProgress "u1" "c1") demoWorld eq_refl) "u1" "c1");
    reflexivity.
Defined.

Lemma setLectureCompleted_first lectureId completed ls :
  existsb (fun lc => String.eqb (fst lc) lectureId) ls = true ->
  exists k old,
    ls !! k = Some (lectureId, old)
    /\ (forall j lc, j < k -> ls !! j = Some lc -> fst lc <> lectureId)
    /\ setLectureCompleted lectureId completed ls = <[k := (lectureId, completed)]> ls.
Proof.
  induction ls as [|[l c] ls IH]; simpl; [discriminate|].
  destruct (String.eqb l lectureId) eqn:Hl; simpl.
  - intros _. apply String.eqb_eq in Hl as ->. exists 0, c.
    split; [done|]. split; [|done]. intros j lc Hj. lia.
  - intros Hex. destruct (IH Hex) as (k & old & Hk & Hfirst & Hset).
    exists (S k), old. split; [done|]. split; [|by rewrite Hset].
    intros [|j] lc Hj Hlc; simpl in Hlc.
    + injection Hlc as <-. simpl. by apply String.eqb_neq.
    + apply (Hfirst j lc); [lia|done].
Qed.

(** X24.  [updateLectureProgress] rewrites one entry.  When a progress
    record of the user and course has an entry for the lecture, the handler
    answers 200 with that record in which the first entry of the lecture
    now carries the supplied [completed] flag; every other entry, the order
    of the entries and every other progress record are unchanged.  When no
    such record exists the outcome is the database's answer to the
    positional upsert: its error is thrown and nothing is written, or the
    document it inserts is appended and returned. *)
Theorem updateLectureProgress_outcomes
    (E : Externals) (userId courseId lectureId : ObjectId) (completed : bool) (w : World) :
  let r := updateLectureProgress E userId courseId lectureId completed w in
  match first_match (progressWithLecture courseId userId lectureId) (progresses w) with
  | Some (i, p) =>
      exists k old,
        CourseProgress.lectures p !! k = Some (lectureId, old)
        /\ (forall j lc, j < k -> CourseProgress.lectures p !! j = Some lc ->
                         fst lc <> lectureId)
        /\ let p' := CourseProgress.with_lectures
                       (<[k := (lectureId, completed)]> (CourseProgress.lectures p)) p in
           progresses (snd r) = <[i := p']> (progresses w)
           /\ fst r = Ok (progressReply p')
  | None =>
      match positional_upsert E courseId userId lectureId completed with
      | Ok ins => progresses (snd r) = progresses w ++ [ins] /\ fst r = Ok (progressReply ins)
      | Threw e => fst r = Threw e /\ sameData w (snd r)
      end
  end.
Proof.
  intros r. subst r. unfold updateLectureProgress, progressWithLecture. run.
  destruct (first_match _ (progresses w)) as [[i p]|] eqn:Hf; simpl.
  - apply first_match_Some in Hf as (_ & Hq & _). apply andb_true_iff in Hq as [_ Hex].
    destruct (setLectureCompleted_first lectureId completed _ Hex) as (k & old & Hk & Hfirst & Hset).
    exists k, old. rewrite Hset. by repeat split.
  - destruct (positional_upsert E courseId userId lectureId completed); simpl; by repeat split.
Qed.

Lemma updateLectureProgress_outcomes_witness :
  let record :=
    CourseProgress.mk "g1" "c1" "u1" false [("l1", false); ("l2", false); ("l2", false)] in
  let w := mkWorld [ann] [rocqCourse] [] [] [record] [] in
  progresses (snd (updateLectureProgress demoExternals "u1" "c1" "l2" true w))
  = [CourseProgress.mk "g1" "c1" "u1" false [("l1", false); ("l2", true); ("l2", false)]]
  /\ fst (updateLectureProgress demoExternals "u1" "c1" "l9" true w)
     = Threw (ExternalError
                "The positional operator did not find the match needed from the query").
Proof.
  intros record w. split.
  - destruct (updateLectureProgress_outcomes demoExternals "u1" "c1" "l2" true w)
      as (k & old & Hk & Hfirst & Hp & _).
    destruct k as [|[|[|k]]]; simpl in Hk; try discriminate Hk.
    + exact Hp.
    + exfalso. apply (Hfirst 1 ("l2", false)); [lia|reflexivity|reflexivity].
  - exact (proj1 (updateLectureProgress_outcomes demoExternals "u1" "c1" "l9" true w)).
Defined.

(** ** Payment status *)

(** X25.  [getPaymentStatus] reports only the caller's own purchases: when
    no purchase of the caller carries the order identifier, the answer is
    404 "Payment record not found", whether or not another user has a
    purchase under that identifier.  When it answers 200, the status it
    reports is the status of a purchase of the caller under that
    identifier. *)
Theorem getPaymentStatus_own_purchases_only (userId : ObjectId) (orderId : string) (w : World) :
  let r := getPaymentStatus userId orderId w in
  ((forall p, p ∈ purchases w -> CoursePurchase.paymentId p = orderId ->
              CoursePurchase.userId p <> userId) ->
     fst r = Ok (Next (mkAppError "Payment record not found" 404)))
  /\ (forall resp, fst r = Ok (Respond resp) ->
        exists p v, p ∈ purchases w
                    /\ CoursePurchase.userId p = userId
                    /\ CoursePurchase.paymentId p = orderId
                    /\ body resp = BJson v
                    /\ js_get "status" (js_get "purchase" (js_get "data" v))
                       = JStr (status_str (CoursePurchase.status p))).
Proof.
  intros r. subst r. unfold getPaymentStatus. run. split.
  - intros Hnone.
    assert (Hf : first_match (fun p => String.eqb (CoursePurchase.paymentId p) orderId
                                       && String.eqb (CoursePurchase.userId p) userId)
                   (purchases w) = None).
    { apply first_match_None. intros p Hin.
      destruct (String.eqb (CoursePurchase.paymentId p) orderId) eqn:Hp; [|done].
      apply String.eqb_eq in Hp. simpl. apply String.eqb_neq. by apply Hnone. }
    by rewrite Hf.
  - intros resp.
    destruct (first_match _ (purchases w)) as [[i p]|] eqn:Hf; simpl; [|discriminate].
    apply first_match_Some in Hf as (Hi & Hq & _).
    apply andb_true_iff in Hq as [Hp Hu]. apply String.eqb_eq in Hp, Hu.
    intros [= <-]. exists p. eexists. split; [by eapply list_elem_of_lookup_2|].
    repeat split; done.
Qed.

Lemma getPaymentStatus_own_purchases_only_witness :
  fst (getPaymentStatus "u2" "order_1" demoWorld)
  = Ok (Next (mkAppError "Payment record not found" 404)).
Proof.
  apply (proj1 (getPaymentStatus_own_purchases_only "u2" "order_1" demoWorld)).
  intros p Hp. apply list_elem_of_In in Hp. simpl in Hp.
  destruct Hp as [<-|[<-|[]]]; discriminate.
Defined.
